(** * policy-scraper: the document acquisition pipeline of [app.py]

    A shallow embedding of the scraping service: the Python string
    operations the code relies on, the content extractor over a parsed
    DOM, the artifact renderer, the object-store client, the document
    catalog and the two orchestrators ([scrape], [process_document]).

    Python [str] values are modelled as [string] (8-bit characters); the
    character classes are the ASCII ones.  External capabilities (HTML
    parser, URL parser, MD5, browser, HTTP, file system, PDF libraries,
    database driver) are fields of an environment record; every call
    that leaves the process is recorded in a log and may raise when the
    environment says so.  Console output is not modelled. *)

From Stdlib Require Import String Ascii List ZArith Lia Bool DecimalString.
From stdpp Require Import base gmap strings list sets.
Import ListNotations.
Local Open Scope string_scope.

(** ** Python string primitives *)

Module Py.

(** The newline character; "\n" in Python source. *)
Definition nl : string := String "010"%char EmptyString.

(** [str.isspace] on one ASCII character: space, TAB..CR and FS..US. *)
Definition is_space (c : ascii) : bool :=
  let n := nat_of_ascii c in
  (n =? 32)%nat || ((9 <=? n)%nat && (n <=? 13)%nat)
                || ((28 <=? n)%nat && (n <=? 31)%nat).

(** [\w] of the [re] module on one ASCII character. *)
Definition is_word (c : ascii) : bool :=
  let n := nat_of_ascii c in
  ((48 <=? n)%nat && (n <=? 57)%nat) || ((65 <=? n)%nat && (n <=? 90)%nat)
  || ((97 <=? n)%nat && (n <=? 122)%nat) || (n =? 95)%nat.

Definition lower_char (c : ascii) : ascii :=
  let n := nat_of_ascii c in
  if ((65 <=? n)%nat && (n <=? 90)%nat) then ascii_of_nat (n + 32) else c.

Fixpoint map_chars (f : ascii -> ascii) (s : string) : string :=
  match s with
  | EmptyString => EmptyString
  | String c r => String (f c) (map_chars f r)
  end.

Fixpoint all_chars (p : ascii -> bool) (s : string) : bool :=
  match s with
  | EmptyString => true
  | String c r => p c && all_chars p r
  end.

(** [s.lower()] *)
Definition lower (s : string) : string := map_chars lower_char s.

(** [len(s)] *)
Definition len (s : string) : nat := String.length s.

(** [s[:n]] *)
Definition take (n : nat) (s : string) : string := substring 0 n s.

(** [s.startswith(p)] *)
Definition startswith (s p : string) : bool := String.prefix p s.

(** [sub in s] *)
Fixpoint contains (sub s : string) : bool :=
  String.prefix sub s ||
  match s with
  | EmptyString => false
  | String _ r => contains sub r
  end.

(** [s.lstrip(chars)] with the set of characters given as a predicate. *)
Fixpoint lstrip_by (p : ascii -> bool) (s : string) : string :=
  match s with
  | EmptyString => EmptyString
  | String c r => if p c then lstrip_by p r else s
  end.

(** [s.rstrip(chars)] *)
Fixpoint rstrip_by (p : ascii -> bool) (s : string) : string :=
  match s with
  | EmptyString => EmptyString
  | String c r =>
      match rstrip_by p r with
      | EmptyString => if p c then EmptyString else String c EmptyString
      | r' => String c r'
      end
  end.

Definition is_slash (c : ascii) : bool := Ascii.eqb c "/"%char.

(** [s.lstrip('/')], [s.rstrip('/')], [s.strip()] *)
Definition lstrip_slash (s : string) : string := lstrip_by is_slash s.
Definition rstrip_slash (s : string) : string := rstrip_by is_slash s.
Definition strip (s : string) : string := rstrip_by is_space (lstrip_by is_space s).

(** [s.split()]: the maximal runs of non-space characters, in order.
    [cur] is the run being read, if any. *)
Fixpoint split_ws_go (cur : option string) (s : string) : list string :=
  match s with
  | EmptyString => match cur with Some w => [w] | None => [] end
  | String c r =>
      if is_space c
      then match cur with
           | Some w => w :: split_ws_go None r
           | None => split_ws_go None r
           end
      else split_ws_go (Some (match cur with
                              | Some w => w ++ String c EmptyString
                              | None => String c EmptyString
                              end)) r
  end.

Definition split_ws (s : string) : list string := split_ws_go None s.

(** [sep.join(l)] *)
Definition join (sep : string) (l : list string) : string := String.concat sep l.

(** [s.split(sep)] for a non-empty separator: the occurrences of [sep] are
    found left to right without overlap.  [skip] counts the characters of
    a separator still to be passed over, [cur] is the piece being read. *)
Fixpoint split_go (sep : string) (skip : nat) (cur : string) (s : string)
  : list string :=
  match s with
  | EmptyString => [cur]
  | String c r =>
      match skip with
      | S k => split_go sep k cur r
      | O =>
          if String.prefix sep s
          then cur :: split_go sep (String.length sep - 1) EmptyString r
          else split_go sep 0 (cur ++ String c EmptyString) r
      end
  end.

Definition split (sep s : string) : list string := split_go sep 0 EmptyString s.

(** [s.replace(old, new)] for a non-empty [old]. *)
Fixpoint replace_go (old new : string) (skip : nat) (s : string) : string :=
  match s with
  | EmptyString => EmptyString
  | String c r =>
      match skip with
      | S k => replace_go old new k r
      | O =>
          if String.prefix old s
          then new ++ replace_go old new (String.length old - 1) r
          else String c (replace_go old new 0 r)
      end
  end.

Definition replace (old new s : string) : string := replace_go old new 0 s.

(** [str(n)] for a non-negative integer. *)
Definition str_of_nat (n : nat) : string :=
  NilZero.string_of_uint (Nat.to_uint n).

(** Truthiness of an optional string ([None] and [''] are falsy). *)
Definition truthy (o : option string) : bool :=
  match o with
  | Some (String _ _) => true
  | _ => false
  end.

End Py.

(** ** Configuration and optional modules

    The module-level globals of [app.py]: the four environment variables
    read at start-up, and for each optional import whether it succeeded
    (the source binds the name to [None] when it did not). *)

Record Config := {
  SUPABASE_KEY : option string;
  SUPABASE_BUCKET : option string;
  SUPABASE_URL : option string;
  DATABASE_URL : option string
}.

Record Modules := {
  psycopg2 : bool;
  webdriver : bool;
  BeautifulSoup : bool;
  SimpleDocTemplate : bool;
  PdfReader : bool
}.

(** ** The parsed document

    What [BeautifulSoup(html, 'html.parser')] hands to the extractor: a
    forest of text nodes and elements.  Tag and attribute names are the
    lower-cased ones the parser stores; [attrs] is the element's attribute
    dictionary with the raw attribute values. *)

#[local] Set Warnings "-register-all".

Inductive node :=
| Text (s : string)
| Element (name : string) (attrs : gmap string string) (children : list node).

Definition soup := list node.

(** [element.decompose()] for every element satisfying [p]: the element
    goes with its whole subtree. *)
Fixpoint decompose_in (p : string -> gmap string string -> bool) (n : node)
  : list node :=
  match n with
  | Text s => [Text s]
  | Element nm at_ ch =>
      if p nm at_ then []
      else [Element nm at_ (flat_map (decompose_in p) ch)]
  end.

Definition decompose_where (p : string -> gmap string string -> bool)
  (doc : soup) : soup :=
  flat_map (decompose_in p) doc.

(** The elements of a subtree in document order, the root first. *)
Fixpoint elements_of (n : node) : list node :=
  match n with
  | Text _ => []
  | Element _ _ ch => n :: flat_map elements_of ch
  end.

Definition all_elements (doc : soup) : list node := flat_map elements_of doc.

Definition node_name (n : node) : string :=
  match n with Text _ => "" | Element nm _ _ => nm end.

Definition node_attrs (n : node) : gmap string string :=
  match n with Text _ => ∅ | Element _ at_ _ => at_ end.

Definition node_children (n : node) : list node :=
  match n with Text _ => [] | Element _ _ ch => ch end.

Definition name_in (names : list string) (n : node) : bool :=
  bool_decide (node_name n ∈ names).

(** [soup.find_all(names)] *)
Definition find_all (names : list string) (doc : soup) : list node :=
  List.filter (name_in names) (all_elements doc).

(** The text nodes below a node, in document order. *)
Fixpoint strings_of (n : node) : list string :=
  match n with
  | Text s => [s]
  | Element _ _ ch => flat_map strings_of ch
  end.

Definition non_empty (s : string) : bool :=
  match s with EmptyString => false | _ => true end.

(** [element.get_text(separator=sep, strip=True)]: every string is
    stripped, the empty ones are skipped, the rest joined. *)
Definition get_text (sep : string) (n : node) : string :=
  Py.join sep (List.filter non_empty (List.map Py.strip (strings_of n))).

(** ** extract_clean_text *)

Definition unwanted_tags : list string :=
  [ "script"; "style"; "nav"; "header"; "footer";
    "aside"; "iframe"; "img"; "video"; "audio";
    "form"; "button"; "input"; "select"; "textarea";
    "noscript"; "meta"; "link"; "title" ].

(** A selector [[attr*="pat"]]. *)
Record selector := AttrContains { sel_attr : string; sel_pat : string }.

Definition unwanted_selectors : list selector :=
  [ AttrContains "class" "ad"; AttrContains "class" "advertisement";
    AttrContains "class" "banner";
    AttrContains "class" "popup"; AttrContains "class" "modal";
    AttrContains "class" "sidebar";
    AttrContains "class" "menu"; AttrContains "class" "navigation";
    AttrContains "class" "nav";
    AttrContains "class" "header"; AttrContains "class" "footer";
    AttrContains "class" "social";
    AttrContains "class" "share"; AttrContains "class" "comment";
    AttrContains "class" "related";
    AttrContains "id" "ad"; AttrContains "id" "advertisement";
    AttrContains "id" "banner";
    AttrContains "id" "popup"; AttrContains "id" "modal";
    AttrContains "id" "sidebar";
    AttrContains "id" "menu"; AttrContains "id" "navigation";
    AttrContains "id" "nav";
    AttrContains "id" "header"; AttrContains "id" "footer" ].

(** The value a selector is matched against.  The parser stores [class]
    as the list of its white-space separated tokens and the selector
    engine joins that list with single spaces; every other attribute is
    matched on its raw value. *)
Definition attr_value (attr : string) (attrs : gmap string string)
  : option string :=
  match attrs !! attr with
  | Some v => Some (if String.eqb attr "class"
                    then Py.join " " (Py.split_ws v) else v)
  | None => None
  end.

(** [[attr*="pat"]] on an element: the attribute is present and its value
    contains [pat]; the comparison is the engine's default one, character
    by character. *)
Definition selects (sel : selector) (nm : string) (attrs : gmap string string)
  : bool :=
  match attr_value (sel_attr sel) attrs with
  | Some v => Py.contains (sel_pat sel) v
  | None => false
  end.

Definition remove_unwanted_tags (doc : soup) : soup :=
  fold_left (fun d tag => decompose_where (fun nm _ => String.eqb nm tag) d)
            unwanted_tags doc.

Definition remove_unwanted_selectors (doc : soup) : soup :=
  fold_left (fun d sel => decompose_where (selects sel) d)
            unwanted_selectors doc.

Definition content_tags : list string :=
  [ "p"; "div"; "section"; "article"; "main";
    "h1"; "h2"; "h3"; "h4"; "h5"; "h6";
    "table"; "thead"; "tbody"; "tr"; "th"; "td";
    "li"; "ul"; "ol"; "blockquote"; "pre"; "code" ].

Definition heading_tags : list string := [ "h1"; "h2"; "h3"; "h4"; "h5"; "h6" ].
Definition cell_tags : list string := [ "th"; "td" ].
Definition inline_tags : list string := [ "span"; "a"; "strong"; "em"; "b"; "i" ].

(** [re.match(r'^[\s\W]*$', text)] *)
Definition only_space_or_punct (text : string) : bool :=
  Py.all_chars (fun c => Py.is_space c || negb (Py.is_word c)) text.

(** The filter of the main pass. *)
Definition acceptable (text : string) : bool :=
  non_empty text
  && (2 <? Py.len (Py.strip text))%nat
  && negb (only_space_or_punct text)
  && negb (Py.contains "cookie" (Py.lower text))
  && negb (Py.contains "subscribe" (Py.take 30 (Py.lower text))).

(** What one content element appends to [text_content], if anything. *)
Definition main_block (element : node) : option string :=
  let text := get_text " " element in
  if acceptable text then
    if name_in heading_tags element then Some ("[HEADING] " ++ text)
    else if name_in cell_tags element then
      if (1 <=? length (Py.split_ws text))%nat
      then Some ("[TABLE] " ++ text) else None
    else if (2 <=? length (Py.split_ws text))%nat then Some text
    else None
  else None.

(** What one inline element appends in the fallback pass. *)
Definition fallback_block (element : node) : option string :=
  let text := get_text "" element in
  if non_empty text && (5 <? Py.len text)%nat
     && (1 <=? length (Py.split_ws text))%nat
  then Some text else None.

(** [soup.find('body') or soup], as the forest that is searched below it. *)
Definition body_contents (doc : soup) : soup :=
  match find_all ["body"] doc with
  | body :: _ => node_children body
  | [] => doc
  end.

(** [text_content] after both passes. *)
Definition text_content_of (doc : soup) : list string :=
  let main := omap main_block (find_all content_tags doc) in
  match main with
  | [] => omap fallback_block (find_all inline_tags (body_contents doc))
  | _ => main
  end.

(** [' '.join(text.split())] *)
Definition clean_text_of (text : string) : string :=
  Py.join " " (Py.split_ws text).

(** The de-duplication loop; [seen] is the set of the source. *)
Fixpoint unique_loop (seen : gset string) (text_content : list string)
  : list string :=
  match text_content with
  | [] => []
  | text :: rest =>
      let clean_text := clean_text_of text in
      if bool_decide (clean_text ∉ seen)
         && (2 <? Py.len (Py.strip clean_text))%nat
      then clean_text :: unique_loop ({[clean_text]} ∪ seen) rest
      else unique_loop seen rest
  end.

Definition unique_content (text_content : list string) : list string :=
  unique_loop ∅ text_content.

(** The document the text is collected from: both removal passes done. *)
Definition cleaned (doc : soup) : soup :=
  remove_unwanted_selectors (remove_unwanted_tags doc).

(** The extractor on a parsed document. *)
Definition extract_from_soup (doc : soup) : string :=
  Py.join (Py.nl ++ Py.nl) (unique_content (text_content_of (cleaned doc))).

(** [extract_clean_text(html_content, url)]; [parser] is
    [BeautifulSoup(_, 'html.parser')]. *)
Definition extract_clean_text (mods : Modules) (parser : string -> soup)
  (html_content url : string) : string :=
  if negb (BeautifulSoup mods)
  then "BeautifulSoup not available for text extraction"
  else extract_from_soup (parser html_content).

(** ** Effects

    Everything outside the process is reached through an operation
    [op].  Running one advances a clock, appends the operation to the
    log, and asks the environment whether it raises; answers (a page
    title, an HTTP response, a file name) are read from the environment
    at the same clock value. *)

Inductive exn :=
| Exception (msg : string)
| HTTPException (status_code : nat) (detail : string).

(** [str(e)] *)
Definition str_of_exn (e : exn) : string :=
  match e with
  | Exception msg => msg
  | HTTPException code detail => Py.str_of_nat code ++ ": " ++ detail
  end.

Inductive style := CustomTitle | Normal.

(** The flowables [create_pdf_from_text] puts in its story. *)
Inductive flowable :=
| Paragraph (text : string) (st : style)
| Spacer (width height : nat).

(** A JSON value of a result dictionary. *)
Inductive jvalue :=
| JNull
| JStr (s : string)
| JNum (n : nat).

Inductive op :=
| Chrome
| SetPageLoadTimeout (seconds : nat)
| ExecuteScript (script : string)
| DriverGet (url : string)
| DriverTitle
| DriverPageSource
| DriverQuit
| Sleep (seconds : nat)
| RequestsGet (url : string) (timeout : nat)
| RequestsPut (url data authorization apiKey : string) (timeout : nat)
| NamedTemporaryFile (suffix : string)
| FileWrite (path content : string)
| FileRead (path : string)
| Remove (path : string)
| Makedirs (path : string)
| Replace (src dst : string)
| Strftime
| DocBuild (path : string) (story : list flowable)
| Uuid4
| Connect (dsn : string)
| ExecuteCreateTable
| ExecuteInsert
| ExecuteUpdate
| ExecuteSelect
| Commit
| CursorClose
| ConnClose
| PdfReaderOpen (path : string)
| ResultsAppend (entry : gmap string jvalue).

Record response := { status_code : nat; text : string }.

(** The environment.  [urlparse] and [md5_hexdigest] give the results
    of the pure library calls; [url_error] tells for which URLs
    [urlparse(url)] or [url.encode()] raises instead, and what. *)
Record Env := {
  parser : string -> soup;
  urlparse : string -> string * string;
  md5_hexdigest : string -> string;
  url_error : string -> option exn;
  raises : op -> nat -> option exn;
  answer : op -> nat -> string;
  http_answer : op -> nat -> response;
  pages_answer : op -> nat -> list string
}.

(** One row of the [documents] relation; every column but the key is
    nullable. *)
Record Document := {
  id : string;
  project_id : option string;
  filename : option string;
  file_path : option string;
  source : option string;
  status : option string;
  document_content : option string
}.

(** A statement executed on an open connection and not yet committed. *)
Inductive pending_op :=
| PendingInsert (row : Document)
| PendingUpdate (document_id : string) (content : option string)
                (new_status : option string).

Record World := {
  clock : nat;
  log : list op;
  documents : list Document;
  pending : option (list pending_op)
}.

Inductive outcome (A : Type) :=
| Ok (a : A)
| Raise (e : exn).
Arguments Ok {A} a.
Arguments Raise {A} e.

Definition M (A : Type) : Type := World -> outcome A * World.

#[global] Instance M_ret : MRet M := fun A a w => (Ok a, w).

#[global] Instance M_bind : MBind M := fun A B f m w =>
  match m w with
  | (Ok a, w') => f a w'
  | (Raise e, w') => (Raise e, w')
  end.

Definition raise {A : Type} (e : exn) : M A := fun w => (Raise e, w).

(** [try: body except Exception as e: handler(e)] *)
Definition try_except {A : Type} (body : M A) (handler : exn -> M A) : M A :=
  fun w =>
    match body w with
    | (Ok a, w') => (Ok a, w')
    | (Raise e, w') => handler e w'
    end.

(** [try: body finally: cleanup]; an exception of [cleanup] replaces the
    outcome of [body]. *)
Definition try_finally {A : Type} (body : M A) (cleanup : M unit) : M A :=
  fun w =>
    match body w with
    | (r, w') =>
        match cleanup w' with
        | (Ok _, w'') => (r, w'')
        | (Raise e, w'') => (Raise e, w'')
        end
    end.

(** [try: body except: pass] *)
Definition ignore_errors (body : M unit) : M unit :=
  try_except body (fun _ => mret tt).

Definition tick (o : op) (w : World) : World :=
  {| clock := S (clock w); log := log w ++ [o];
     documents := documents w; pending := pending w |}.

(** Run an operation that returns nothing. *)
Definition perform (env : Env) (o : op) : M unit := fun w =>
  match raises env o (clock w) with
  | Some e => (Raise e, tick o w)
  | None => (Ok tt, tick o w)
  end.

(** Run an operation that returns a string. *)
Definition ask (env : Env) (o : op) : M string := fun w =>
  match raises env o (clock w) with
  | Some e => (Raise e, tick o w)
  | None => (Ok (answer env o (clock w)), tick o w)
  end.

Definition ask_http (env : Env) (o : op) : M response := fun w =>
  match raises env o (clock w) with
  | Some e => (Raise e, tick o w)
  | None => (Ok (http_answer env o (clock w)), tick o w)
  end.

Definition ask_pages (env : Env) (o : op) : M (list string) := fun w =>
  match raises env o (clock w) with
  | Some e => (Raise e, tick o w)
  | None => (Ok (pages_answer env o (clock w)), tick o w)
  end.

(** Operations that only leave a trace: [time.sleep], [results.append]. *)
Definition record (o : op) : M unit := fun w => (Ok tt, tick o w).

Definition sleep (seconds : nat) : M unit := record (Sleep seconds).

Definition get_world : M World := fun w => (Ok w, w).

Definition set_db (docs : list Document) (pend : option (list pending_op))
  : M unit :=
  fun w => (Ok tt, {| clock := clock w; log := log w;
                      documents := docs; pending := pend |}).

(** ** os.path *)

Module OsPath.

(** [os.path.basename(p)]: what follows the last slash. *)
Definition basename (p : string) : string :=
  List.last (Py.split "/" p) EmptyString.

(** [os.path.dirname(p)]: what precedes the last slash, without its
    trailing slashes unless it consists of slashes only. *)
Definition dirname (p : string) : string :=
  match Py.split "/" p with
  | [] | [_] => EmptyString
  | pieces =>
      let head := Py.join "/" (removelast pieces) ++ "/" in
      if Py.all_chars Py.is_slash head then head else Py.rstrip_slash head
  end.

End OsPath.

(** ** upload_to_supabase *)

(** The string behind an optional value that was tested to be truthy. *)
Definition value (o : option string) : string :=
  match o with Some s => s | None => EmptyString end.

Definition supabase_configured (cfg : Config) (bucket : option string) : bool :=
  Py.truthy (SUPABASE_URL cfg) && Py.truthy (SUPABASE_KEY cfg)
  && Py.truthy bucket.

Definition object_url (cfg : Config) (bucket dest_path : string) : string :=
  Py.rstrip_slash (value (SUPABASE_URL cfg)) ++ "/storage/v1/object/"
  ++ bucket ++ "/" ++ dest_path.

Definition public_object_url (cfg : Config) (bucket dest_path : string)
  : string :=
  Py.rstrip_slash (value (SUPABASE_URL cfg)) ++ "/storage/v1/object/public/"
  ++ bucket ++ "/" ++ dest_path.

Definition upload_succeeded (resp : response) : bool :=
  bool_decide (status_code resp ∈ [200; 201; 204]).

Definition upload_to_supabase (env : Env) (cfg : Config)
  (file_path_ : string) (bucket : option string) (dest_path : string)
  : M string :=
  if negb (supabase_configured cfg bucket) then
    raise (Exception
      "Supabase configuration missing (SUPABASE_URL, SUPABASE_KEY, SUPABASE_BUCKET)")
  else
    let dest_path := Py.lstrip_slash dest_path in
    let url := object_url cfg (value bucket) dest_path in
    data ← ask env (FileRead file_path_);
    resp ← ask_http env
      (RequestsPut url data ("Bearer " ++ value (SUPABASE_KEY cfg))
                   (value (SUPABASE_KEY cfg)) 60);
    if upload_succeeded resp
    then mret (public_object_url cfg (value bucket) dest_path)
    else mret ("upload_failed: " ++ Py.str_of_nat (status_code resp)
               ++ " " ++ text resp).

(** ** create_pdf_from_text *)

(** The loop over the paragraphs.  The separator and the pattern of the
    replacement are the source's literals ['\\n\\n'] and ['\\n']: in
    Python each denotes a backslash followed by the letter n, and so does
    the same text between the quotes here. *)
Definition paragraph_separator : string := "\n\n".
Definition escaped_newline : string := "\n".

Definition paragraph_blocks (text_content : string) : list flowable :=
  flat_map
    (fun para =>
       if non_empty (Py.strip para) then
         let clean_para := Py.strip (Py.replace escaped_newline " " para) in
         if (10 <? Py.len clean_para)%nat
         then [Paragraph clean_para Normal; Spacer 1 12]
         else []
       else [])
    (Py.split paragraph_separator text_content).

Definition story_of (text_content url project_id_ now : string)
  : list flowable :=
  [ Paragraph "Web Content Extraction" CustomTitle;
    Paragraph ("URL: " ++ url) Normal;
    Paragraph ("Project: " ++ project_id_) Normal;
    Paragraph ("Extracted: " ++ now) Normal;
    Spacer 1 20 ]
  ++ paragraph_blocks text_content.

(** [os.makedirs(path, exist_ok=True)]; the empty path always raises. *)
Definition makedirs (env : Env) (path : string) : M unit :=
  if non_empty path then perform env (Makedirs path)
  else (perform env (Makedirs path);;
        raise (Exception "[Errno 2] No such file or directory: ''")).

Definition create_pdf_from_text (env : Env) (cfg : Config) (mods : Modules)
  (text_content pdf_path url project_id_ : string) : M string :=
  if negb (SimpleDocTemplate mods) then
    temp_path ← ask env (NamedTemporaryFile ".txt");
    perform env (FileWrite temp_path text_content);;
    if supabase_configured cfg (SUPABASE_BUCKET cfg) then
      let dest_name := Py.replace ".pdf" ".txt" (OsPath.basename pdf_path) in
      uploaded ← upload_to_supabase env cfg temp_path (SUPABASE_BUCKET cfg)
                                    dest_name;
      ignore_errors (perform env (Remove temp_path));;
      mret uploaded
    else mret temp_path
  else
    temp_pdf_path ← ask env (NamedTemporaryFile ".pdf");
    now ← ask env Strftime;
    perform env
      (DocBuild temp_pdf_path (story_of text_content url project_id_ now));;
    if supabase_configured cfg (SUPABASE_BUCKET cfg) then
      let dest_name := OsPath.basename pdf_path in
      uploaded_url ← upload_to_supabase env cfg temp_pdf_path
                                        (SUPABASE_BUCKET cfg) dest_name;
      ignore_errors (perform env (Remove temp_pdf_path));;
      mret uploaded_url
    else
      try_except
        (makedirs env (OsPath.dirname pdf_path);;
         perform env (Replace temp_pdf_path pdf_path);;
         mret pdf_path)
        (fun _ => mret temp_pdf_path).

(** ** The document catalog *)

(** [conn = psycopg2.connect(DATABASE_URL)]: the local name [conn] is
    unbound until the call returns, and then denotes a connection with
    nothing pending. *)
Definition db_connect (env : Env) (cfg : Config) : M unit :=
  w ← get_world;
  set_db (documents w) None;;
  perform env (Connect (value (DATABASE_URL cfg)));;
  set_db (documents w) (Some []).

(** Stage a statement on the open connection. *)
Definition db_stage (p : pending_op) : M unit :=
  w ← get_world;
  match pending w with
  | Some l => set_db (documents w) (Some (l ++ [p])%list)
  | None => raise (Exception "connection already closed")
  end.

(** The column [id] has the type [UUID]: two texts are compared as the
    identifiers they denote.  PostgreSQL reads the digits in either case,
    with or without hyphens, with or without braces around them;
    [uuid_key] keeps what is left of a text once these are put aside.  A
    text that denotes no identifier makes the statement fail, which is
    one of the failures the environment decides on ([raises]). *)
Definition is_uuid_punctuation (c : ascii) : bool :=
  Ascii.eqb c "-"%char || Ascii.eqb c "{"%char || Ascii.eqb c "}"%char.

Fixpoint drop_chars (p : ascii -> bool) (s : string) : string :=
  match s with
  | EmptyString => EmptyString
  | String c r => if p c then drop_chars p r else String c (drop_chars p r)
  end.

Definition uuid_key (s : string) : string :=
  Py.lower (drop_chars is_uuid_punctuation s).

(** [WHERE id = %s] on one row. *)
Definition has_id (document_id : string) (d : Document) : bool :=
  String.eqb (uuid_key (id d)) (uuid_key document_id).

Definition apply_pending (docs : list Document) (p : pending_op)
  : list Document :=
  match p with
  | PendingInsert row => (docs ++ [row])%list
  | PendingUpdate document_id content new_status =>
      List.map (fun d =>
        if has_id document_id d
        then {| id := id d; project_id := project_id d;
                filename := filename d; file_path := file_path d;
                source := source d; status := new_status;
                document_content := content |}
        else d) docs
  end.

(** [conn.commit()] *)
Definition db_commit (env : Env) : M unit :=
  perform env Commit;;
  w ← get_world;
  match pending w with
  | Some l => set_db (fold_left apply_pending l (documents w)) (Some [])
  | None => raise (Exception "connection already closed")
  end.

(** [conn.close()]: what was not committed is lost.  Without a
    connection the name [conn] is unbound and the call raises. *)
Definition db_close (env : Env) : M unit :=
  w ← get_world;
  match pending w with
  | Some _ => perform env ConnClose;; set_db (documents w) None
  | None => raise (Exception "name 'conn' is not defined")
  end.

(** The [INSERT] statement: the primary key must be new. *)
Definition db_insert (env : Env) (row : Document) : M unit :=
  perform env ExecuteInsert;;
  w ← get_world;
  if existsb (has_id (id row)) (documents w)
  then raise (Exception "duplicate key value violates unique constraint")
  else db_stage (PendingInsert row).

(** The parameter tuple of the [INSERT] statement as a row. *)
Definition insert_row (doc_id : string) (project_id_ : option string)
  (filename_ file_path_ source_ status_ : string)
  (document_content_ : option string) : Document :=
  {| id := doc_id;
     project_id := if Py.truthy project_id_ then project_id_ else None;
     filename := Some filename_;
     file_path := Some file_path_;
     source := Some source_;
     status := Some status_;
     document_content := document_content_ |}.

Definition insert_document_record (env : Env) (cfg : Config) (mods : Modules)
  (project_id_ : option string) (filename_ file_path_ source_ status_ : string)
  (document_content_ : option string) : M (option string) :=
  if negb (psycopg2 mods) then mret None
  else if negb (Py.truthy (DATABASE_URL cfg)) then mret None
  else
    try_except
      (db_connect env cfg;;
       perform env ExecuteCreateTable;;
       doc_id ← ask env Uuid4;
       db_insert env (insert_row doc_id project_id_ filename_ file_path_
                                 source_ status_ document_content_);;
       db_commit env;;
       perform env CursorClose;;
       db_close env;;
       mret (Some doc_id))
      (fun _ => ignore_errors (db_close env);; mret None).

(** [response.raise_for_status()] *)
Definition raise_for_status (resp : response) : M unit :=
  if (400 <=? status_code resp)%nat && (status_code resp <? 600)%nat
  then raise (Exception (Py.str_of_nat (status_code resp) ++ " Error"))
  else mret tt.

Definition download_pdf_from_url (env : Env) (url : string)
  : M (option string) :=
  try_except
    (resp ← ask_http env (RequestsGet url 60);
     raise_for_status resp;;
     tmp ← ask env (NamedTemporaryFile ".pdf");
     perform env (FileWrite tmp (text resp));;
     mret (Some tmp))
    (fun _ => mret None).

Definition extract_text_from_pdf (env : Env) (mods : Modules)
  (pdf_path : string) : M (option string) :=
  if negb (PdfReader mods) then mret None
  else
    try_except
      (pages ← ask_pages env (PdfReaderOpen pdf_path);
       mret (Some (Py.join (Py.nl ++ Py.nl) (List.filter non_empty pages))))
      (fun _ => mret None).

Definition update_document_content (env : Env) (cfg : Config) (mods : Modules)
  (document_id content : string) : M bool :=
  if negb (psycopg2 mods && Py.truthy (DATABASE_URL cfg)) then mret false
  else
    try_except
      (db_connect env cfg;;
       perform env ExecuteUpdate;;
       w ← get_world;
       let rows_updated :=
         length (List.filter (has_id document_id) (documents w)) in
       db_stage (PendingUpdate document_id (Some content) (Some "processed"));;
       db_commit env;;
       perform env CursorClose;;
       db_close env;;
       mret (0 <? rows_updated)%nat)
      (fun _ => ignore_errors (db_close env);; mret false).

Definition get_document_by_id (env : Env) (cfg : Config) (mods : Modules)
  (document_id : string) : M (option Document) :=
  if negb (psycopg2 mods && Py.truthy (DATABASE_URL cfg)) then mret None
  else
    try_except
      (db_connect env cfg;;
       perform env ExecuteSelect;;
       w ← get_world;
       let row := List.find (has_id document_id) (documents w) in
       perform env CursorClose;;
       db_close env;;
       mret row)
      (fun _ => ignore_errors (db_close env);; mret None).

(** ** process_document *)

Definition process_document (env : Env) (cfg : Config) (mods : Modules)
  (document_id : string) : M (gmap string jvalue) :=
  if negb (PdfReader mods) then
    raise (HTTPException 500
      "PyPDF2 not available. Install PyPDF2 for PDF text extraction.")
  else
    document ← get_document_by_id env cfg mods document_id;
    match document with
    | None =>
        raise (HTTPException 404
          ("Document with id " ++ document_id ++ " not found"))
    | Some document =>
        if negb (Py.truthy (file_path document)) then
          raise (HTTPException 400 "Document has no file_path")
        else
          local_pdf_path ← download_pdf_from_url env (value (file_path document));
          match local_pdf_path with
          | None | Some EmptyString =>
              raise (HTTPException 500 "Failed to download PDF from Supabase")
          | Some local_pdf_path =>
              try_finally
                (extracted_text ← extract_text_from_pdf env mods local_pdf_path;
                 if negb (Py.truthy extracted_text) then
                   raise (HTTPException 500 "Failed to extract text from PDF")
                 else
                   success ← update_document_content env cfg mods document_id
                                                     (value extracted_text);
                   if negb success then
                     raise (HTTPException 500
                       "Failed to update document_content in database")
                   else
                     mret ({[ "document_id" := JStr document_id;
                              "status" := JStr "processed";
                              "content_length" :=
                                JNum (Py.len (value extracted_text));
                              "message" :=
                                JStr "Document processed successfully" ]}
                           : gmap string jvalue))
                (ignore_errors (perform env (Remove local_pdf_path)))
          end
    end.

(** ** scrape *)

(** *** The file name of a URL *)

Definition domain_of (env : Env) (url : string) : string :=
  Py.replace "." "_" (Py.replace "www." "" (fst (urlparse env url))).

Definition path_of (env : Env) (url : string) : string :=
  Py.replace "." "_" (Py.replace "/" "_" (snd (urlparse env url))).

Definition url_hash (env : Env) (url : string) : string :=
  Py.take 8 (md5_hexdigest env url).

Definition filename_base (env : Env) (url : string) : string :=
  let domain := domain_of env url in
  let path := path_of env url in
  if non_empty path && (5 <? Py.len path)%nat
  then Py.take 50 (domain ++ path)
  else domain ++ "_" ++ url_hash env url.

(** The characters [re.sub(r'[^a-zA-Z0-9_-]', '_', _)] leaves alone. *)
Definition is_filename_char (c : ascii) : bool :=
  Py.is_word c || Ascii.eqb c "-"%char.

Definition sanitize_char (c : ascii) : ascii :=
  if is_filename_char c then c else "_"%char.

Definition clean_filename (env : Env) (url : string) : string :=
  Py.map_chars sanitize_char (filename_base env url).

Definition pdf_name_of (env : Env) (project_id_ url : string) : string :=
  project_id_ ++ "_" ++ clean_filename env url ++ ".pdf".

(** *** Tier 1: the rendered fetch *)

Definition max_retries : nat := 3.

Inductive loop_ctl := LoopBreak | LoopContinue.

Definition is_blocked (page_title : string) : bool :=
  Py.contains "blocked" page_title || Py.contains "forbidden" page_title.

(** The statements of the inner [try] up to the reading of the title:
    navigation, the settle and scroll sequence, [driver.title.lower()]. *)
Definition load_page (env : Env) (url : string) : M string :=
  perform env (DriverGet url);;
  sleep 2;;
  perform env
    (ExecuteScript "window.scrollTo(0, document.body.scrollHeight/2);");;
  sleep 1;;
  perform env (ExecuteScript "window.scrollTo(0, 0);");;
  sleep 1;;
  title ← ask env DriverTitle;
  mret (Py.lower title).

(** The body of the [for attempt in range(max_retries)] loop. *)
Definition attempt_body (env : Env) (url : string) (attempt : nat)
  : M loop_ctl :=
  try_except
    (page_title ← load_page env url;
     if is_blocked page_title then
       if (attempt <? max_retries - 1)%nat
       then sleep 5;; mret LoopContinue
       else mret LoopBreak
     else mret LoopBreak)
    (fun retry_error =>
       if (attempt <? max_retries - 1)%nat
       then sleep 5;; mret LoopContinue
       else raise retry_error).

(** The loop, with [remaining] iterations left. *)
Fixpoint retry_loop (env : Env) (url : string) (remaining attempt : nat)
  : M unit :=
  match remaining with
  | O => mret tt
  | S k =>
      ctl ← attempt_body env url attempt;
      match ctl with
      | LoopBreak => mret tt
      | LoopContinue => retry_loop env url k (S attempt)
      end
  end.

Definition navigate (env : Env) (url : string) : M unit :=
  retry_loop env url max_retries 0.

(** *** One URL *)

Definition jopt (o : option string) : jvalue :=
  match o with Some s => JStr s | None => JNull end.

(** The test that decides whether a catalog row is inserted. *)
Definition looks_uploaded (cfg : Config) (created_file : string) : bool :=
  Py.truthy (SUPABASE_URL cfg) && non_empty created_file
  && Py.startswith created_file (Py.rstrip_slash (value (SUPABASE_URL cfg))).

Definition record_if_uploaded (env : Env) (cfg : Config) (mods : Modules)
  (project_id_ pdf_name created_file : string) : M (option string) :=
  if looks_uploaded cfg created_file then
    try_except
      (insert_document_record env cfg mods (Some project_id_) pdf_name
                              created_file "scrape" "pending" None)
      (fun _ => mret None)
  else mret None.

Definition fetched_entry (url created_file method : string)
  (clean_text : string) (document_id : option string) : gmap string jvalue :=
  {[ "url" := JStr url;
     "pdf_file" := JStr created_file;
     "method" := JStr method;
     "content_length" := JNum (Py.len clean_text);
     "document_id" := jopt document_id ]}.

(** What follows the fetch in both tiers: extraction, rendering, the
    conditional catalog insert and the result entry. *)
Definition store_page (env : Env) (cfg : Config) (mods : Modules)
  (project_id_ url pdf_name html method : string) : M unit :=
  let clean_text := extract_clean_text mods (parser env) html url in
  created_file ← create_pdf_from_text env cfg mods clean_text pdf_name url
                                      project_id_;
  document_id ← record_if_uploaded env cfg mods project_id_ pdf_name
                                   created_file;
  record (ResultsAppend
            (fetched_entry url created_file method clean_text document_id)).

(** The [try] block of one URL: tier 1. *)
Definition rendered_fetch (env : Env) (cfg : Config) (mods : Modules)
  (project_id_ url pdf_name : string) : M unit :=
  navigate env url;;
  html_content ← ask env DriverPageSource;
  store_page env cfg mods project_id_ url pdf_name html_content "selenium".

(** The first handler: tier 2. *)
Definition static_fetch (env : Env) (cfg : Config) (mods : Modules)
  (project_id_ url pdf_name : string) : M unit :=
  resp ← ask_http env (RequestsGet url 30);
  raise_for_status resp;;
  store_page env cfg mods project_id_ url pdf_name (text resp)
             "requests_fallback".

(** The second handler: the error artifact. *)
Definition error_artifact (env : Env) (cfg : Config) (mods : Modules)
  (project_id_ url pdf_name : string) (e fallback_error : exn) : M unit :=
  try_except
    (let error_content :=
       "Failed to scrape URL: " ++ url ++ " - Selenium Error: "
       ++ str_of_exn e ++ " - Fallback Error: "
       ++ str_of_exn fallback_error in
     error_pdf ← create_pdf_from_text env cfg mods error_content
                                      pdf_name url project_id_;
     record (ResultsAppend
       ({[ "url" := JStr url;
           "pdf_file" := JStr error_pdf;
           "method" := JStr "error_pdf";
           "error" := JStr "Both methods failed, created error PDF" ]}
        : gmap string jvalue)))
    (fun _ =>
       record (ResultsAppend
         ({[ "url" := JStr url;
             "error" :=
               JStr ("Selenium failed: " ++ str_of_exn e
                     ++ ", Fallback failed: "
                     ++ str_of_exn fallback_error) ]}
          : gmap string jvalue))).

(** The statements of the loop body that precede the [try]:
    [urlparse(url)], [url.encode()] and the derivation of the file name.
    For a URL that cannot be parsed or encoded they raise [url_error],
    outside the handlers of the URL. *)
Definition derive_pdf_name (env : Env) (project_id_ url : string) : M string :=
  match url_error env url with
  | Some e => raise e
  | None => mret (pdf_name_of env project_id_ url)
  end.

(** The [try] statement of one URL: the three tiers. *)
Definition fetch_url (env : Env) (cfg : Config) (mods : Modules)
  (project_id_ url pdf_name : string) : M unit :=
  try_except
    (rendered_fetch env cfg mods project_id_ url pdf_name)
    (fun e =>
       try_except
         (static_fetch env cfg mods project_id_ url pdf_name)
         (fun fallback_error =>
            error_artifact env cfg mods project_id_ url pdf_name
                           e fallback_error)).

(** The body of the loop over the URLs. *)
Definition scrape_url (env : Env) (cfg : Config) (mods : Modules)
  (project_id_ url : string) : M unit :=
  pdf_name ← derive_pdf_name env project_id_ url;
  fetch_url env cfg mods project_id_ url pdf_name.

(** The entries appended to [results], read off a log. *)
Definition appended (l : list op) : list (gmap string jvalue) :=
  omap (fun o => match o with ResultsAppend e => Some e | _ => None end) l.

Fixpoint for_each {A : Type} (f : A -> M unit) (l : list A) : M unit :=
  match l with
  | [] => mret tt
  | x :: r => f x;; for_each f r
  end.

Definition scrape (env : Env) (cfg : Config) (mods : Modules)
  (urls : list string) (project_id_ : string)
  : M (list (gmap string jvalue)) :=
  if negb (webdriver mods) then
    raise (HTTPException 500
      "Selenium not available. Install selenium and ensure ChromeDriver is available.")
  else
    w0 ← get_world;
    let driver_failed (e : exn) : M unit :=
      raise (HTTPException 500
               ("Driver initialization failed: " ++ str_of_exn e)) in
    try_except (perform env Chrome) driver_failed;;
    try_finally
      (try_except
         (perform env (SetPageLoadTimeout 30);;
          perform env (ExecuteScript
            "Object.defineProperty(navigator, 'webdriver', {get: () => undefined})");;
          for_each (scrape_url env cfg mods project_id_) urls)
         driver_failed)
      (perform env DriverQuit);;
    w ← get_world;
    mret (drop (length (appended (log w0))) (appended (log w))).

(** ** Reading logs and worlds *)

(** The operations a computation performs from [w]. *)
Definition ops_of {A : Type} (m : M A) (w : World) : list op :=
  drop (length (log w)) (log (snd (m w))).

Definition is_driver_get (o : op) : bool :=
  match o with DriverGet _ => true | _ => false end.

Definition is_requests_get (o : op) : bool :=
  match o with RequestsGet _ _ => true | _ => false end.

Definition is_results_append (o : op) : bool :=
  match o with ResultsAppend _ => true | _ => false end.

(** The statements sent to the database. *)
Definition is_db_op (o : op) : bool :=
  match o with
  | Connect _ | ExecuteCreateTable | ExecuteInsert | ExecuteUpdate
  | ExecuteSelect | Commit | CursorClose | ConnClose => true
  | _ => false
  end.

(** Neither a navigation nor an entry of [results]. *)
Definition no_fetch_no_result (o : op) : Prop :=
  is_driver_get o = false /\ is_results_append o = false.

(** In addition, no statement for the database. *)
Definition quiet (o : op) : Prop :=
  no_fetch_no_result o /\ is_db_op o = false.

(** [m] only appends operations satisfying [P] to the log. *)
Definition emits {A : Type} (P : op -> Prop) (m : M A) : Prop :=
  forall w, exists l, log (snd (m w)) = (log w ++ l)%list /\ Forall P l.

(** [m] leaves the catalog and the open connection as they are. *)
Definition keeps_db {A : Type} (m : M A) : Prop :=
  forall w, documents (snd (m w)) = documents w
            /\ pending (snd (m w)) = pending w.

(** [m] never raises. *)
Definition never_raises {A : Type} (m : M A) : Prop :=
  forall w, exists a, fst (m w) = Ok a.

(** What makes an attempt of tier 1 a failed one. *)
Definition retry_trigger (r : outcome string) : bool :=
  match r with
  | Raise _ => true
  | Ok page_title => is_blocked page_title
  end.

(** Induction on documents: an element's children are covered by the
    hypothesis. *)
Fixpoint node_induction (P : node -> Prop)
  (HText : forall s, P (Text s))
  (HElement : forall nm at_ ch, Forall P ch -> P (Element nm at_ ch))
  (n : node) : P n :=
  match n with
  | Text s => HText s
  | Element nm at_ ch =>
      HElement nm at_ ch
        ((fix children (l : list node) : Forall P l :=
            match l with
            | [] => @List.Forall_nil _ P
            | x :: r =>
                @List.Forall_cons _ P x r
                                  (node_induction P HText HElement x)
                                  (children r)
            end) ch)
  end.

(** The patterns of [unwanted_selectors], by attribute. *)
Definition class_patterns : list string :=
  [ "ad"; "advertisement"; "banner"; "popup"; "modal"; "sidebar";
    "menu"; "navigation"; "nav"; "header"; "footer"; "social";
    "share"; "comment"; "related" ].

Definition id_patterns : list string :=
  [ "ad"; "advertisement"; "banner"; "popup"; "modal"; "sidebar";
    "menu"; "navigation"; "nav"; "header"; "footer" ].

(** Some selector of the list selects an element with these attributes. *)
Definition matches_unwanted (attrs : gmap string string) : bool :=
  existsb (fun pat => selects (AttrContains "class" pat) "" attrs)
          class_patterns
  || existsb (fun pat => selects (AttrContains "id" pat) "" attrs)
             id_patterns.

(** The removal rule as the specification words it: the class or the id
    contains, whatever the case of its letters, an entry of the one list
    of fifteen. *)
Definition claimed_unwanted (attrs : gmap string string) : bool :=
  existsb
    (fun pat =>
       match attrs !! "class" with
       | Some v => Py.contains pat (Py.lower v)
       | None => false
       end
       || match attrs !! "id" with
          | Some v => Py.contains pat (Py.lower v)
          | None => false
          end)
    class_patterns.

(** The string is empty or its last character is not white space. *)
Fixpoint ends_nonspace (s : string) : bool :=
  match s with
  | EmptyString => true
  | String c EmptyString => negb (Py.is_space c)
  | String _ r => ends_nonspace r
  end.

(** The string is not empty and its first character is not white space. *)
Definition starts_nonspace (s : string) : bool :=
  match s with
  | EmptyString => false
  | String c _ => negb (Py.is_space c)
  end.

(** A word: not empty, no white space. *)
Definition is_word_string (s : string) : bool :=
  non_empty s && Py.all_chars (fun c => negb (Py.is_space c)) s.

(** What the de-duplication loop keeps of a normalised text. *)
Definition long_enough (clean_text : string) : bool :=
  (2 <? Py.len (Py.strip clean_text))%nat.

(** [x] is not the character [c]. *)
Definition differs_from (c : ascii) (x : ascii) : bool := negb (Ascii.eqb c x).

(** The public address as the specification words it: the endpoint as
    configured, then the fixed path, the bucket and the destination path
    (its leading slashes already stripped). *)
Definition claimed_public_url (endpoint bucket path : string) : string :=
  endpoint ++ "/storage/v1/object/public/" ++ bucket ++ "/" ++ path.

(** The position of the first occurrence of [x] in [l]. *)
Fixpoint first_index (x : string) (l : list string) : option nat :=
  match l with
  | [] => None
  | y :: r => if String.eqb x y then Some 0 else S <$> first_index x r
  end.

(** ** Scenarios

    Concrete configurations, environments and worlds on which the
    properties below are instantiated. *)

Definition all_modules : Modules :=
  {| psycopg2 := true; webdriver := true; BeautifulSoup := true;
     SimpleDocTemplate := true; PdfReader := true |}.

Definition store_cfg (endpoint : string) : Config :=
  {| SUPABASE_KEY := Some "key"; SUPABASE_BUCKET := Some "docs";
     SUPABASE_URL := Some endpoint; DATABASE_URL := Some "postgres://db" |}.

Definition empty_world : World :=
  {| clock := 0; log := []; documents := []; pending := None |}.

(** An environment in which nothing raises, every request is answered
    with [resp], every PDF has the pages [pages], temporary files are
    named after their suffix and generated identifiers after the clock. *)
Definition calm_env (netloc path title : string) (resp : response)
  (pages : list string) : Env :=
  {| parser := fun html => [Element "p" ∅ [Text html]];
     urlparse := fun _ => (netloc, path);
     md5_hexdigest := fun _ => "9b2c4d6e8f0a1b3c5d7e9f0a1b2c3d4e";
     url_error := fun _ => None;
     raises := fun _ _ => None;
     answer := fun o t =>
       match o with
       | NamedTemporaryFile suffix => "/tmp/tmpfile" ++ suffix
       | Uuid4 => "uuid-" ++ Py.str_of_nat t
       | DriverTitle => title
       | DriverPageSource => "Policy text of the page"
       | Strftime => "2024-01-01 00:00:00"
       | _ => "%PDF-1.4"
       end;
     http_answer := fun _ _ => resp;
     pages_answer := fun _ _ => pages |}.

(** The same environment with the operations selected by [fails]
    raising. *)
Definition failing_env (fails : op -> bool) (base : Env) : Env :=
  {| parser := parser base;
     urlparse := urlparse base;
     md5_hexdigest := md5_hexdigest base;
     url_error := url_error base;
     raises := fun o t =>
       if fails o then Some (Exception "connection refused")
       else raises base o t;
     answer := answer base;
     http_answer := http_answer base;
     pages_answer := pages_answer base |}.

Definition ok_response : response :=
  {| status_code := 200; text := "Policy text of the page" |}.

(** A catalog holding one pending document stored at [path]. *)
Definition pending_world (path : option string) : World :=
  {| clock := 0; log := [];
     documents := [ {| id := "doc-1"; project_id := Some "proj";
                       filename := Some "proj_example_com.pdf";
                       file_path := path; source := Some "scrape";
                       status := Some "pending";
                       document_content := None |} ];
     pending := None |}.

(** The installation without the PDF reader. *)
Definition no_pdf_reader : Modules :=
  {| psycopg2 := true; webdriver := true; BeautifulSoup := true;
     SimpleDocTemplate := true; PdfReader := false |}.

(** A site whose pages have long paths. *)
Definition long_path_env : Env :=
  calm_env "www.example.com" "/policies/privacy-policy-2024/full-text.html"
           "Example Domain" ok_response [].

Definition policy_url : string :=
  "https://www.example.com/policies/privacy-policy-2024/full-text.html".

Definition page_url : string := "https://www.example.com/".

(** The site answers, with a page of the given title. *)
Definition site_env (title : string) : Env :=
  calm_env "www.example.com" "/" title ok_response [].

(** The browser cannot reach the site; the HTTP client can. *)
Definition dead_browser_env : Env :=
  failing_env is_driver_get (site_env "Example Domain").

(** Neither the browser nor the HTTP client can reach the site. *)
Definition unreachable_env : Env :=
  failing_env (fun o => is_driver_get o || is_requests_get o)
              (site_env "Example Domain").

(** The site answers every visit with a block page. *)
Definition blocked_env : Env := site_env "Access Blocked".

(** A URL that [urlparse] rejects: an opening bracket without a closing
    one in the host. *)
Definition unparsable_url : string := "http://[".

(** The same environment, in which [unparsable_url] cannot be parsed. *)
Definition with_unparsable_url (base : Env) : Env :=
  {| parser := parser base;
     urlparse := urlparse base;
     md5_hexdigest := md5_hexdigest base;
     url_error := fun url =>
       if String.eqb url unparsable_url
       then Some (Exception "Invalid IPv6 URL")
       else url_error base url;
     raises := raises base;
     answer := answer base;
     http_answer := http_answer base;
     pages_answer := pages_answer base |}.

(** ** Further notions

    Predicates, abbreviations and scenarios of the properties that
    follow the claims. *)

(** [tag] is one of [unwanted_tags]. *)
Definition is_unwanted_tag (nm : string) : bool :=
  existsb (String.eqb nm) unwanted_tags.

(** What the two removal passes remove: an unwanted tag, or attributes a
    selector matches. *)
Definition unwanted_element (nm : string) (attrs : gmap string string) : bool :=
  is_unwanted_tag nm || matches_unwanted attrs.

(** A page with a one-word heading. *)
Definition scope_heading : node := Element "h2" ∅ [Text "Scope"].

(** The table after the [UPDATE] statement of [update_document_content]
    is committed. *)
Definition processed (document_id content : string) (docs : list Document)
  : list Document :=
  apply_pending docs
    (PendingUpdate document_id (Some content) (Some "processed")).

(** What the [UPDATE] statement may change of a row: nothing of a row
    whose key is another identifier, and of the others the status and the
    content only. *)
Definition same_but_content (document_id : string) (d d' : Document) : Prop :=
  id d' = id d /\ project_id d' = project_id d /\ filename d' = filename d
  /\ file_path d' = file_path d /\ source d' = source d
  /\ (has_id document_id d = false -> d' = d).

(** The status is one [raise_for_status] raises on. *)
Definition error_status (resp : response) : bool :=
  (400 <=? status_code resp)%nat && (status_code resp <? 600)%nat.

(** The details of the failures [process_document] reports before it
    sends the [UPDATE] statement. *)
Definition early_failures (document_id : string) : list (nat * string) :=
  [ (404, "Document with id " ++ document_id ++ " not found");
    (400, "Document has no file_path");
    (500, "Failed to download PDF from Supabase");
    (500, "Failed to extract text from PDF") ].

Definition update_failure : exn :=
  HTTPException 500 "Failed to update document_content in database".

(** The success response for a text. *)
Definition processed_response (document_id text_ : string)
  : gmap string jvalue :=
  {[ "document_id" := JStr document_id;
     "status" := JStr "processed";
     "content_length" := JNum (Py.len text_);
     "message" := JStr "Document processed successfully" ]}.

(** Not an entry of [results]. *)
Definition no_result (o : op) : Prop := is_results_append o = false.

(** [m] appends nothing to [results] if it raises, and otherwise one
    entry satisfying [Q], as its last operation. *)
Definition appends_last (Q : gmap string jvalue -> Prop) (m : M unit) : Prop :=
  forall w, exists l,
    Forall no_result l
    /\ ((exists e w', m w = (Raise e, w') /\ log w' = (log w ++ l)%list)
        \/ (exists entry w',
              m w = (Ok tt, w')
              /\ log w' = (log w ++ l ++ [ResultsAppend entry])%list
              /\ Q entry)).

(** [m] does not raise and appends one entry satisfying [Q], as its last
    operation. *)
Definition appends_one (Q : gmap string jvalue -> Prop) (m : M unit) : Prop :=
  forall w, exists l entry w',
    m w = (Ok tt, w')
    /\ log w' = (log w ++ l ++ [ResultsAppend entry])%list
    /\ Forall no_result l
    /\ Q entry.

(** The three shapes of a result entry for [url]: a fetched page, an
    error artifact, a bare error. *)
Definition entry_shape (url : string) (entry : gmap string jvalue) : Prop :=
  entry !! "url" = Some (JStr url)
  /\ ((exists file n,
         (entry !! "method" = Some (JStr "selenium")
          \/ entry !! "method" = Some (JStr "requests_fallback"))
         /\ entry !! "pdf_file" = Some (JStr file)
         /\ entry !! "content_length" = Some (JNum n)
         /\ (entry !! "document_id" = Some JNull
             \/ exists document_id,
                  entry !! "document_id" = Some (JStr document_id))
         /\ entry !! "error" = None)
      \/ (exists file,
            entry !! "method" = Some (JStr "error_pdf")
            /\ entry !! "pdf_file" = Some (JStr file)
            /\ entry !! "error"
               = Some (JStr "Both methods failed, created error PDF")
            /\ entry !! "content_length" = None
            /\ entry !! "document_id" = None)
      \/ (exists message,
            entry !! "error" = Some (JStr message)
            /\ entry !! "method" = None
            /\ entry !! "pdf_file" = None
            /\ entry !! "content_length" = None
            /\ entry !! "document_id" = None)).

(** The [url] fields of a list of entries. *)
Definition urls_of (results : list (gmap string jvalue))
  : list (option jvalue) :=
  List.map (fun entry => entry !! "url") results.

(** The script [scrape] runs once the browser is up. *)
Definition hide_automation : string :=
  "Object.defineProperty(navigator, 'webdriver', {get: () => undefined})".

(** The pause between two attempts of the rendered fetch. *)
Definition is_backoff (o : op) : bool :=
  match o with Sleep 5 => true | _ => false end.

(** Neither a navigation nor a pause between attempts. *)
Definition settles (o : op) : Prop :=
  is_driver_get o = false /\ is_backoff o = false.

Definition is_remove (o : op) : bool :=
  match o with Remove _ => true | _ => false end.

Definition is_replace (o : op) : bool :=
  match o with Replace _ _ => true | _ => false end.

(** The flowables of one body paragraph. *)
Definition paragraph_block (para : string) : list flowable :=
  [Paragraph para Normal; Spacer 1 12].

(** An installation without object store and without database. *)
Definition local_cfg : Config :=
  {| SUPABASE_KEY := None; SUPABASE_BUCKET := None;
     SUPABASE_URL := None; DATABASE_URL := None |}.

(** The row of [pending_world]. *)
Definition pending_document (path : option string) : Document :=
  {| id := "doc-1"; project_id := Some "proj";
     filename := Some "proj_example_com.pdf";
     file_path := path; source := Some "scrape";
     status := Some "pending"; document_content := None |}.

(** The stored PDF has three pages, two of them with text. *)
Definition two_page_env : Env :=
  calm_env "www.example.com" "/" "Example Domain" ok_response
           ["Page one text"; EmptyString; "Page two"].

Definition stored_pdf : string := "https://store.example/proj_example_com.pdf".

(** * Properties *)

(** ** The string primitives on examples *)

Example split_ws_example :
  Py.split_ws ("  a b" ++ Py.nl ++ "c  ") = ["a"; "b"; "c"].
Proof. reflexivity. Qed.

Example split_examples :
  Py.split "--" "a--b---c" = ["a"; "b"; "-c"]
  /\ Py.split "--" "" = [""]
  /\ Py.split "--" "--a--" = [""; "a"; ""].
Proof. repeat split. Qed.

Example replace_example :
  Py.replace "www." "" "www.www.example.www.com" = "example.com".
Proof. reflexivity. Qed.

Example strip_examples :
  Py.strip ("  a b  " ++ Py.nl) = "a b"
  /\ Py.rstrip_slash "http://s//" = "http://s"
  /\ Py.lstrip_slash "//a/b" = "a/b".
Proof. repeat split. Qed.

Example str_of_nat_example :
  Py.str_of_nat 404 = "404" /\ Py.str_of_nat 0 = "0".
Proof. split; reflexivity. Qed.

Example lower_example : Py.lower "AbC-d9Z" = "abc-d9z".
Proof. reflexivity. Qed.

Example os_path_examples :
  OsPath.basename "a/b/c.pdf" = "c.pdf"
  /\ OsPath.basename "c.pdf" = "c.pdf"
  /\ OsPath.dirname "a/b/c.pdf" = "a/b"
  /\ OsPath.dirname "c.pdf" = ""
  /\ OsPath.dirname "/c.pdf" = "/".
Proof. repeat split. Qed.

(** ** Strings *)

Section StringFacts.

Implicit Types (s t u : string) (c : ascii).

Lemma sapp_cons c s t : String c s ++ t = String c (s ++ t).
Proof. reflexivity. Qed.

Lemma sapp_nil_l t : EmptyString ++ t = t.
Proof. reflexivity. Qed.

Lemma sapp_nil_r s : s ++ EmptyString = s.
Proof. induction s as [|c s IH]; [reflexivity|]. now rewrite sapp_cons, IH. Qed.

Lemma sapp_assoc s t u : (s ++ t) ++ u = s ++ (t ++ u).
Proof.
  induction s as [|c s IH]; [reflexivity|]. now rewrite !sapp_cons, IH.
Qed.

Lemma length_map_chars f s : String.length (Py.map_chars f s) = String.length s.
Proof. induction s as [|c s IH]; simpl; congruence. Qed.

Lemma length_take n s : Py.len (Py.take n s) = Nat.min n (Py.len s).
Proof.
  unfold Py.take, Py.len. revert n.
  induction s as [|c s IH]; intros [|n]; simpl; auto.
Qed.

Lemma length_string_app s t :
  String.length (s ++ t) = String.length s + String.length t.
Proof.
  induction s as [|c s IH]; [reflexivity|]. rewrite sapp_cons. simpl. now rewrite IH.
Qed.

Lemma all_chars_app (p : ascii -> bool) s t :
  Py.all_chars p (s ++ t) = Py.all_chars p s && Py.all_chars p t.
Proof.
  induction s as [|c s IH]; [reflexivity|].
  rewrite sapp_cons. simpl. now rewrite IH, andb_assoc.
Qed.

Lemma join_cons sep w (l : list string) :
  Py.join sep (w :: l)
  = match l with [] => w | _ => w ++ sep ++ Py.join sep l end.
Proof. now destruct l. Qed.

Lemma prefix_nil s : String.prefix EmptyString s = true.
Proof. now destruct s. Qed.

(** Replacing one character by one character is a character map. *)
Lemma replace_char a b s :
  Py.replace (String a EmptyString) (String b EmptyString) s
  = Py.map_chars (fun c => if Ascii.eqb a c then b else c) s.
Proof.
  unfold Py.replace.
  induction s as [|c s IH]; simpl; [reflexivity|].
  destruct (ascii_dec a c) as [->|Hne].
  - rewrite Ascii.eqb_refl, prefix_nil, IH. reflexivity.
  - apply Ascii.eqb_neq in Hne. now rewrite Hne, IH.
Qed.

Lemma length_replace_char a b s :
  Py.len (Py.replace (String a EmptyString) (String b EmptyString) s) = Py.len s.
Proof. unfold Py.len. rewrite replace_char. apply length_map_chars. Qed.

End StringFacts.

(** ** The file name of a URL *)

Section Filename.

Variable env : Env.

Lemma length_domain_path url :
  Py.len (path_of env url) = Py.len (snd (urlparse env url)).
Proof. unfold path_of. now rewrite !length_replace_char. Qed.

Lemma sanitize_char_ok c : is_filename_char (sanitize_char c) = true.
Proof.
  unfold sanitize_char. destruct (is_filename_char c) eqn:E; [exact E|reflexivity].
Qed.

Lemma all_chars_sanitize s :
  Py.all_chars is_filename_char (Py.map_chars sanitize_char s) = true.
Proof.
  induction s as [|c s IH]; [reflexivity|]. simpl.
  now rewrite sanitize_char_ok, IH.
Qed.

(** C10. For a URL whose path is longer than 5 characters the base
    (domain followed by path) is cut to its first 50 characters and only
    then sanitised, so the clean name has min(50, |domain| + |path|)
    characters; otherwise the base is the domain, an underscore and the
    first 8 characters of the MD5 digest of the URL, sanitised but not
    cut: its length is |domain| + 1 + min(8, |digest|).  In both cases
    only characters of [A-Za-z0-9_-] remain. *)
Theorem filename_truncation (url : string) :
  let domain := domain_of env url in
  let path := snd (urlparse env url) in
  (path <> EmptyString /\ 5 < Py.len path ->
     clean_filename env url
     = Py.map_chars sanitize_char (Py.take 50 (domain ++ path_of env url))
     /\ Py.len (clean_filename env url)
        = Nat.min 50 (Py.len domain + Py.len path))
  /\ (~ (path <> EmptyString /\ 5 < Py.len path) ->
     clean_filename env url
     = Py.map_chars sanitize_char
         (domain ++ "_" ++ Py.take 8 (md5_hexdigest env url))
     /\ Py.len (clean_filename env url)
        = Py.len domain + 1 + Nat.min 8 (Py.len (md5_hexdigest env url)))
  /\ Py.all_chars is_filename_char (clean_filename env url) = true.
Proof.
  intros domain path.
  assert (Hlen : Py.len (path_of env url) = Py.len path)
    by apply length_domain_path.
  assert (Hne : non_empty (path_of env url) = true <-> path <> EmptyString).
  { destruct (path_of env url) eqn:E1, path eqn:E2; simpl in *;
      try discriminate; split; congruence. }
  unfold clean_filename, filename_base. fold domain.
  split; [|split].
  - intros [Hp Hl].
    assert (E : non_empty (path_of env url) && (5 <? Py.len (path_of env url))%nat
                = true).
    { apply andb_true_intro. split; [now apply Hne|].
      apply Nat.ltb_lt. now rewrite Hlen. }
    rewrite E. split; [reflexivity|].
    unfold Py.len at 1. rewrite length_map_chars.
    fold (Py.len (Py.take 50 (domain ++ path_of env url))).
    rewrite length_take. unfold Py.len at 1.
    rewrite length_string_app. fold (Py.len (path_of env url)).
    now rewrite Hlen.
  - intros Hn.
    assert (E : non_empty (path_of env url) && (5 <? Py.len (path_of env url))%nat
                = false).
    { apply not_true_is_false. intros H. apply andb_prop in H as [H1 H2].
      apply Hn. split; [now apply Hne|].
      apply Nat.ltb_lt in H2. now rewrite <- Hlen. }
    rewrite E. split; [reflexivity|].
    unfold Py.len at 1. rewrite length_map_chars, !length_string_app.
    unfold url_hash. fold (Py.len (Py.take 8 (md5_hexdigest env url))).
    rewrite length_take. unfold Py.len. simpl. lia.
  - apply all_chars_sanitize.
Qed.

End Filename.

(** ** Effects: running, logging, framing *)

Section Effects.

Context {A B : Type}.

Lemma run_bind (m : M A) (f : A -> M B) (w : World) :
  (m ≫= f) w = match m w with
               | (Ok a, w') => f a w'
               | (Raise e, w') => (Raise e, w')
               end.
Proof. reflexivity. Qed.

Lemma run_try_except (m : M A) (h : exn -> M A) (w : World) :
  try_except m h w = match m w with
                     | (Ok a, w') => (Ok a, w')
                     | (Raise e, w') => h e w'
                     end.
Proof. reflexivity. Qed.

Variable P : op -> Prop.

Lemma emits_ret (a : A) : emits P (mret a : M A).
Proof. intros w. exists []. split; [now rewrite app_nil_r|constructor]. Qed.

Lemma emits_raise (e : exn) : emits P (raise e : M A).
Proof. intros w. exists []. split; [now rewrite app_nil_r|constructor]. Qed.

Lemma emits_bind (m : M A) (f : A -> M B) :
  emits P m -> (forall a, emits P (f a)) -> emits P (m ≫= f).
Proof.
  intros Hm Hf w. rewrite run_bind.
  destruct (Hm w) as (l1 & E1 & F1).
  destruct (m w) as [[a|e] w']; simpl in *.
  - destruct (Hf a w') as (l2 & E2 & F2).
    exists (l1 ++ l2)%list. rewrite E2, E1, app_assoc.
    split; [reflexivity|]. apply Forall_app; auto.
  - exists l1. auto.
Qed.

Lemma emits_try_except (m : M A) (h : exn -> M A) :
  emits P m -> (forall e, emits P (h e)) -> emits P (try_except m h).
Proof.
  intros Hm Hh w. rewrite run_try_except.
  destruct (Hm w) as (l1 & E1 & F1).
  destruct (m w) as [[a|e] w']; simpl in *.
  - exists l1. auto.
  - destruct (Hh e w') as (l2 & E2 & F2).
    exists (l1 ++ l2)%list. rewrite E2, E1, app_assoc.
    split; [reflexivity|]. apply Forall_app; auto.
Qed.

Lemma emits_try_finally (m : M A) (c : M unit) :
  emits P m -> emits P c -> emits P (try_finally m c).
Proof.
  intros Hm Hc w. unfold try_finally.
  destruct (Hm w) as (l1 & E1 & F1).
  destruct (m w) as [r w']; simpl in *.
  destruct (Hc w') as (l2 & E2 & F2).
  destruct (c w') as [[[]|e] w'']; simpl in *;
    exists (l1 ++ l2)%list; rewrite E2, E1, app_assoc;
    (split; [reflexivity|]); apply Forall_app; auto.
Qed.

Lemma keeps_ret (a : A) : keeps_db (mret a : M A).
Proof. intros w. split; reflexivity. Qed.

Lemma keeps_raise (e : exn) : keeps_db (raise e : M A).
Proof. intros w. split; reflexivity. Qed.

Lemma keeps_bind (m : M A) (f : A -> M B) :
  keeps_db m -> (forall a, keeps_db (f a)) -> keeps_db (m ≫= f).
Proof.
  intros Hm Hf w. rewrite run_bind.
  destruct (Hm w) as [D1 Q1].
  destruct (m w) as [[a|e] w']; simpl in *.
  - destruct (Hf a w') as [D2 Q2]. split; congruence.
  - auto.
Qed.

Lemma keeps_try_except (m : M A) (h : exn -> M A) :
  keeps_db m -> (forall e, keeps_db (h e)) -> keeps_db (try_except m h).
Proof.
  intros Hm Hh w. rewrite run_try_except.
  destruct (Hm w) as [D1 Q1].
  destruct (m w) as [[a|e] w']; simpl in *.
  - auto.
  - destruct (Hh e w') as [D2 Q2]. split; congruence.
Qed.

Lemma never_raises_ret (a : A) : never_raises (mret a : M A).
Proof. intros w. now exists a. Qed.

Lemma never_raises_try_except (m : M A) (h : exn -> M A) :
  (forall e, never_raises (h e)) -> never_raises (try_except m h).
Proof.
  intros Hh w. rewrite run_try_except.
  destruct (m w) as [[a|e] w']; simpl; [now exists a|apply Hh].
Qed.

End Effects.

Section Primitives.

Variable env : Env.
Variable P : op -> Prop.

Lemma emits_weaken {A : Type} (Q : op -> Prop) (m : M A) :
  (forall o, Q o -> P o) -> emits Q m -> emits P m.
Proof.
  intros HQ Hm w. destruct (Hm w) as (l & E & F).
  exists l. split; [exact E|]. eapply Forall_impl; eauto.
Qed.

Lemma emits_record o : P o -> emits P (record o).
Proof. intros Ho w. exists [o]. split; [reflexivity|]. now constructor. Qed.

Lemma emits_sleep n : P (Sleep n) -> emits P (sleep n).
Proof. apply emits_record. Qed.

Lemma emits_perform o : P o -> emits P (perform env o).
Proof.
  intros Ho w. exists [o]. unfold perform.
  destruct (raises env o (clock w)); (split; [reflexivity|now constructor]).
Qed.

Lemma emits_ask o : P o -> emits P (ask env o).
Proof.
  intros Ho w. exists [o]. unfold ask.
  destruct (raises env o (clock w)); (split; [reflexivity|now constructor]).
Qed.

Lemma emits_ask_http o : P o -> emits P (ask_http env o).
Proof.
  intros Ho w. exists [o]. unfold ask_http.
  destruct (raises env o (clock w)); (split; [reflexivity|now constructor]).
Qed.

Lemma emits_ask_pages o : P o -> emits P (ask_pages env o).
Proof.
  intros Ho w. exists [o]. unfold ask_pages.
  destruct (raises env o (clock w)); (split; [reflexivity|now constructor]).
Qed.

Lemma emits_get_world : emits P get_world.
Proof. intros w. exists []. split; [now rewrite app_nil_r|constructor]. Qed.

Lemma emits_set_db d q : emits P (set_db d q).
Proof. intros w. exists []. split; [simpl; now rewrite app_nil_r|constructor]. Qed.

Lemma keeps_record o : keeps_db (record o).
Proof. intros w. split; reflexivity. Qed.

Lemma keeps_perform o : keeps_db (perform env o).
Proof.
  intros w. unfold perform. destruct (raises env o (clock w)); split; reflexivity.
Qed.

Lemma keeps_ask o : keeps_db (ask env o).
Proof.
  intros w. unfold ask. destruct (raises env o (clock w)); split; reflexivity.
Qed.

Lemma keeps_ask_http o : keeps_db (ask_http env o).
Proof.
  intros w. unfold ask_http.
  destruct (raises env o (clock w)); split; reflexivity.
Qed.

Lemma keeps_ask_pages o : keeps_db (ask_pages env o).
Proof.
  intros w. unfold ask_pages.
  destruct (raises env o (clock w)); split; reflexivity.
Qed.

End Primitives.

(** One step of a proof that a computation only emits permitted
    operations, or leaves the catalog alone: follow its syntax. *)
Ltac effect_step :=
  first
    [ apply emits_ret | apply emits_raise | apply emits_get_world
    | apply emits_set_db
    | apply emits_bind; [|intros ?]
    | apply emits_try_except; [|intros ?]
    | apply emits_try_finally
    | apply emits_perform | apply emits_ask | apply emits_ask_http
    | apply emits_ask_pages | apply emits_sleep | apply emits_record
    | apply keeps_ret | apply keeps_raise
    | apply keeps_bind; [|intros ?]
    | apply keeps_try_except; [|intros ?]
    | apply keeps_perform | apply keeps_ask | apply keeps_ask_http
    | apply keeps_ask_pages | apply keeps_record
    | match goal with
      | |- emits _ (if ?b then _ else _) => destruct b
      | |- keeps_db (if ?b then _ else _) => destruct b
      | |- emits _ (match ?x with _ => _ end) => destruct x
      | |- keeps_db (match ?x with _ => _ end) => destruct x
      end ].

Ltac effects := repeat effect_step; try (simpl; auto; fail).

(** ** The renderer and the store client leave the catalog alone *)

Section Quiet.

Variables (env : Env) (cfg : Config) (mods : Modules).

Lemma quiet_no_fetch o : quiet o -> no_fetch_no_result o.
Proof. now intros [H _]. Qed.

Lemma upload_emits f b d : emits quiet (upload_to_supabase env cfg f b d).
Proof. unfold upload_to_supabase. effects; repeat split. Qed.

Lemma upload_keeps f b d : keeps_db (upload_to_supabase env cfg f b d).
Proof. unfold upload_to_supabase. effects. Qed.

Lemma create_pdf_emits t p u i :
  emits quiet (create_pdf_from_text env cfg mods t p u i).
Proof.
  unfold create_pdf_from_text, ignore_errors, makedirs.
  effects; try apply upload_emits; repeat split; effects; repeat split.
Qed.

Lemma create_pdf_keeps t p u i :
  keeps_db (create_pdf_from_text env cfg mods t p u i).
Proof.
  unfold create_pdf_from_text, ignore_errors, makedirs.
  effects; try apply upload_keeps; effects.
Qed.

End Quiet.

(** ** Tier 1: the retry loop *)

Section Tier1.

Variables (env : Env) (url : string).


(** One iteration of the loop, by what [load_page] did. *)
Lemma attempt_body_run attempt w :
  attempt_body env url attempt w
  = match load_page env url w with
    | (r, w') =>
        if retry_trigger r && (attempt <? max_retries - 1)%nat
        then (Ok LoopContinue, tick (Sleep 5) w')
        else (match r with
              | Raise e => Raise e
              | Ok _ => Ok LoopBreak
              end, w')
    end.
Proof.
  unfold attempt_body. rewrite run_try_except, run_bind.
  destruct (load_page env url w) as [[t|e] w']; simpl.
  - destruct (is_blocked t); simpl; [|reflexivity].
    destruct (attempt <? 2)%nat; reflexivity.
  - destruct (attempt <? 2)%nat; reflexivity.
Qed.

(** The whole loop, by what the (at most three) page loads did. *)
Lemma navigate_run w :
  navigate env url w
  = let '(r0, w0) := load_page env url w in
    if retry_trigger r0 then
      let '(r1, w1) := load_page env url (tick (Sleep 5) w0) in
      if retry_trigger r1 then
        let '(r2, w2) := load_page env url (tick (Sleep 5) w1) in
        (match r2 with Raise e => Raise e | Ok _ => Ok tt end, w2)
      else (Ok tt, w1)
    else (Ok tt, w0).
Proof.
  unfold navigate, max_retries. simpl retry_loop.
  rewrite run_bind, attempt_body_run.
  destruct (load_page env url w) as [r0 w0].
  change (0 <? max_retries - 1)%nat with true. rewrite andb_true_r.
  destruct (retry_trigger r0) eqn:T0.
  2:{ destruct r0; [reflexivity|discriminate]. }
  rewrite run_bind, attempt_body_run.
  destruct (load_page env url (tick (Sleep 5) w0)) as [r1 w1].
  change (1 <? max_retries - 1)%nat with true. rewrite andb_true_r.
  destruct (retry_trigger r1) eqn:T1.
  2:{ destruct r1; [reflexivity|discriminate]. }
  rewrite run_bind, attempt_body_run.
  destruct (load_page env url (tick (Sleep 5) w1)) as [r2 w2].
  change (2 <? max_retries - 1)%nat with false. rewrite andb_false_r.
  destruct r2; reflexivity.
Qed.

End Tier1.

(** ** The catalog insert *)

(** Unfold the catalog operations down to the oracle questions. *)
Ltac unfold_db :=
  unfold ignore_errors, db_connect, db_insert, db_commit, db_close,
    db_stage, try_except, perform, ask, get_world, set_db, mbind, M_bind,
    mret, M_ret, raise; simpl.

(** Decide the next oracle question both ways. *)
Ltac oracle_step :=
  match goal with
  | |- context [raises ?e ?o ?c] => destruct (raises e o c) eqn:?; simpl
  | |- context [existsb ?f ?l] => destruct (existsb f l) eqn:?; simpl
  end.

Section Insert.

Variables (env : Env) (cfg : Config) (mods : Modules).
Variables (pid : option string) (fn fp src st : string) (dc : option string).

Lemma insert_emits :
  emits no_fetch_no_result
        (insert_document_record env cfg mods pid fn fp src st dc).
Proof.
  unfold insert_document_record, ignore_errors, db_connect, db_insert,
    db_commit, db_close, db_stage.
  effects; repeat split.
Qed.

Lemma insert_never_raises :
  never_raises (insert_document_record env cfg mods pid fn fp src st dc).
Proof.
  intros w. unfold insert_document_record.
  destruct (psycopg2 mods); simpl; [|now exists None].
  destruct (Py.truthy (DATABASE_URL cfg)); simpl; [|now exists None].
  unfold_db. repeat oracle_step; eauto.
Qed.

(** The table after the call: unchanged, or longer by the one row built
    from the arguments. *)
Lemma insert_outcome w :
  let r := insert_document_record env cfg mods pid fn fp src st dc w in
  (documents (snd r) = documents w /\ fst r = Ok None)
  \/ exists doc_id,
       documents (snd r)
       = (documents w ++ [insert_row doc_id pid fn fp src st dc])%list
       /\ (fst r = Ok (Some doc_id) \/ fst r = Ok None).
Proof.
  unfold insert_document_record.
  destruct (psycopg2 mods); simpl; [|now left].
  destruct (Py.truthy (DATABASE_URL cfg)); simpl; [|now left].
  unfold_db. repeat oracle_step; eauto.
Qed.

(** A returned identifier is that of the row the call has added. *)
Lemma insert_returned w doc_id :
  fst (insert_document_record env cfg mods pid fn fp src st dc w)
  = Ok (Some doc_id) ->
  documents (snd (insert_document_record env cfg mods pid fn fp src st dc w))
  = (documents w ++ [insert_row doc_id pid fn fp src st dc])%list.
Proof.
  unfold insert_document_record.
  destruct (psycopg2 mods); simpl; [|discriminate].
  destruct (Py.truthy (DATABASE_URL cfg)); simpl; [|discriminate].
  unfold_db. repeat oracle_step; intros H; try discriminate H;
    injection H as <-; reflexivity.
Qed.

(** With a driver, a connection string, a database that answers and a
    fresh identifier, the row is stored and its identifier returned. *)
Lemma insert_succeeds w :
  psycopg2 mods = true ->
  Py.truthy (DATABASE_URL cfg) = true ->
  (forall o t, raises env o t = None) ->
  let doc_id := answer env Uuid4 (S (S (clock w))) in
  existsb (has_id doc_id) (documents w) = false ->
  let r := insert_document_record env cfg mods pid fn fp src st dc w in
  fst r = Ok (Some doc_id)
  /\ documents (snd r)
     = (documents w ++ [insert_row doc_id pid fn fp src st dc])%list.
Proof.
  intros Hp Hd Hr doc_id Hfresh. unfold insert_document_record.
  subst doc_id. rewrite Hp, Hd. simpl. unfold_db.
  repeat (first [rewrite Hr | rewrite Hfresh]; simpl). auto.
Qed.

End Insert.

(** ** One fetched page: rendering, conditional insert, result entry *)

Section StorePage.

Variables (env : Env) (cfg : Config) (mods : Modules).
Variables (pid url pdf_name : string).

Lemma fetched_entry_document_id a m t d :
  fetched_entry url a m t d !! "document_id" = Some (jopt d).
Proof. reflexivity. Qed.

Lemma fetched_entry_pdf_file a m t d :
  fetched_entry url a m t d !! "pdf_file" = Some (JStr a).
Proof. reflexivity. Qed.

Lemma fetched_entry_method a m t d :
  fetched_entry url a m t d !! "method" = Some (JStr m).
Proof. reflexivity. Qed.

Lemma record_if_uploaded_run created_file w :
  record_if_uploaded env cfg mods pid pdf_name created_file w
  = if looks_uploaded cfg created_file
    then insert_document_record env cfg mods (Some pid) pdf_name created_file
                                "scrape" "pending" None w
    else (Ok None, w).
Proof.
  unfold record_if_uploaded.
  destruct (looks_uploaded cfg created_file); [|reflexivity].
  rewrite run_try_except.
  destruct (insert_never_raises env cfg mods (Some pid) pdf_name created_file
              "scrape" "pending" None w) as [a Ha].
  destruct (insert_document_record _ _ _ _ _ _ _ _ _ w) as [[r|e] w'];
    simpl in Ha; [reflexivity|discriminate].
Qed.

Lemma record_if_uploaded_emits created_file :
  emits no_fetch_no_result
        (record_if_uploaded env cfg mods pid pdf_name created_file).
Proof.
  unfold record_if_uploaded. effects; try apply insert_emits.
Qed.

Lemma record_if_uploaded_never_raises created_file :
  never_raises (record_if_uploaded env cfg mods pid pdf_name created_file).
Proof.
  intros w. rewrite record_if_uploaded_run.
  destruct (looks_uploaded cfg created_file); [|now exists None].
  apply insert_never_raises.
Qed.

Lemma store_page_run html method w :
  store_page env cfg mods pid url pdf_name html method w
  = let clean_text := extract_clean_text mods (parser env) html url in
    match create_pdf_from_text env cfg mods clean_text pdf_name url pid w with
    | (Raise e, w1) => (Raise e, w1)
    | (Ok created_file, w1) =>
        match record_if_uploaded env cfg mods pid pdf_name created_file w1 with
        | (Raise e, w2) => (Raise e, w2)
        | (Ok document_id, w2) =>
            (Ok tt,
             tick (ResultsAppend
                     (fetched_entry url created_file method clean_text
                                    document_id)) w2)
        end
    end.
Proof.
  unfold store_page. cbv zeta. rewrite run_bind.
  destruct (create_pdf_from_text _ _ _ _ _ _ _ w) as [[created_file|e] w1];
    [|reflexivity].
  rewrite run_bind.
  destruct (record_if_uploaded _ _ _ _ _ _ w1) as [[d|e] w2]; reflexivity.
Qed.

End StorePage.

Section Logs.

Implicit Types (l k : list op).

Lemma ops_of_app {A : Type} (m : M A) w l :
  log (snd (m w)) = (log w ++ l)%list -> ops_of m w = l.
Proof. intros E. unfold ops_of. rewrite E. apply drop_app_length. Qed.

Lemma appended_app l k : appended (l ++ k) = (appended l ++ appended k)%list.
Proof. unfold appended. apply omap_app. Qed.

Lemma appended_none l :
  Forall (fun o => is_results_append o = false) l -> appended l = [].
Proof.
  induction 1 as [|o l Ho _ IH]; [reflexivity|].
  destruct o; try discriminate Ho; exact IH.
Qed.


Lemma quiet_not_get l :
  Forall quiet l -> Forall (fun o => is_driver_get o = false) l.
Proof. intros F. eapply Forall_impl; [exact F|]. now intros o [[H _] _]. Qed.

Lemma quiet_not_db l :
  Forall quiet l -> Forall (fun o => is_db_op o = false) l.
Proof. intros F. eapply Forall_impl; [exact F|]. now intros o [_ H]. Qed.

Lemma no_fetch_not_append l :
  Forall no_fetch_no_result l ->
  Forall (fun o => is_results_append o = false) l.
Proof. intros F. eapply Forall_impl; [exact F|]. now intros o [_ H]. Qed.

Lemma no_fetch_not_get l :
  Forall no_fetch_no_result l -> Forall (fun o => is_driver_get o = false) l.
Proof. intros F. eapply Forall_impl; [exact F|]. now intros o [H _]. Qed.

End Logs.

(** ** The tiers after the rendered fetch *)

Section Tiers.

Variables (env : Env) (cfg : Config) (mods : Modules).
Variables (pid url pdf_name : string).

(** A fetched page either raises before anything is appended to
    [results], or appends exactly one entry, last. *)
Lemma store_page_ops html method w :
  let r := store_page env cfg mods pid url pdf_name html method w in
  exists l, Forall no_fetch_no_result l
    /\ ((exists e, fst r = Raise e /\ log (snd r) = (log w ++ l)%list)
        \/ (exists entry, fst r = Ok tt
              /\ log (snd r) = (log w ++ l ++ [ResultsAppend entry])%list)).
Proof.
  cbv zeta. rewrite store_page_run. cbv zeta.
  destruct (create_pdf_emits env cfg mods
              (extract_clean_text mods (parser env) html url)
              pdf_name url pid w) as (l1 & E1 & F1).
  destruct (create_pdf_from_text _ _ _ _ _ _ _ w) as [[created_file|e] w1];
    simpl in E1.
  2:{ exists l1. split; [eapply Forall_impl; [exact F1|apply quiet_no_fetch]|].
      left. eauto. }
  destruct (record_if_uploaded_emits env cfg mods pid pdf_name created_file w1)
    as (l2 & E2 & F2).
  destruct (record_if_uploaded_never_raises env cfg mods pid pdf_name
              created_file w1) as [d Hd].
  destruct (record_if_uploaded _ _ _ _ _ _ w1) as [[d'|e] w2];
    simpl in E2, Hd; [|discriminate].
  exists (l1 ++ l2)%list. split.
  - apply Forall_app. split; [|exact F2].
    eapply Forall_impl; [exact F1|apply quiet_no_fetch].
  - right. eexists. split; [reflexivity|]. simpl.
    now rewrite E2, E1, <- !app_assoc.
Qed.

(** The error artifact: one entry, no statement for the database. *)
Lemma error_artifact_ops e fe w :
  let r := error_artifact env cfg mods pid url pdf_name e fe w in
  exists l entry,
    fst r = Ok tt
    /\ log (snd r) = (log w ++ l ++ [ResultsAppend entry])%list
    /\ Forall quiet l
    /\ documents (snd r) = documents w
    /\ entry !! "document_id" = None.
Proof.
  cbv zeta. unfold error_artifact. rewrite run_try_except, run_bind.
  match goal with |- context [create_pdf_from_text env cfg mods ?t _ _ _ w] =>
    destruct (create_pdf_emits env cfg mods t pdf_name url pid w)
      as (l1 & E1 & F1);
    destruct (create_pdf_keeps env cfg mods t pdf_name url pid w) as [K1 _];
    destruct (create_pdf_from_text env cfg mods t pdf_name url pid w)
      as [[error_pdf|e'] w1]
  end; simpl in *.
  - exists l1. eexists. repeat split;
      [now rewrite E1, <- app_assoc|exact F1|exact K1|reflexivity].
  - exists l1. eexists. repeat split;
      [now rewrite E1, <- app_assoc|exact F1|exact K1|reflexivity].
Qed.

End Tiers.

(** ** The loop body: the file name, then the tiers *)

Section LoopBody.

Variables (env : Env) (cfg : Config) (mods : Modules).
Variables (pid url : string).

Lemma scrape_url_run w :
  url_error env url = None ->
  scrape_url env cfg mods pid url w
  = fetch_url env cfg mods pid url (pdf_name_of env pid url) w.
Proof.
  intros H. unfold scrape_url, derive_pdf_name. now rewrite H.
Qed.

Lemma scrape_url_unparsable e w :
  url_error env url = Some e ->
  scrape_url env cfg mods pid url w = (Raise e, w).
Proof.
  intros H. unfold scrape_url, derive_pdf_name. now rewrite H.
Qed.

End LoopBody.

Section Fallback.

Variables (env : Env) (cfg : Config) (mods : Modules).
Variables (pid url : string).

Lemma one_result l entry :
  Forall no_fetch_no_result l ->
  appended (l ++ [ResultsAppend entry]) = [entry]
  /\ Forall (fun o => is_driver_get o = false) (l ++ [ResultsAppend entry]).
Proof.
  intros F. split.
  - rewrite appended_app, (appended_none l); [reflexivity|].
    now apply no_fetch_not_append.
  - apply Forall_app. split; [now apply no_fetch_not_get|].
    now repeat constructor.
Qed.


(** Tiers 2 and 3 together: the static request comes first, no
    navigation follows, exactly one entry is appended, nothing raises. *)
Lemma static_then_error_ops pdf_name e w :
  let r := try_except (static_fetch env cfg mods pid url pdf_name)
                      (error_artifact env cfg mods pid url pdf_name e) w in
  exists post entry,
    fst r = Ok tt
    /\ log (snd r) = (log w ++ RequestsGet url 30 :: post)%list
    /\ Forall (fun o => is_driver_get o = false) post
    /\ appended post = [entry].
Proof.
  cbv zeta. rewrite run_try_except. unfold static_fetch.
  rewrite run_bind. unfold ask_http.
  set (w1 := tick (RequestsGet url 30) w).
  assert (Hvia_error : forall fe w2 l,
    log w2 = (log w1 ++ l)%list -> Forall no_fetch_no_result l ->
    exists post entry,
      fst (error_artifact env cfg mods pid url pdf_name e fe w2) = Ok tt
      /\ log (snd (error_artifact env cfg mods pid url pdf_name e fe w2))
         = (log w ++ RequestsGet url 30 :: post)%list
      /\ Forall (fun o => is_driver_get o = false) post
      /\ appended post = [entry]).
  { intros fe w2 l E F.
    destruct (error_artifact_ops env cfg mods pid url pdf_name e fe w2)
      as (l' & entry & R & E' & F' & _ & _).
    assert (Fl : Forall no_fetch_no_result (l ++ l')).
    { apply Forall_app. split; [exact F|].
      eapply Forall_impl; [exact F'|apply quiet_no_fetch]. }
    destruct (one_result (l ++ l') entry Fl) as [A1 A2].
    exists ((l ++ l') ++ [ResultsAppend entry])%list, entry.
    repeat split; auto.
    rewrite E', E. subst w1. simpl. now rewrite <- !app_assoc. }
  destruct (raises env (RequestsGet url 30) (clock w)) as [e1|];
    cbv beta iota; fold w1.
  { apply (Hvia_error e1 w1 []); [now rewrite app_nil_r|constructor]. }
  rewrite run_bind. unfold raise_for_status.
  destruct ((400 <=? _)%nat && _); cbv beta iota.
  { apply (Hvia_error _ w1 []); [now rewrite app_nil_r|constructor]. }
  change ((mret tt : M unit) w1) with (Ok tt, w1). cbv beta iota.
  destruct (store_page_ops env cfg mods pid url pdf_name
              (text (http_answer env (RequestsGet url 30) (clock w)))
              "requests_fallback" w1) as (l & F & [(e2 & R & E)|(entry & R & E)]);
    destruct (store_page _ _ _ _ _ _ _ _ w1) as [[[]|e3] w2];
    simpl in R, E; try discriminate.
  - injection R as ->. now apply (Hvia_error e2 w2 l).
  - destruct (one_result l entry F) as [A1 A2].
    exists (l ++ [ResultsAppend entry])%list, entry.
    repeat split; auto.
    simpl. rewrite E. subst w1. simpl. now rewrite <- !app_assoc.
Qed.


End Fallback.

Section Tier1Outcome.

Variables (env : Env) (cfg : Config) (mods : Modules).
Variables (pid url : string).

(** C3 (amended). The loop of tier 1 makes up to three attempts.  On the
    first and on the second attempt a blocked or forbidden title and an
    exception are alike: five units of back-off, then the next attempt.
    On the third attempt they differ: an exception leaves the loop, is
    caught by the handler of the URL, and the static request is the next
    operation; a page, blocked or not, ends the loop normally and its
    source is read next.  An attempt that loads a page whose title is
    neither blocked nor forbidden ends the loop at once. *)
Theorem blocked_title_retry :
  (forall w r0 w0,
     load_page env url w = (r0, w0) -> retry_trigger r0 = false ->
     navigate env url w = (Ok tt, w0))
  /\ (forall w r0 w0 r1 w1,
        load_page env url w = (r0, w0) -> retry_trigger r0 = true ->
        load_page env url (tick (Sleep 5) w0) = (r1, w1) ->
        retry_trigger r1 = false ->
        navigate env url w = (Ok tt, w1))
  /\ (forall w r0 w0 r1 w1 r2 w2,
        load_page env url w = (r0, w0) -> retry_trigger r0 = true ->
        load_page env url (tick (Sleep 5) w0) = (r1, w1) ->
        retry_trigger r1 = true ->
        load_page env url (tick (Sleep 5) w1) = (r2, w2) ->
        navigate env url w
        = (match r2 with Raise e => Raise e | Ok _ => Ok tt end, w2))
  /\ (forall attempt w r w',
        attempt < 2 -> load_page env url w = (r, w') ->
        retry_trigger r = true ->
        attempt_body env url attempt w = (Ok LoopContinue, tick (Sleep 5) w'))
  /\ (forall w e w',
        load_page env url w = (Raise e, w') ->
        attempt_body env url 2 w = (Raise e, w'))
  /\ (forall w page_title w',
        load_page env url w = (Ok page_title, w') ->
        attempt_body env url 2 w = (Ok LoopBreak, w'))
  /\ (forall pdf_name w e w3,
        navigate env url w = (Raise e, w3) ->
        exists rest,
          log (snd (fetch_url env cfg mods pid url pdf_name w))
          = (log w3 ++ RequestsGet url 30 :: rest)%list)
  /\ (forall pdf_name w w3,
        navigate env url w = (Ok tt, w3) ->
        exists rest,
          log (snd (fetch_url env cfg mods pid url pdf_name w))
          = (log w3 ++ DriverPageSource :: rest)%list)
  /\ (forall w,
        url_error env url = None ->
        scrape_url env cfg mods pid url w
        = fetch_url env cfg mods pid url (pdf_name_of env pid url) w).
Proof.
  split; [|split; [|split; [|split; [|split; [|split; [|split; [|split]]]]]]].
  - intros w r0 w0 H0 T0. rewrite navigate_run, H0. cbv beta iota zeta.
    now rewrite T0.
  - intros w r0 w0 r1 w1 H0 T0 H1 T1. rewrite navigate_run, H0.
    cbv beta iota zeta. rewrite T0, H1. cbv beta iota zeta. now rewrite T1.
  - intros w r0 w0 r1 w1 r2 w2 H0 T0 H1 T1 H2. rewrite navigate_run, H0.
    cbv beta iota zeta. rewrite T0, H1. cbv beta iota zeta.
    now rewrite T1, H2.
  - intros attempt w r w' Ha Hl Ht. rewrite attempt_body_run, Hl, Ht.
    apply Nat.ltb_lt in Ha. unfold max_retries. simpl. now rewrite Ha.
  - intros w e w' Hl. now rewrite attempt_body_run, Hl.
  - intros w t w' Hl. rewrite attempt_body_run, Hl.
    now rewrite andb_false_r.
  - intros pdf_name w e w3 Hnav.
    destruct (static_then_error_ops env cfg mods pid url pdf_name e w3)
      as (post & entry & _ & E & _).
    exists post. unfold fetch_url.
    rewrite run_try_except. unfold rendered_fetch. rewrite run_bind, Hnav.
    exact E.
  - intros pdf_name w w3 Hnav. unfold fetch_url.
    rewrite run_try_except. unfold rendered_fetch. rewrite run_bind, Hnav.
    cbv beta iota. rewrite run_bind. unfold ask.
    set (w4 := tick DriverPageSource w3).
    assert (Hstatic : forall e w5 l, log w5 = (log w4 ++ l)%list ->
      exists rest,
        log (snd (try_except
               (static_fetch env cfg mods pid url pdf_name)
               (error_artifact env cfg mods pid url pdf_name e)
               w5))
        = (log w3 ++ DriverPageSource :: rest)%list).
    { intros e w5 l E5.
      destruct (static_then_error_ops env cfg mods pid url pdf_name e w5)
        as (post & entry & _ & E & _).
      exists (l ++ RequestsGet url 30 :: post)%list.
      rewrite E, E5. subst w4. simpl. now rewrite <- !app_assoc. }
    destruct (raises env DriverPageSource (clock w3)) as [e|]; cbv beta iota.
    { apply (Hstatic e w4 []). now rewrite app_nil_r. }
    fold w4.
    destruct (store_page_ops env cfg mods pid url pdf_name
                (answer env DriverPageSource (clock w3)) "selenium" w4)
      as (l & _ & [(e & R & E)|(entry & R & E)]);
      destruct (store_page _ _ _ _ _ _ _ _ w4) as [[[]|e'] w5];
      simpl in R, E; try discriminate.
    + injection R as ->. apply (Hstatic e w5 l E).
    + exists (l ++ [ResultsAppend entry])%list. simpl. rewrite E.
      subst w4. simpl. now rewrite <- !app_assoc.
  - intros w. apply scrape_url_run.
Qed.

End Tier1Outcome.

(** A site that answers every one of the three visits with a block page:
    the first two attempts are retried after a back-off, the third ends
    the loop normally, in the world the third visit leaves behind. *)
Lemma blocked_title_retry_witness :
  navigate blocked_env page_url empty_world
  = (Ok tt,
     snd (load_page blocked_env page_url
       (tick (Sleep 5) (snd (load_page blocked_env page_url
          (tick (Sleep 5) (snd (load_page blocked_env page_url empty_world)))))))).
Proof.
  pose (w0 := snd (load_page blocked_env page_url empty_world)).
  pose (w1 := snd (load_page blocked_env page_url (tick (Sleep 5) w0))).
  pose (w2 := snd (load_page blocked_env page_url (tick (Sleep 5) w1))).
  exact (proj1 (proj2 (proj2
           (blocked_title_retry blocked_env (store_cfg "https://store.example")
              all_modules "proj" page_url)))
           empty_world (Ok "access blocked") w0 (Ok "access blocked") w1
           (Ok "access blocked") w2 eq_refl eq_refl eq_refl eq_refl eq_refl).
Defined.

(** C3, as stated, fails: every one of the three visits shows a blocked
    title, so all three attempts fail by the title trigger; yet no static
    request is sent and the block page is stored as the rendered result,
    with method "selenium". *)
Lemma blocked_page_accepted :
  let w' := snd (scrape_url blocked_env (store_cfg "https://store.example")
                            all_modules "proj" page_url empty_world) in
  List.filter is_driver_get (log w')
  = [DriverGet page_url; DriverGet page_url; DriverGet page_url]
  /\ List.filter is_requests_get (log w') = []
  /\ List.map (fun entry => entry !! "method") (appended (log w'))
     = [Some (JStr "selenium")].
Proof. vm_compute. repeat split; reflexivity. Qed.



(** The same run, operation by operation up to the static request. *)
Example dead_browser_run :
  take 6 (ops_of (scrape_url dead_browser_env (store_cfg "https://store.example")
                             all_modules "proj" page_url) empty_world)
  = [ DriverGet page_url; Sleep 5; DriverGet page_url; Sleep 5;
      DriverGet page_url; RequestsGet page_url 30 ].
Proof. vm_compute. reflexivity. Qed.

(** ** When a catalog row is inserted *)

Section CatalogCondition.

Variables (env : Env) (cfg : Config) (mods : Modules).
Variables (pid url pdf_name : string).

(** C7 (amended). For a page fetched by tier 1 or tier 2 whose artifact
    was rendered with address [created_file]: if the address does not
    pass the test (endpoint set and non-empty, address non-empty and
    starting with the endpoint without its trailing slashes), no
    statement is sent to the database, the table is unchanged and the
    entry's document_id is null; if it passes, [insert_document_record]
    is run with source "scrape", status "pending" and no content, the
    entry carries what it returns, and the table is unchanged or longer by
    exactly that row.  The error artifact of tier 3 never reaches the
    catalog: no statement, table unchanged, an entry without document_id,
    whatever its address. *)
Theorem catalog_insert_condition :
  (forall html method w created_file w1,
     create_pdf_from_text env cfg mods
       (extract_clean_text mods (parser env) html url) pdf_name url pid w
     = (Ok created_file, w1) ->
     let run := store_page env cfg mods pid url pdf_name html method w in
     (looks_uploaded cfg created_file = false ->
        exists entry,
          snd run = tick (ResultsAppend entry) w1
          /\ entry !! "pdf_file" = Some (JStr created_file)
          /\ entry !! "document_id" = Some JNull
          /\ documents (snd run) = documents w
          /\ Forall (fun o => is_db_op o = false) (ops_of (fun _ => run) w))
     /\ (looks_uploaded cfg created_file = true ->
        exists entry r w2,
          insert_document_record env cfg mods (Some pid) pdf_name created_file
                                 "scrape" "pending" None w1 = (Ok r, w2)
          /\ snd run = tick (ResultsAppend entry) w2
          /\ entry !! "pdf_file" = Some (JStr created_file)
          /\ entry !! "document_id" = Some (jopt r)
          /\ ((r = None /\ documents (snd run) = documents w)
              \/ exists row,
                   documents (snd run) = (documents w ++ [row])%list
                   /\ (r = Some (id row) \/ r = None)
                   /\ file_path row = Some created_file
                   /\ filename row = Some pdf_name
                   /\ source row = Some "scrape"
                   /\ status row = Some "pending"
                   /\ document_content row = None)))
  /\ (forall e fallback_error w,
        let run :=
          error_artifact env cfg mods pid url pdf_name e fallback_error w in
        exists entry,
          appended (ops_of (fun _ => run) w) = [entry]
          /\ entry !! "document_id" = None
          /\ documents (snd run) = documents w
          /\ Forall (fun o => is_db_op o = false) (ops_of (fun _ => run) w)).
Proof.
  split.
  - intros html method w created_file w1 Hc. cbv zeta.
    rewrite store_page_run. cbv zeta. rewrite Hc.
    rewrite record_if_uploaded_run.
    destruct (create_pdf_emits env cfg mods
                (extract_clean_text mods (parser env) html url)
                pdf_name url pid w) as (l1 & E1 & F1).
    destruct (create_pdf_keeps env cfg mods
                (extract_clean_text mods (parser env) html url)
                pdf_name url pid w) as [K1 _].
    rewrite Hc in E1, K1. simpl in E1, K1.
    split; intros L; rewrite L.
    + eexists. split; [reflexivity|].
      split; [apply fetched_entry_pdf_file|].
      split; [apply fetched_entry_document_id|].
      split; [exact K1|].
      erewrite ops_of_app; [|simpl; rewrite E1, <- app_assoc; reflexivity].
      apply Forall_app. split; [now apply quiet_not_db|].
      now repeat constructor.
    + destruct (insert_never_raises env cfg mods (Some pid) pdf_name
                  created_file "scrape" "pending" None w1) as [r Hr].
      pose proof (insert_outcome env cfg mods (Some pid) pdf_name
                    created_file "scrape" "pending" None w1) as Ho.
      cbv zeta in Ho.
      destruct (insert_document_record _ _ _ _ _ _ _ _ _ w1) as [[r'|e] w2];
        simpl in Hr, Ho; [|discriminate].
      eexists _, r', w2. split; [reflexivity|]. split; [reflexivity|].
      split; [apply fetched_entry_pdf_file|].
      split; [apply fetched_entry_document_id|].
      simpl. destruct Ho as [[D R]|(doc_id & D & R)].
      * left. split; [congruence|]. now rewrite D.
      * right. eexists. rewrite D, K1. split; [reflexivity|].
        repeat split. simpl.
        destruct R as [R|R]; [left|right]; congruence.
  - intros e fe w. cbv zeta.
    destruct (error_artifact_ops env cfg mods pid url pdf_name e fe w)
      as (l & entry & _ & E & F & D & I).
    exists entry. erewrite !ops_of_app by exact E.
    split; [|split; [exact I|split; [exact D|]]].
    + apply one_result. eapply Forall_impl; [exact F|apply quiet_no_fetch].
    + apply Forall_app. split; [now apply quiet_not_db|].
      now repeat constructor.
Qed.

End CatalogCondition.

(** A page rendered and uploaded to the configured store: the address
    passes the test and the insert is run. *)
Lemma catalog_insert_condition_witness :
  let env := site_env "Example Domain" in
  let cfg := store_cfg "https://store.example" in
  let pdf_name := pdf_name_of env "proj" page_url in
  let created_file :=
    "https://store.example/storage/v1/object/public/docs/proj_example_com_9b2c4d6e.pdf" in
  let w1 := snd (create_pdf_from_text env cfg all_modules
                   (extract_clean_text all_modules (parser env) "<p>text</p>"
                                       page_url)
                   pdf_name page_url "proj" empty_world) in
  let run := store_page env cfg all_modules "proj" page_url pdf_name
                        "<p>text</p>" "selenium" empty_world in
  exists entry r w2,
    insert_document_record env cfg all_modules (Some "proj") pdf_name
                           created_file "scrape" "pending" None w1 = (Ok r, w2)
    /\ snd run = tick (ResultsAppend entry) w2
    /\ entry !! "pdf_file" = Some (JStr created_file)
    /\ entry !! "document_id" = Some (jopt r)
    /\ ((r = None /\ documents (snd run) = documents empty_world)
        \/ exists row,
             documents (snd run) = (documents empty_world ++ [row])%list
             /\ (r = Some (id row) \/ r = None)
             /\ file_path row = Some created_file
             /\ filename row = Some pdf_name
             /\ source row = Some "scrape"
             /\ status row = Some "pending"
             /\ document_content row = None).
Proof.
  cbv zeta.
  apply (proj2 (proj1 (catalog_insert_condition (site_env "Example Domain")
                         (store_cfg "https://store.example") all_modules
                         "proj" page_url
                         (pdf_name_of (site_env "Example Domain") "proj" page_url))
                  "<p>text</p>" "selenium" empty_world _ _ eq_refl)).
  reflexivity.
Defined.

(** What that run leaves in the table. *)
Example uploaded_page_recorded :
  let env := site_env "Example Domain" in
  let w' := snd (scrape_url env (store_cfg "https://store.example")
                            all_modules "proj" page_url empty_world) in
  documents w'
  = [ {| id := "uuid-16"; project_id := Some "proj";
         filename := Some "proj_example_com_9b2c4d6e.pdf";
         file_path := Some
           "https://store.example/storage/v1/object/public/docs/proj_example_com_9b2c4d6e.pdf";
         source := Some "scrape"; status := Some "pending";
         document_content := None |} ].
Proof. vm_compute. reflexivity. Qed.

(** C7, as stated, fails: both fetches fail, the error artifact is
    uploaded, and the address returned by the renderer starts with the
    configured endpoint; yet no statement reaches the database and the
    table stays empty. *)
Lemma error_artifact_uploaded_not_recorded :
  let cfg := store_cfg "https://store.example" in
  let w' := snd (scrape_url unreachable_env cfg all_modules "proj" page_url
                            empty_world) in
  let addr :=
    "https://store.example/storage/v1/object/public/docs/proj_example_com_9b2c4d6e.pdf" in
  List.map (fun entry => entry !! "pdf_file") (appended (log w'))
  = [Some (JStr addr)]
  /\ Py.startswith addr "https://store.example" = true
  /\ looks_uploaded cfg addr = true
  /\ List.filter is_db_op (log w') = []
  /\ documents w' = [].
Proof. vm_compute. repeat split; reflexivity. Qed.

(** ** The object store client *)

Section Upload.

Variables (env : Env) (cfg : Config).

(** C5 (amended). Without a non-empty endpoint, key or bucket the call
    raises before doing anything.  With all three, once the file is read
    and the PUT answered: on status 200, 201 or 204 the result is the
    endpoint without its trailing slashes, followed by
    /storage/v1/object/public/, the bucket, a slash and the destination
    path without its leading slashes; on any other status it is the text
    "upload_failed: ", the status code, a space and the response body,
    returned and not raised. *)
Theorem upload_to_supabase_result
  (file : string) (bucket : option string) (dest_path : string) (w : World) :
  (Py.truthy (SUPABASE_URL cfg) = false \/ Py.truthy (SUPABASE_KEY cfg) = false
   \/ Py.truthy bucket = false ->
   upload_to_supabase env cfg file bucket dest_path w
   = (Raise (Exception
        "Supabase configuration missing (SUPABASE_URL, SUPABASE_KEY, SUPABASE_BUCKET)"),
      w))
  /\ (forall endpoint key b,
        SUPABASE_URL cfg = Some endpoint -> SUPABASE_KEY cfg = Some key ->
        bucket = Some b ->
        endpoint <> EmptyString -> key <> EmptyString -> b <> EmptyString ->
        let put :=
          RequestsPut (Py.rstrip_slash endpoint ++ "/storage/v1/object/" ++ b
                       ++ "/" ++ Py.lstrip_slash dest_path)
                      (answer env (FileRead file) (clock w))
                      ("Bearer " ++ key) key 60 in
        raises env (FileRead file) (clock w) = None ->
        raises env put (S (clock w)) = None ->
        let resp := http_answer env put (S (clock w)) in
        fst (upload_to_supabase env cfg file bucket dest_path w)
        = Ok (if bool_decide (status_code resp ∈ [200; 201; 204])
              then Py.rstrip_slash endpoint ++ "/storage/v1/object/public/"
                   ++ b ++ "/" ++ Py.lstrip_slash dest_path
              else "upload_failed: " ++ Py.str_of_nat (status_code resp)
                   ++ " " ++ text resp)).
Proof.
  split.
  - intros H. unfold upload_to_supabase, supabase_configured.
    destruct H as [-> | [-> | ->]]; simpl;
      rewrite ?andb_false_r; reflexivity.
  - intros endpoint key b Hu Hk -> He Hke Hb put Hread Hput resp.
    unfold upload_to_supabase, supabase_configured. rewrite Hu, Hk.
    destruct endpoint as [|c0 endpoint]; [congruence|].
    destruct key as [|c1 key]; [congruence|].
    destruct b as [|c2 b]; [congruence|].
    cbn [Py.truthy andb negb]. cbv zeta.
    rewrite run_bind. unfold ask. rewrite Hread. cbv beta iota.
    rewrite run_bind. unfold ask_http, object_url, public_object_url.
    rewrite ?Hu, ?Hk. cbn [value clock tick]. fold put.
    rewrite Hput. cbv beta iota. fold resp. unfold upload_succeeded.
    destruct (bool_decide (status_code resp ∈ [200; 201; 204])); reflexivity.
Qed.

End Upload.

(** An upload answered with status 200, to an endpoint configured with a
    trailing slash and a destination path with a leading one. *)
Lemma upload_to_supabase_result_witness :
  fst (upload_to_supabase (site_env "Example Domain")
         (store_cfg "https://store.example/") "/tmp/tmpfile.pdf" (Some "docs")
         "/proj_example_com.pdf" empty_world)
  = Ok "https://store.example/storage/v1/object/public/docs/proj_example_com.pdf".
Proof.
  apply (proj2 (upload_to_supabase_result (site_env "Example Domain")
                  (store_cfg "https://store.example/") "/tmp/tmpfile.pdf"
                  (Some "docs") "/proj_example_com.pdf" empty_world)
           "https://store.example/" "key" "docs");
    (reflexivity || discriminate).
Defined.

(** The failure branch on the same request, answered with status 403. *)
Example upload_refused :
  fst (upload_to_supabase
         (calm_env "www.example.com" "/" "Example Domain"
                   {| status_code := 403; text := "Forbidden" |} [])
         (store_cfg "https://store.example") "/tmp/tmpfile.pdf" (Some "docs")
         "proj_example_com.pdf" empty_world)
  = Ok "upload_failed: 403 Forbidden".
Proof. reflexivity. Qed.

(** C5, as stated, fails for an endpoint configured with a trailing
    slash: the address returned is not the configured endpoint followed
    by /storage/v1/object/public/docs/... *)
Lemma upload_trailing_slash_endpoint :
  let returned :=
    fst (upload_to_supabase (site_env "Example Domain")
           (store_cfg "https://store.example/") "/tmp/tmpfile.pdf"
           (Some "docs") "/proj_example_com.pdf" empty_world) in
  let claimed :=
    claimed_public_url "https://store.example/" "docs"
                       (Py.lstrip_slash "/proj_example_com.pdf") in
  returned
  = Ok "https://store.example/storage/v1/object/public/docs/proj_example_com.pdf"
  /\ claimed
     = "https://store.example//storage/v1/object/public/docs/proj_example_com.pdf"
  /\ returned <> Ok claimed.
Proof.
  cbv zeta. split; [reflexivity|]. split; [reflexivity|].
  intros H. vm_compute in H. discriminate H.
Qed.

(** ** Reprocessing *)

Section Reprocessing.

Variables (env : Env) (cfg : Config) (mods : Modules).

Lemma get_document_never_raises i :
  never_raises (get_document_by_id env cfg mods i).
Proof.
  intros w. unfold get_document_by_id.
  destruct (psycopg2 mods && _); simpl; [|now exists None].
  unfold_db. repeat oracle_step; eauto.
Qed.

Lemma download_never_raises u : never_raises (download_pdf_from_url env u).
Proof.
  unfold download_pdf_from_url. apply never_raises_try_except.
  intros e. apply never_raises_ret.
Qed.

Lemma extract_never_raises f : never_raises (extract_text_from_pdf env mods f).
Proof.
  unfold extract_text_from_pdf.
  destruct (PdfReader mods); simpl; [|apply never_raises_ret].
  apply never_raises_try_except. intros e. apply never_raises_ret.
Qed.

Lemma update_never_raises i c :
  never_raises (update_document_content env cfg mods i c).
Proof.
  intros w. unfold update_document_content.
  destruct (psycopg2 mods && _); simpl; [|now exists false].
  unfold_db. repeat oracle_step; eauto.
Qed.

Lemma cleanup_never_raises f w :
  exists w', ignore_errors (perform env (Remove f)) w = (Ok tt, w').
Proof.
  unfold ignore_errors, try_except, perform.
  destruct (raises env (Remove f) (clock w)); eauto.
Qed.

Lemma try_finally_cleanup {A : Type} (body : M A) f w :
  fst (try_finally body (ignore_errors (perform env (Remove f))) w)
  = fst (body w).
Proof.
  unfold try_finally. destruct (body w) as [r w1].
  destruct (cleanup_never_raises f w1) as [w2 ->]. reflexivity.
Qed.

(** C8 (amended). The first check is the availability of the PDF
    reader, which is not one of the five of the claim; with the reader
    present the checks follow in the stated order, each failing with its
    own status and detail, and success returns the document id, the
    status "processed" and the length of the extracted text. *)
Theorem process_document_order (document_id : string) (w : World) :
  (PdfReader mods = false ->
   process_document env cfg mods document_id w
   = (Raise (HTTPException 500
        "PyPDF2 not available. Install PyPDF2 for PDF text extraction."), w))
  /\ (PdfReader mods = true ->
      forall document w1,
        get_document_by_id env cfg mods document_id w = (Ok document, w1) ->
        match document with
        | None =>
            fst (process_document env cfg mods document_id w)
            = Raise (HTTPException 404
                ("Document with id " ++ document_id ++ " not found"))
        | Some d =>
            if negb (Py.truthy (file_path d)) then
              fst (process_document env cfg mods document_id w)
              = Raise (HTTPException 400 "Document has no file_path")
            else
              forall local_pdf_path w2,
                download_pdf_from_url env (value (file_path d)) w1
                = (Ok local_pdf_path, w2) ->
                if negb (Py.truthy local_pdf_path) then
                  fst (process_document env cfg mods document_id w)
                  = Raise (HTTPException 500
                             "Failed to download PDF from Supabase")
                else
                  forall extracted_text w3,
                    extract_text_from_pdf env mods (value local_pdf_path) w2
                    = (Ok extracted_text, w3) ->
                    if negb (Py.truthy extracted_text) then
                      fst (process_document env cfg mods document_id w)
                      = Raise (HTTPException 500
                                 "Failed to extract text from PDF")
                    else
                      forall success w4,
                        update_document_content env cfg mods document_id
                          (value extracted_text) w3 = (Ok success, w4) ->
                        fst (process_document env cfg mods document_id w)
                        = if success then
                            Ok {[ "document_id" := JStr document_id;
                                  "status" := JStr "processed";
                                  "content_length" :=
                                    JNum (Py.len (value extracted_text));
                                  "message" :=
                                    JStr "Document processed successfully" ]}
                          else
                            Raise (HTTPException 500
                              "Failed to update document_content in database")
        end).
Proof.
  split; intros HP; unfold process_document; rewrite HP; [reflexivity|].
  cbn [negb]. intros document w1 Hget. rewrite run_bind, Hget.
  destruct document as [d|]; [|reflexivity].
  destruct (Py.truthy (file_path d)) eqn:Hpath; cbn [negb]; [|reflexivity].
  intros local_pdf_path w2 Hdl. rewrite run_bind, Hdl.
  destruct local_pdf_path as [[|c p]|]; cbn [Py.truthy negb];
    [reflexivity| |reflexivity].
  intros extracted_text w3 Hex. cbv beta iota.
  rewrite try_finally_cleanup, run_bind. cbn [value] in Hex. rewrite Hex.
  destruct (Py.truthy extracted_text) eqn:Htext; cbn [negb]; [|reflexivity].
  intros success w4 Hup. cbv beta iota. rewrite run_bind, Hup.
  destruct success; reflexivity.
Qed.

End Reprocessing.

(** A stored document whose PDF has two pages with text: every check
    passes and the 23 characters of the joined text are reported. *)
Lemma process_document_order_witness :
  fst (process_document
         (calm_env "www.example.com" "/" "Example Domain" ok_response
                   ["Page one text"; ""; "Page two"])
         (store_cfg "https://store.example") all_modules "doc-1"
         (pending_world (Some "https://store.example/proj_example_com.pdf")))
  = Ok {[ "document_id" := JStr "doc-1";
          "status" := JStr "processed";
          "content_length" := JNum 23;
          "message" := JStr "Document processed successfully" ]}.
Proof.
  exact (proj2 (process_document_order
                  (calm_env "www.example.com" "/" "Example Domain" ok_response
                            ["Page one text"; ""; "Page two"])
                  (store_cfg "https://store.example") all_modules "doc-1"
                  (pending_world
                     (Some "https://store.example/proj_example_com.pdf")))
               eq_refl _ _ eq_refl _ _ eq_refl _ _ eq_refl _ _ eq_refl).
Defined.

(** The five failures of the claim, each on the first run that meets it. *)
Example process_document_failures :
  let env := calm_env "www.example.com" "/" "Example Domain" ok_response
                      ["Page one text"] in
  let cfg := store_cfg "https://store.example" in
  let stored := pending_world (Some "https://store.example/a.pdf") in
  let code r := match r with
                | Raise (HTTPException c d) => Some (c, d)
                | _ => None
                end in
  code (fst (process_document env cfg all_modules "doc-2" stored))
  = Some (404, "Document with id doc-2 not found")
  /\ code (fst (process_document env cfg all_modules "doc-1"
                                 (pending_world None)))
     = Some (400, "Document has no file_path")
  /\ code (fst (process_document (failing_env is_requests_get env) cfg
                                 all_modules "doc-1" stored))
     = Some (500, "Failed to download PDF from Supabase")
  /\ code (fst (process_document
                  (calm_env "www.example.com" "/" "Example Domain"
                            ok_response [""])
                  cfg all_modules "doc-1" stored))
     = Some (500, "Failed to extract text from PDF")
  /\ code (fst (process_document
                  (failing_env (fun o => match o with
                                         | ExecuteUpdate => true
                                         | _ => false
                                         end) env)
                  cfg all_modules "doc-1" stored))
     = Some (500, "Failed to update document_content in database").
Proof. vm_compute. repeat split; reflexivity. Qed.

(** C8, as stated, fails: without the PDF reader a request for a
    document that does not exist is answered with the reader's error, not
    with "not found", the first unmet precondition of the claim's list. *)
Lemma reader_checked_before_lookup :
  let env := site_env "Example Domain" in
  let cfg := store_cfg "https://store.example" in
  fst (get_document_by_id env cfg no_pdf_reader "doc-2" empty_world) = Ok None
  /\ fst (process_document env cfg no_pdf_reader "doc-2" empty_world)
     = Raise (HTTPException 500
         "PyPDF2 not available. Install PyPDF2 for PDF text extraction.")
  /\ fst (process_document env cfg no_pdf_reader "doc-2" empty_world)
     <> Raise (HTTPException 404 "Document with id doc-2 not found").
Proof.
  cbv zeta. split; [reflexivity|]. split; [reflexivity|]. discriminate.
Qed.

(** ** The project id of an inserted row *)

(** C9. An insert called with a falsy project id (no value, or the empty
    string) stores NULL in the project_id column.  The call leaves the
    table as it was or adds one row whose project_id is NULL; whenever it
    returns an identifier, the row was added under that identifier with a
    NULL project_id and the other columns as given; and it does return
    one, so that the row is persisted, when the driver is installed, the
    connection string is set, the database answers and the generated
    identifier is new. *)
Theorem insert_normalizes_project_id (env : Env) (cfg : Config) (mods : Modules)
  (pid : option string) (fn fp src st : string) (dc : option string)
  (w : World) :
  Py.truthy pid = false ->
  let r := insert_document_record env cfg mods pid fn fp src st dc w in
  let w' := snd r in
  (documents w' = documents w
   \/ exists row,
        documents w' = (documents w ++ [row])%list
        /\ project_id row = None
        /\ filename row = Some fn /\ file_path row = Some fp)
  /\ (forall doc_id,
        fst r = Ok (Some doc_id) ->
        documents w'
        = (documents w
           ++ [ {| id := doc_id; project_id := None; filename := Some fn;
                   file_path := Some fp; source := Some src;
                   status := Some st; document_content := dc |} ])%list)
  /\ (psycopg2 mods = true ->
      Py.truthy (DATABASE_URL cfg) = true ->
      (forall o t, raises env o t = None) ->
      existsb (has_id (answer env Uuid4 (S (S (clock w))))) (documents w)
      = false ->
      fst r = Ok (Some (answer env Uuid4 (S (S (clock w)))))).
Proof.
  intros Hfalsy. cbv zeta. split; [|split].
  - destruct (insert_outcome env cfg mods pid fn fp src st dc w)
      as [[D _]|(doc_id & D & _)]; [now left|right].
    exists (insert_row doc_id pid fn fp src st dc).
    split; [exact D|]. unfold insert_row. simpl. now rewrite Hfalsy.
  - intros doc_id H.
    rewrite (insert_returned env cfg mods pid fn fp src st dc w doc_id H).
    unfold insert_row. now rewrite Hfalsy.
  - intros Hp Hd Hr Hfresh.
    apply (insert_succeeds env cfg mods pid fn fp src st dc w Hp Hd Hr Hfresh).
Qed.

(** An insert with the empty string as project id into an empty table,
    on a database that answers: the row is persisted with a NULL
    project_id. *)
Lemma insert_normalizes_project_id_witness :
  let r := insert_document_record (site_env "Example Domain")
             (store_cfg "https://store.example") all_modules (Some "")
             "_example_com.pdf" "https://store.example/a.pdf"
             "scrape" "pending" None empty_world in
  fst r = Ok (Some "uuid-2")
  /\ documents (snd r)
     = [ {| id := "uuid-2"; project_id := None;
            filename := Some "_example_com.pdf";
            file_path := Some "https://store.example/a.pdf";
            source := Some "scrape"; status := Some "pending";
            document_content := None |} ].
Proof.
  cbv zeta.
  pose proof (insert_normalizes_project_id (site_env "Example Domain")
                (store_cfg "https://store.example") all_modules (Some "")
                "_example_com.pdf" "https://store.example/a.pdf"
                "scrape" "pending" None empty_world eq_refl)
    as (_ & Hrow & Hid).
  cbv zeta in Hrow, Hid.
  assert (H : fst (insert_document_record (site_env "Example Domain")
                     (store_cfg "https://store.example") all_modules (Some "")
                     "_example_com.pdf" "https://store.example/a.pdf"
                     "scrape" "pending" None empty_world)
              = Ok (Some "uuid-2")).
  { apply Hid; [reflexivity|reflexivity|intros o t; reflexivity|reflexivity]. }
  split; [exact H|]. exact (Hrow "uuid-2" H).
Defined.

(** The row of that run, and the row of the same run with a project id. *)
Example empty_project_id_is_null :
  let insert pid :=
    documents (snd (insert_document_record (site_env "Example Domain")
                      (store_cfg "https://store.example") all_modules pid
                      "_example_com.pdf" "https://store.example/a.pdf"
                      "scrape" "pending" None empty_world)) in
  List.map project_id (insert (Some "")) = [None]
  /\ List.map project_id (insert None) = [None]
  /\ List.map project_id (insert (Some "proj")) = [Some "proj"].
Proof. vm_compute. repeat split; reflexivity. Qed.

(** ** The paragraphs of the rendered document *)

Section Paragraphs.

Lemma prefix_absent c rest s :
  Py.all_chars (differs_from c) s = true ->
  String.prefix (String c rest) s = false.
Proof.
  destruct s as [|a s]; [reflexivity|]. simpl.
  intros H. apply andb_prop in H as [H _].
  unfold differs_from in H. apply negb_true_iff, Ascii.eqb_neq in H.
  destruct (ascii_dec c a); [contradiction|reflexivity].
Qed.

(** A separator whose first character does not occur splits nothing. *)
Lemma split_absent c rest s cur :
  Py.all_chars (differs_from c) s = true ->
  Py.split_go (String c rest) 0 cur s = [cur ++ s].
Proof.
  revert cur. induction s as [|a s IH]; intros cur H.
  - simpl. now rewrite sapp_nil_r.
  - cbn [Py.split_go]. rewrite (prefix_absent c rest _ H).
    simpl in H. apply andb_prop in H as [_ H].
    rewrite (IH _ H). now rewrite sapp_assoc.
Qed.

Lemma replace_absent c rest new s :
  Py.all_chars (differs_from c) s = true ->
  Py.replace_go (String c rest) new 0 s = s.
Proof.
  induction s as [|a s IH]; intros H; [reflexivity|].
  cbn [Py.replace_go]. rewrite (prefix_absent c rest _ H).
  simpl in H. apply andb_prop in H as [_ H]. now rewrite (IH H).
Qed.

Lemma prefix_first c rest a s :
  differs_from c a = true -> String.prefix (String c rest) (String a s) = false.
Proof.
  intros H. simpl. destruct (ascii_dec c a) as [->|_]; [|reflexivity].
  unfold differs_from in H. now rewrite Ascii.eqb_refl in H.
Qed.

Lemma prefix_app_self s t : String.prefix s (s ++ t) = true.
Proof.
  induction s as [|c s IH]; [apply prefix_nil|].
  rewrite sapp_cons. simpl. destruct (ascii_dec c c); [exact IH|contradiction].
Qed.

Lemma split_go_skip sep r cur s :
  Py.split_go sep (String.length r) cur (r ++ s) = Py.split_go sep 0 cur s.
Proof. induction r as [|c r IH]; [reflexivity|]. rewrite sapp_cons. exact IH. Qed.

(** Reading a piece that does not contain the separator's first
    character, then the separator itself. *)
Lemma split_go_piece c rest w cur s :
  Py.all_chars (differs_from c) w = true ->
  Py.split_go (String c rest) 0 cur (w ++ s)
  = Py.split_go (String c rest) 0 (cur ++ w) s.
Proof.
  revert cur. induction w as [|a w IH]; intros cur H.
  - now rewrite sapp_nil_l, sapp_nil_r.
  - simpl in H. apply andb_prop in H as [Ha H].
    rewrite sapp_cons. cbn [Py.split_go]. rewrite (prefix_first _ _ _ _ Ha).
    rewrite (IH _ H). now rewrite sapp_assoc.
Qed.

Lemma split_go_separator c rest cur s :
  Py.split_go (String c rest) 0 cur (String c rest ++ s)
  = cur :: Py.split_go (String c rest) 0 EmptyString s.
Proof.
  rewrite sapp_cons. cbn [Py.split_go].
  rewrite <- sapp_cons, prefix_app_self. simpl String.length.
  replace (S (String.length rest) - 1) with (String.length rest) by lia.
  f_equal. apply split_go_skip.
Qed.

(** Splitting a join gives the pieces back when none of them contains
    the first character of the separator. *)
Lemma split_join c rest l :
  l <> [] ->
  Forall (fun w => Py.all_chars (differs_from c) w = true) l ->
  Py.split (String c rest) (Py.join (String c rest) l) = l.
Proof.
  intros Hl F. unfold Py.split.
  induction F as [|w l Hw F IH]; [contradiction|].
  rewrite join_cons. destruct l as [|v l].
  - rewrite <- (sapp_nil_r w) at 1.
    rewrite (split_go_piece _ _ _ _ _ Hw), sapp_nil_l. reflexivity.
  - rewrite (split_go_piece _ _ _ _ _ Hw), sapp_nil_l, split_go_separator.
    f_equal. apply IH. discriminate.
Qed.

(** C1 (what the code does instead). The text is split on the
    four-character separator backslash-n-backslash-n, so a text without
    backslashes, whatever actual line breaks it contains, is one segment:
    it yields one paragraph block holding the whole stripped text when
    that is longer than 10 characters, and no block otherwise. *)
Theorem paragraph_blocks_without_backslash text :
  Py.all_chars (differs_from "\"%char) text = true ->
  paragraph_blocks text
  = if non_empty (Py.strip text) && (10 <? Py.len (Py.strip text))%nat
    then [Paragraph (Py.strip text) Normal; Spacer 1 12]
    else [].
Proof.
  intros H. unfold paragraph_blocks, paragraph_separator, escaped_newline,
    Py.split, Py.replace.
  rewrite (split_absent _ _ _ _ H), sapp_nil_l.
  cbn [flat_map]. rewrite (replace_absent _ _ _ _ H), app_nil_r.
  destruct (non_empty (Py.strip text)); [|reflexivity].
  cbn [andb]. destruct (10 <? Py.len (Py.strip text))%nat; reflexivity.
Qed.

End Paragraphs.

(** Two segments separated by an actual double line break, each longer
    than 10 characters: the renderer emits a single paragraph block
    holding both, line breaks included. *)
Lemma paragraph_blocks_real_newlines :
  paragraph_blocks ("First paragraph of the page" ++ Py.nl ++ Py.nl
                    ++ "Second paragraph of the page")
  = [ Paragraph ("First paragraph of the page" ++ Py.nl ++ Py.nl
                 ++ "Second paragraph of the page") Normal;
      Spacer 1 12 ].
Proof.
  apply (paragraph_blocks_without_backslash
           ("First paragraph of the page" ++ Py.nl ++ Py.nl
            ++ "Second paragraph of the page")).
  reflexivity.
Defined.

(** The separator that does split is the four-character text made of two
    backslash-n pairs. *)
Example paragraph_blocks_escaped_separator :
  paragraph_blocks "First paragraph of the page\n\nSecond paragraph of the page"
  = [ Paragraph "First paragraph of the page" Normal; Spacer 1 12;
      Paragraph "Second paragraph of the page" Normal; Spacer 1 12 ].
Proof. reflexivity. Qed.

(** The extractor joins its blocks with actual line breaks, so what it
    hands to the renderer is rendered as one paragraph. *)
Example extracted_text_is_one_paragraph :
  let doc := [ Element "p" ∅ [Text "First paragraph of the page"];
               Element "p" ∅ [Text "Second paragraph of the page"] ] in
  extract_from_soup doc
  = "First paragraph of the page" ++ Py.nl ++ Py.nl
    ++ "Second paragraph of the page"
  /\ paragraph_blocks (extract_from_soup doc)
     = [ Paragraph ("First paragraph of the page" ++ Py.nl ++ Py.nl
                    ++ "Second paragraph of the page") Normal;
         Spacer 1 12 ].
Proof. vm_compute. split; reflexivity. Qed.

(** ** Removal by class and id *)

Section Removal.

Implicit Types (p q : string -> gmap string string -> bool) (doc : soup).

Lemma decompose_where_ext p q doc :
  (forall nm at_, p nm at_ = q nm at_) ->
  decompose_where p doc = decompose_where q doc.
Proof.
  intros Hpq. unfold decompose_where.
  induction doc as [|n doc IH]; [reflexivity|].
  simpl. rewrite IH. f_equal. clear IH doc.
  induction n as [s|nm at_ ch IHch] using node_induction; [reflexivity|].
  simpl. rewrite Hpq. destruct (q nm at_); [reflexivity|].
  do 2 f_equal. induction IHch as [|x r Hx _ IHr]; [reflexivity|].
  simpl. now rewrite Hx, IHr.
Qed.

Lemma decompose_where_none doc :
  decompose_where (fun _ _ => false) doc = doc.
Proof.
  unfold decompose_where.
  induction doc as [|n doc IH]; [reflexivity|].
  simpl. rewrite IH. change (n :: doc) with ([n] ++ doc)%list. f_equal.
  clear IH doc.
  induction n as [s|nm at_ ch IHch] using node_induction; [reflexivity|].
  simpl. do 2 f_equal. induction IHch as [|x r Hx _ IHr]; [reflexivity|].
  simpl. now rewrite Hx, IHr.
Qed.

(** Two passes remove what either of them removes. *)
Lemma decompose_where_twice p q doc :
  decompose_where q (decompose_where p doc)
  = decompose_where (fun nm at_ => p nm at_ || q nm at_) doc.
Proof.
  unfold decompose_where.
  induction doc as [|n doc IH]; [reflexivity|].
  simpl. rewrite flat_map_app, IH. f_equal. clear IH doc.
  induction n as [s|nm at_ ch IHch] using node_induction; [reflexivity|].
  simpl. destruct (p nm at_); [reflexivity|]. simpl.
  destruct (q nm at_); [reflexivity|]. rewrite app_nil_r. do 2 f_equal.
  induction IHch as [|x r Hx _ IHr]; [reflexivity|].
  simpl. now rewrite flat_map_app, Hx, IHr.
Qed.

Lemma fold_decompose (sels : list selector) p doc :
  fold_left (fun d sel => decompose_where (selects sel) d) sels
            (decompose_where p doc)
  = decompose_where
      (fun nm at_ => p nm at_ || existsb (fun sel => selects sel nm at_) sels)
      doc.
Proof.
  revert p. induction sels as [|sel sels IH]; intros p.
  - simpl. apply decompose_where_ext. intros. now rewrite orb_false_r.
  - simpl. rewrite decompose_where_twice, IH.
    apply decompose_where_ext. intros. now rewrite orb_assoc.
Qed.

(** No element that a pass should have removed is left. *)
Lemma decompose_where_sound p doc e :
  In e (all_elements (decompose_where p doc)) ->
  p (node_name e) (node_attrs e) = false.
Proof.
  unfold all_elements, decompose_where. revert e.
  induction doc as [|n doc IH]; intros e; [intros []|].
  simpl. rewrite flat_map_app, in_app_iff. intros [H|H]; [|now apply IH].
  clear IH doc. revert e H.
  induction n as [s|nm at_ ch IHch] using node_induction; intros e;
    [intros []|].
  simpl. destruct (p nm at_) eqn:Hp; [intros []|].
  simpl. rewrite app_nil_r. intros [<-|H]; [exact Hp|].
  induction IHch as [|x r Hx _ IHr]; [destruct H|].
  simpl in H. rewrite flat_map_app, in_app_iff in H.
  destruct H as [H|H]; [now apply Hx|now apply IHr].
Qed.

Lemma selectors_by_attribute :
  unwanted_selectors
  = (List.map (AttrContains "class") class_patterns
     ++ List.map (AttrContains "id") id_patterns)%list.
Proof. reflexivity. Qed.

Lemma matches_unwanted_selectors nm at_ :
  existsb (fun sel => selects sel nm at_) unwanted_selectors
  = matches_unwanted at_.
Proof.
  rewrite selectors_by_attribute, existsb_app. unfold matches_unwanted.
  f_equal; (etransitivity; [apply existsb_map|]); reflexivity.
Qed.

(** C2 (amended). The removal pass deletes exactly the elements (with
    their subtrees) whose class, read as its tokens joined by single
    spaces, contains one of the fifteen class patterns, or whose id
    contains one of the first eleven of them (not social, share, comment
    or related); the comparison is exact, letter case included.  No such
    element is left in the document the text is collected from. *)
Theorem unwanted_selectors_removed doc :
  remove_unwanted_selectors doc
  = decompose_where (fun _ at_ => matches_unwanted at_) doc
  /\ (forall e, In e (all_elements (remove_unwanted_selectors doc)) ->
                matches_unwanted (node_attrs e) = false)
  /\ (forall e, In e (find_all content_tags (cleaned doc)) ->
                matches_unwanted (node_attrs e) = false).
Proof.
  assert (E : forall d, remove_unwanted_selectors d
                        = decompose_where (fun _ at_ => matches_unwanted at_) d).
  { intros d. unfold remove_unwanted_selectors.
    rewrite <- (decompose_where_none d) at 1. rewrite fold_decompose.
    apply decompose_where_ext. intros nm at_. simpl orb.
    apply matches_unwanted_selectors. }
  split; [apply E|]. split.
  - intros e. rewrite E.
    apply (decompose_where_sound (fun _ at_ => matches_unwanted at_)).
  - intros e He. unfold find_all in He. apply filter_In in He as [He _].
    unfold cleaned in He. rewrite E in He.
    apply (decompose_where_sound (fun _ at_ => matches_unwanted at_) _ _ He).
Qed.

End Removal.

(** C2, as stated, fails on both counts: an element whose id contains
    "social" and one whose class contains "sidebar" in capitals fall under
    the claim's rule, and both are kept with their text. *)
Lemma social_id_and_capital_class_kept :
  let follow := Element "div" {[ "id" := "social-links" ]}
                        [Text "Follow the ministry online"] in
  let aside := Element "div" {[ "class" := "Sidebar wide" ]}
                       [Text "Other policy documents"] in
  let doc := [ follow; aside ] in
  claimed_unwanted (node_attrs follow) = true
  /\ claimed_unwanted (node_attrs aside) = true
  /\ cleaned doc = doc
  /\ extract_from_soup doc
     = "Follow the ministry online" ++ Py.nl ++ Py.nl
       ++ "Other policy documents".
Proof. vm_compute. repeat split; reflexivity. Qed.

(** The same elements with an id and a class the selectors do match. *)
Example lower_case_class_removed :
  let doc := [ Element "div" {[ "id" := "page-footer" ]}
                       [Text "Follow the ministry online"];
               Element "div" {[ "class" := "sidebar wide" ]}
                       [Text "Other policy documents"];
               Element "p" ∅ [Text "The policy applies from January"] ] in
  extract_from_soup doc = "The policy applies from January".
Proof. vm_compute. reflexivity. Qed.

(** ** Words and white space *)

Section Words.

Implicit Types (s t w cur : string) (c : ascii).

Lemma is_word_snoc cur c :
  Py.is_space c = false ->
  (cur = EmptyString \/ is_word_string cur = true) ->
  is_word_string (cur ++ String c EmptyString) = true.
Proof.
  intros Hc H. unfold is_word_string. rewrite all_chars_app. simpl.
  rewrite Hc. simpl. rewrite andb_true_r.
  assert (Hne : non_empty (cur ++ String c EmptyString) = true)
    by now destruct cur.
  rewrite Hne. simpl. destruct H as [->|H]; [reflexivity|].
  unfold is_word_string in H. now apply andb_prop in H as [_ H].
Qed.

(** The pieces [split] returns are words. *)
Lemma split_ws_go_words s :
  forall o, match o with
            | Some cur => is_word_string cur = true
            | None => True
            end ->
            Forall (fun w => is_word_string w = true) (Py.split_ws_go o s).
Proof.
  induction s as [|c s IH]; intros [cur|] H; simpl.
  - now repeat constructor.
  - constructor.
  - destruct (Py.is_space c) eqn:Hc.
    + constructor; [exact H|]. now apply (IH None).
    + apply (IH (Some _)). apply is_word_snoc; auto.
  - destruct (Py.is_space c) eqn:Hc.
    + now apply (IH None).
    + apply (IH (Some _)). unfold is_word_string. simpl. now rewrite Hc.
Qed.

Lemma split_ws_words s :
  Forall (fun w => is_word_string w = true) (Py.split_ws s).
Proof. now apply (split_ws_go_words s None). Qed.

Lemma word_starts w : is_word_string w = true -> starts_nonspace w = true.
Proof.
  destruct w as [|c w]; [discriminate|]. unfold is_word_string. simpl.
  intros H. now apply andb_prop in H as [H _].
Qed.

Lemma word_ends w : is_word_string w = true -> ends_nonspace w = true.
Proof.
  unfold is_word_string. intros H. apply andb_prop in H as [_ H].
  induction w as [|c w IH]; [reflexivity|].
  simpl in H. apply andb_prop in H as [Hc H].
  destruct w; [exact Hc|]. now apply IH.
Qed.

Lemma word_length w : is_word_string w = true -> 1 <= String.length w.
Proof. destruct w; [discriminate|]. simpl. lia. Qed.

Lemma ends_nonspace_app s t :
  t <> EmptyString -> ends_nonspace (s ++ t) = ends_nonspace t.
Proof.
  intros Ht. induction s as [|c s IH]; [reflexivity|].
  rewrite sapp_cons. simpl. rewrite IH.
  destruct (s ++ t) eqn:E; [|reflexivity].
  destruct s; [|discriminate]. simpl in E. contradiction.
Qed.

Lemma lstrip_id s : starts_nonspace s = true -> Py.lstrip_by Py.is_space s = s.
Proof.
  destruct s as [|c s]; [discriminate|]. simpl. intros H.
  apply negb_true_iff in H. now rewrite H.
Qed.

Lemma rstrip_id s : ends_nonspace s = true -> Py.rstrip_by Py.is_space s = s.
Proof.
  induction s as [|c s IH]; [reflexivity|]. intros H.
  cbn [Py.rstrip_by]. destruct s as [|b s].
  - simpl in *. apply negb_true_iff in H. now rewrite H.
  - rewrite (IH H). reflexivity.
Qed.

Lemma strip_id s :
  starts_nonspace s = true -> ends_nonspace s = true -> Py.strip s = s.
Proof. intros H1 H2. unfold Py.strip. now rewrite lstrip_id, rstrip_id. Qed.

Lemma join_not_empty sep w l :
  w <> EmptyString -> Py.join sep (w :: l) <> EmptyString.
Proof.
  intros Hw. rewrite join_cons.
  destruct l; [exact Hw|]. destruct w; [contradiction|discriminate].
Qed.

Lemma join_starts sep w l :
  starts_nonspace w = true -> starts_nonspace (Py.join sep (w :: l)) = true.
Proof.
  rewrite join_cons. destruct w as [|c w]; [discriminate|].
  now destruct l.
Qed.

Lemma join_ends sep l :
  l <> [] ->
  Forall (fun w => w <> EmptyString /\ ends_nonspace w = true) l ->
  ends_nonspace (Py.join sep l) = true.
Proof.
  intros Hl F. induction F as [|w l [Hw He] F IH]; [contradiction|].
  rewrite join_cons. destruct l as [|v l]; [exact He|].
  rewrite <- sapp_assoc, ends_nonspace_app.
  - apply IH. discriminate.
  - inversion F as [|? ? [Hv _] _]; subst. now apply join_not_empty.
Qed.

Lemma join_length_two_words w v l :
  Forall (fun w => is_word_string w = true) (w :: v :: l) ->
  3 <= String.length (Py.join " " (w :: v :: l)).
Proof.
  intros F. inversion F as [|? ? Hw F']; subst.
  inversion F' as [|? ? Hv F'']; subst.
  rewrite join_cons, !length_string_app, join_cons.
  apply word_length in Hw, Hv.
  destruct l; [simpl; lia|]. rewrite length_string_app. simpl. lia.
Qed.

(** The normal form of a text is stripped already. *)
Lemma clean_text_stripped s : Py.strip (clean_text_of s) = clean_text_of s.
Proof.
  unfold clean_text_of. pose proof (split_ws_words s) as F.
  destruct (Py.split_ws s) as [|w l]; [reflexivity|].
  apply strip_id.
  - apply join_starts, word_starts. now inversion F.
  - apply join_ends; [discriminate|].
    eapply Forall_impl; [exact F|]. intros v Hv. split.
    + destruct v; [discriminate|discriminate].
    + now apply word_ends.
Qed.

End Words.

(** ** What survives the passes is long enough for the loop *)

Section Survivors.

Implicit Types (s t w cur : string) (c : ascii).

Lemma rstrip_ends s : ends_nonspace (Py.rstrip_by Py.is_space s) = true.
Proof.
  induction s as [|c s IH]; [reflexivity|]. cbn [Py.rstrip_by].
  destruct (Py.rstrip_by Py.is_space s) as [|b r].
  - destruct (Py.is_space c) eqn:Hc; simpl; [reflexivity|now rewrite Hc].
  - exact IH.
Qed.

Lemma rstrip_starts s :
  starts_nonspace s = true ->
  starts_nonspace (Py.rstrip_by Py.is_space s) = true.
Proof.
  destruct s as [|c s]; [discriminate|]. cbn [Py.rstrip_by starts_nonspace].
  intros Hc. destruct (Py.rstrip_by Py.is_space s); [|exact Hc].
  apply negb_true_iff in Hc. rewrite Hc. simpl. now rewrite Hc.
Qed.

Lemma lstrip_starts s :
  Py.lstrip_by Py.is_space s = EmptyString
  \/ starts_nonspace (Py.lstrip_by Py.is_space s) = true.
Proof.
  induction s as [|c s IH]; [now left|]. simpl.
  destruct (Py.is_space c) eqn:Hc; [exact IH|].
  right. simpl. now rewrite Hc.
Qed.

Lemma strip_shape s :
  non_empty (Py.strip s) = true ->
  starts_nonspace (Py.strip s) = true /\ ends_nonspace (Py.strip s) = true.
Proof.
  unfold Py.strip. intros H. split; [|apply rstrip_ends].
  destruct (lstrip_starts s) as [E|E]; [now rewrite E in H|].
  now apply rstrip_starts.
Qed.

Lemma get_text_shape sep n :
  non_empty (get_text sep n) = true ->
  starts_nonspace (get_text sep n) = true
  /\ ends_nonspace (get_text sep n) = true.
Proof.
  unfold get_text.
  assert (F : Forall (fun p => starts_nonspace p = true
                               /\ ends_nonspace p = true)
                     (List.filter non_empty (List.map Py.strip (strings_of n)))).
  { apply List.Forall_forall. intros p Hp.
    apply filter_In in Hp as [Hin Hne].
    apply in_map_iff in Hin as (x & <- & _). now apply strip_shape. }
  revert F.
  generalize (List.filter non_empty (List.map Py.strip (strings_of n))).
  intros [|p l] F H; [discriminate|]. split.
  - apply join_starts. now inversion F as [|? ? [H1 _] _].
  - apply join_ends; [discriminate|].
    eapply Forall_impl; [exact F|]. intros v [Hs He]. split; [|exact He].
    destruct v; [discriminate|discriminate].
Qed.

Lemma split_ws_go_some_not_nil s cur : Py.split_ws_go (Some cur) s <> [].
Proof.
  revert cur. induction s as [|c s IH]; intros cur; simpl; [discriminate|].
  destruct (Py.is_space c); [discriminate|apply IH].
Qed.

Lemma split_ws_nil_spaces s :
  Py.split_ws_go None s = [] -> Py.all_chars Py.is_space s = true.
Proof.
  induction s as [|c s IH]; [reflexivity|]. simpl.
  destruct (Py.is_space c); [exact IH|].
  intros H. now apply split_ws_go_some_not_nil in H.
Qed.

Lemma spaces_ends_nonspace s :
  ends_nonspace s = true -> Py.all_chars Py.is_space s = true ->
  s = EmptyString.
Proof.
  induction s as [|c s IH]; [reflexivity|]. simpl.
  intros He Hs. apply andb_prop in Hs as [Hc Hs].
  destruct s as [|b s]; [now rewrite Hc in He|].
  discriminate (IH He Hs).
Qed.

Lemma ends_nonspace_tail c s :
  ends_nonspace (String c s) = true -> ends_nonspace s = true.
Proof. now destruct s. Qed.

Lemma single_word_go s cur w :
  ends_nonspace s = true -> Py.split_ws_go (Some cur) s = [w] ->
  w = cur ++ s.
Proof.
  revert cur. induction s as [|c s IH]; intros cur He H.
  - simpl in H. injection H as <-. now rewrite sapp_nil_r.
  - simpl in H. destruct (Py.is_space c) eqn:Hc.
    + injection H as <- H. apply split_ws_nil_spaces in H.
      pose proof (spaces_ends_nonspace s (ends_nonspace_tail _ _ He) H) as ->.
      simpl in He. now rewrite Hc in He.
    + rewrite (IH _ (ends_nonspace_tail _ _ He) H). now rewrite sapp_assoc.
Qed.

(** A stripped text that is one word is that word. *)
Lemma single_word s w :
  starts_nonspace s = true -> ends_nonspace s = true ->
  Py.split_ws s = [w] -> w = s.
Proof.
  destruct s as [|c s]; [discriminate|]. unfold Py.split_ws. simpl.
  intros Hc He H. apply negb_true_iff in Hc. rewrite Hc in H.
  now apply (single_word_go s _ w (ends_nonspace_tail _ _ He)) in H.
Qed.

Lemma heading_words text :
  Py.split_ws ("[HEADING] " ++ text) = "[HEADING]" :: Py.split_ws text.
Proof. reflexivity. Qed.

Lemma table_words text :
  Py.split_ws ("[TABLE] " ++ text) = "[TABLE]" :: Py.split_ws text.
Proof. reflexivity. Qed.

Lemma long_enough_length s :
  long_enough (clean_text_of s) = true <-> 2 < Py.len (clean_text_of s).
Proof.
  unfold long_enough. rewrite clean_text_stripped. apply Nat.ltb_lt.
Qed.

Lemma tagged_long (tag : string) l :
  2 < String.length tag -> 2 < Py.len (Py.join " " (tag :: l)).
Proof.
  intros H. rewrite join_cons. unfold Py.len.
  destruct l; [exact H|]. rewrite length_string_app. lia.
Qed.

Lemma main_block_long element b :
  main_block element = Some b -> long_enough (clean_text_of b) = true.
Proof.
  unfold main_block. intros H. apply long_enough_length.
  destruct (acceptable _); [|discriminate].
  destruct (name_in heading_tags element).
  { injection H as <-. unfold clean_text_of. rewrite heading_words.
    apply tagged_long. simpl. lia. }
  destruct (name_in cell_tags element).
  { destruct (1 <=? _)%nat; [|discriminate]. injection H as <-.
    unfold clean_text_of. rewrite table_words. apply tagged_long. simpl. lia. }
  destruct (2 <=? _)%nat eqn:Hw; [|discriminate]. injection H as <-.
  apply Nat.leb_le in Hw. unfold clean_text_of.
  pose proof (split_ws_words (get_text " " element)) as F.
  destruct (Py.split_ws (get_text " " element)) as [|w [|v l]];
    simpl in Hw; try lia.
  now apply join_length_two_words.
Qed.

Lemma fallback_block_long element b :
  fallback_block element = Some b -> long_enough (clean_text_of b) = true.
Proof.
  unfold fallback_block. intros H. apply long_enough_length.
  destruct (non_empty (get_text "" element)) eqn:Hne; [|discriminate].
  destruct (5 <? Py.len (get_text "" element))%nat eqn:Hl; [|discriminate].
  destruct (1 <=? _)%nat eqn:Hw; [|discriminate]. injection H as <-.
  apply Nat.ltb_lt in Hl. apply Nat.leb_le in Hw.
  destruct (get_text_shape "" element Hne) as [Hs He].
  unfold clean_text_of.
  pose proof (split_ws_words (get_text "" element)) as F.
  destruct (Py.split_ws (get_text "" element)) as [|w [|v l]] eqn:E;
    simpl in Hw; try lia.
  - apply (single_word _ _ Hs He) in E. subst w. simpl. unfold Py.len in *. lia.
  - now apply join_length_two_words.
Qed.

(** Every block that reaches the de-duplication loop passes its length
    test: the loop drops duplicates only. *)
Lemma text_content_long doc :
  Forall (fun b => long_enough (clean_text_of b) = true) (text_content_of doc).
Proof.
  assert (Hmain : forall l, Forall (fun b => long_enough (clean_text_of b) = true)
                                   (omap main_block l)).
  { induction l as [|e l IH]; [constructor|]. simpl.
    destruct (main_block e) eqn:E; [|exact IH].
    constructor; [now apply (main_block_long e)|exact IH]. }
  assert (Hfb : forall l, Forall (fun b => long_enough (clean_text_of b) = true)
                                 (omap fallback_block l)).
  { induction l as [|e l IH]; [constructor|]. simpl.
    destruct (fallback_block e) eqn:E; [|exact IH].
    constructor; [now apply (fallback_block_long e)|exact IH]. }
  unfold text_content_of.
  pose proof (Hmain (find_all content_tags doc)) as H.
  destruct (omap main_block (find_all content_tags doc)); [apply Hfb|exact H].
Qed.

End Survivors.

(** ** De-duplication *)

Section Dedup.

Implicit Types (seen : gset string) (l : list string) (x y : string).

Lemma unique_loop_elem seen l x :
  x ∈ unique_loop seen l
  <-> (x ∉ seen) /\ (x ∈ List.map clean_text_of l) /\ long_enough x = true.
Proof.
  revert seen. induction l as [|t l IH]; intros seen.
  - simpl. split; [intros H; inversion H|intros (_ & H & _); inversion H].
  - cbn [unique_loop List.map]. fold (long_enough (clean_text_of t)).
    destruct (bool_decide (clean_text_of t ∉ seen)) eqn:Hfresh;
      [destruct (long_enough (clean_text_of t)) eqn:Hlong|]; cbn [andb].
    + apply bool_decide_eq_true in Hfresh.
      rewrite !elem_of_cons, IH. split.
      * intros [->|(Hs & Hin & Hl)]; [now auto|].
        split; [|auto]. intros Hx. apply Hs. apply elem_of_union. right. exact Hx.
      * intros (Hs & [->|Hin] & Hl); [now left|].
        destruct (decide (x = clean_text_of t)) as [->|Hne]; [now left|].
        right. split; [|auto]. intros Hx.
        apply elem_of_union in Hx. destruct Hx as [Hx|Hx]; [|exact (Hs Hx)].
        apply elem_of_singleton in Hx. exact (Hne Hx).
    + rewrite IH, elem_of_cons. split.
      * intros (Hs & Hin & Hl). auto.
      * intros (Hs & [->|Hin] & Hl); [congruence|]. auto.
    + apply bool_decide_eq_false in Hfresh.
      rewrite IH, elem_of_cons. split.
      * intros (Hs & Hin & Hl). auto.
      * intros (Hs & [->|Hin] & Hl); [contradiction|]. auto.
Qed.

Lemma unique_loop_nodup seen l : NoDup (unique_loop seen l).
Proof.
  revert seen. induction l as [|t l IH]; intros seen; [constructor|].
  cbn [unique_loop].
  destruct (bool_decide (clean_text_of t ∉ seen) && _); [|apply IH].
  apply NoDup_cons. split; [|apply IH].
  rewrite unique_loop_elem. intros (Hs & _). set_solver.
Qed.

Lemma first_index_elem x l : x ∈ l -> exists p, first_index x l = Some p.
Proof.
  induction 1 as [x l|x y l _ IH]; simpl.
  - rewrite String.eqb_refl. eauto.
  - destruct (String.eqb x y); [eauto|]. destruct IH as [p ->]. simpl. eauto.
Qed.

Lemma first_index_later x y l :
  x <> y -> first_index x (y :: l) = S <$> first_index x l.
Proof. intros H. simpl. apply String.eqb_neq in H. now rewrite H. Qed.

(** The entries stand in the order of their first occurrences. *)
Lemma unique_loop_order seen l i j x y :
  unique_loop seen l !! i = Some x -> unique_loop seen l !! j = Some y ->
  i < j ->
  exists p q, first_index x (List.map clean_text_of l) = Some p
              /\ first_index y (List.map clean_text_of l) = Some q
              /\ p < q.
Proof.
  revert seen i j. induction l as [|t l IH]; intros seen i j Hi Hj Hlt.
  - simpl in Hi. now rewrite lookup_nil in Hi.
  - cbn [unique_loop List.map] in *.
    fold (long_enough (clean_text_of t)) in *.
    assert (Hskip : forall z seen', z ∈ unique_loop seen' l ->
              (clean_text_of t ∈ seen' \/ long_enough (clean_text_of t) = false) ->
              z <> clean_text_of t).
    { intros z seen' Hz Hwhy ->. apply unique_loop_elem in Hz as (Hs & _ & Hl).
      destruct Hwhy; [contradiction|congruence]. }
    destruct (bool_decide (clean_text_of t ∉ seen)) eqn:Hfresh;
      [destruct (long_enough (clean_text_of t)) eqn:Hlong|]; cbn [andb] in *.
    + destruct j as [|j]; [lia|]. cbn in Hj.
      assert (Hy : y <> clean_text_of t).
      { apply (Hskip y ({[clean_text_of t]} ∪ seen));
          [eapply list_elem_of_lookup_2; eauto|left; set_solver]. }
      destruct i as [|i].
      * injection Hi as <-.
        assert (Hyin : y ∈ List.map clean_text_of l).
        { apply list_elem_of_lookup_2 in Hj.
          now apply unique_loop_elem in Hj as (_ & H & _). }
        destruct (first_index_elem _ _ Hyin) as [q Hq].
        exists 0, (S q). rewrite (first_index_later _ _ _ Hy), Hq. simpl.
        rewrite String.eqb_refl. repeat split; lia.
      * cbn in Hi.
        assert (Hx : x <> clean_text_of t).
        { apply (Hskip x ({[clean_text_of t]} ∪ seen));
            [eapply list_elem_of_lookup_2; eauto|left; set_solver]. }
        destruct (IH _ i j Hi Hj ltac:(lia)) as (p & q & Hp & Hq & Hpq).
        exists (S p), (S q).
        rewrite (first_index_later _ _ _ Hx), (first_index_later _ _ _ Hy).
        rewrite Hp, Hq. repeat split; simpl; lia.
    + destruct (IH _ i j Hi Hj Hlt) as (p & q & Hp & Hq & Hpq).
      exists (S p), (S q).
      rewrite !first_index_later, Hp, Hq; [repeat split; simpl; lia|..].
      * eapply Hskip; [eapply list_elem_of_lookup_2; eauto|now right].
      * eapply Hskip; [eapply list_elem_of_lookup_2; eauto|now right].
    + apply bool_decide_eq_false in Hfresh.
      assert (Hseen : clean_text_of t ∈ seen).
      { destruct (decide (clean_text_of t ∈ seen)); [auto|contradiction]. }
      destruct (IH _ i j Hi Hj Hlt) as (p & q & Hp & Hq & Hpq).
      exists (S p), (S q).
      rewrite !first_index_later, Hp, Hq; [repeat split; simpl; lia|..].
      * eapply Hskip; [eapply list_elem_of_lookup_2; eauto|now left].
      * eapply Hskip; [eapply list_elem_of_lookup_2; eauto|now left].
Qed.

Lemma all_chars_impl (p q : ascii -> bool) s :
  (forall c, p c = true -> q c = true) ->
  Py.all_chars p s = true -> Py.all_chars q s = true.
Proof.
  intros Hpq. induction s as [|c s IH]; [reflexivity|]. simpl.
  intros H. apply andb_prop in H as [Hc H]. now rewrite (Hpq c Hc), IH.
Qed.

Lemma join_all_chars (p : ascii -> bool) sep l :
  Py.all_chars p sep = true ->
  Forall (fun w => Py.all_chars p w = true) l ->
  Py.all_chars p (Py.join sep l) = true.
Proof.
  intros Hsep F. induction F as [|w l Hw F IH]; [reflexivity|].
  rewrite join_cons. destruct l; [exact Hw|].
  now rewrite !all_chars_app, Hw, Hsep, IH.
Qed.

(** A normal form contains no line break. *)
Lemma clean_text_no_newline t :
  Py.all_chars (differs_from "010"%char) (clean_text_of t) = true.
Proof.
  unfold clean_text_of. apply join_all_chars; [reflexivity|].
  eapply Forall_impl; [apply split_ws_words|]. intros w Hw.
  unfold is_word_string in Hw. apply andb_prop in Hw as [_ Hw].
  revert Hw. apply all_chars_impl. intros c Hc. unfold differs_from.
  destruct (Ascii.eqb_spec "010"%char c) as [<-|_]; [discriminate|reflexivity].
Qed.

Lemma unique_loop_normal seen l :
  Forall (fun x => exists t, x = clean_text_of t) (unique_loop seen l).
Proof.
  revert seen. induction l as [|t l IH]; intros seen; [constructor|].
  cbn [unique_loop]. destruct (_ && _); [|apply IH].
  constructor; [now exists t|apply IH].
Qed.

(** C6. The output is the join of the distinct normal forms of the
    surviving blocks: no entry twice, every normal form of a surviving
    block present (so blocks equal after normalization share one entry),
    the entries in the order of the first occurrences of their normal
    forms, and, there being no line break inside an entry, the entries
    are what the double line breaks of the output separate. *)
Theorem deduplication_first_occurrence (doc : soup) :
  let blocks := text_content_of (cleaned doc) in
  let normal := List.map clean_text_of blocks in
  let entries := unique_content blocks in
  extract_from_soup doc = Py.join (Py.nl ++ Py.nl) entries
  /\ NoDup entries
  /\ (forall x, x ∈ entries <-> x ∈ normal)
  /\ (forall i j x y,
        entries !! i = Some x -> entries !! j = Some y -> i < j ->
        exists p q, first_index x normal = Some p
                    /\ first_index y normal = Some q /\ p < q)
  /\ (entries <> [] ->
      Py.split (Py.nl ++ Py.nl) (extract_from_soup doc) = entries).
Proof.
  cbv zeta. split; [reflexivity|].
  assert (Hsplit : forall blocks, unique_content blocks <> [] ->
            Py.split (Py.nl ++ Py.nl)
                     (Py.join (Py.nl ++ Py.nl) (unique_content blocks))
            = unique_content blocks).
  { intros blocks Hne. change (Py.nl ++ Py.nl) with (String "010"%char Py.nl).
    apply split_join; [exact Hne|].
    eapply Forall_impl; [apply unique_loop_normal|].
    intros x [t ->]. apply clean_text_no_newline. }
  unfold extract_from_soup.
  pose proof (text_content_long (cleaned doc)) as F.
  revert F. generalize (text_content_of (cleaned doc)). intros blocks F.
  split; [apply unique_loop_nodup|]. split; [|split; [|apply Hsplit]].
  - intros x. unfold unique_content. rewrite unique_loop_elem. split.
    + now intros (_ & H & _).
    + intros H. split; [apply not_elem_of_empty|]. split; [exact H|].
      apply list_elem_of_In, in_map_iff in H as (b & <- & Hb).
      rewrite List.Forall_forall in F. now apply F.
  - intros i j x y. apply unique_loop_order.
Qed.

End Dedup.

(** Three blocks, the third equal to the first up to white space: one
    entry for both, where the first one stood. *)
Example repeated_block_once :
  let doc := [ Element "p" ∅ [Text "The policy applies from January"];
               Element "p" ∅ [Text "It replaces the earlier policy"];
               Element "p" ∅ [Text "The  policy   applies from January"] ] in
  extract_from_soup doc
  = "The policy applies from January" ++ Py.nl ++ Py.nl
    ++ "It replaces the earlier policy".
Proof. vm_compute. reflexivity. Qed.

(** ** File names on concrete URLs *)

(** A URL with a path of 44 characters. *)
Lemma filename_truncation_witness :
  clean_filename long_path_env policy_url
  = Py.map_chars sanitize_char
      (Py.take 50 (domain_of long_path_env policy_url
                   ++ path_of long_path_env policy_url))
  /\ Py.len (clean_filename long_path_env policy_url)
     = Nat.min 50 (Py.len (domain_of long_path_env policy_url)
                   + Py.len (snd (urlparse long_path_env policy_url))).
Proof.
  apply (proj1 (filename_truncation long_path_env policy_url)).
  split; [discriminate|]. apply Nat.ltb_lt. reflexivity.
Defined.

(** A long path is cut at 50 characters; a long domain with a short path
    is not cut at all. *)
Example filename_lengths :
  let long_path := long_path_env in
  let long_domain :=
    calm_env "www.ministry-of-environment-and-natural-resources.example.org"
             "/" "Example Domain" ok_response [] in
  clean_filename long_path "u"
  = "example_com_policies_privacy-policy-2024_full-text"
  /\ Py.len (clean_filename long_path "u") = 50
  /\ clean_filename long_domain "u"
     = "ministry-of-environment-and-natural-resources_example_org_9b2c4d6e"
  /\ Py.len (clean_filename long_domain "u") = 66.
Proof. vm_compute. repeat split; reflexivity. Qed.

(** ** A batch of three URLs *)

(** The second URL fails in the browser and over HTTP; the batch still
    yields three entries, the first and the third fetched by the
    browser. *)
Example batch_of_three :
  let unreachable o :=
    match o with
    | DriverGet u | RequestsGet u _ => String.eqb u "https://down.example/"
    | _ => false
    end in
  let env := failing_env unreachable (site_env "Example Domain") in
  let run := scrape env (store_cfg "https://store.example") all_modules
                    [ page_url; "https://down.example/"; policy_url ] "proj"
                    empty_world in
  match fst run with
  | Ok results => List.map (fun entry => entry !! "method") results
  | Raise _ => []
  end
  = [ Some (JStr "selenium"); Some (JStr "error_pdf"); Some (JStr "selenium") ].
Proof. vm_compute. reflexivity. Qed.

(** * Further properties of the code *)

(** ** The removal passes as one pruning pass *)

Section RemovalPasses.

Implicit Types (p q : string -> gmap string string -> bool) (doc : soup).

Lemma fold_decompose_by {X : Type} (f : X -> string -> gmap string string -> bool)
  (xs : list X) p doc :
  fold_left (fun d x => decompose_where (f x) d) xs (decompose_where p doc)
  = decompose_where
      (fun nm at_ => p nm at_ || existsb (fun x => f x nm at_) xs) doc.
Proof.
  revert p. induction xs as [|x xs IH]; intros p.
  - simpl. apply decompose_where_ext. intros. now rewrite orb_false_r.
  - simpl. rewrite decompose_where_twice, IH.
    apply decompose_where_ext. intros. now rewrite orb_assoc.
Qed.

Lemma remove_unwanted_tags_pass doc :
  remove_unwanted_tags doc
  = decompose_where (fun nm _ => is_unwanted_tag nm) doc.
Proof.
  unfold remove_unwanted_tags.
  rewrite <- (decompose_where_none doc) at 1.
  rewrite (fold_decompose_by (fun tag nm _ => String.eqb nm tag)).
  apply decompose_where_ext. intros nm at_. reflexivity.
Qed.

Lemma remove_unwanted_selectors_pass doc :
  remove_unwanted_selectors doc
  = decompose_where (fun _ at_ => matches_unwanted at_) doc.
Proof.
  unfold remove_unwanted_selectors.
  rewrite <- (decompose_where_none doc) at 1. rewrite fold_decompose.
  apply decompose_where_ext. intros nm at_. simpl orb.
  apply matches_unwanted_selectors.
Qed.

Lemma cleaned_pass doc : cleaned doc = decompose_where unwanted_element doc.
Proof.
  unfold cleaned.
  rewrite remove_unwanted_tags_pass, remove_unwanted_selectors_pass.
  apply decompose_where_twice.
Qed.

(** X1. The two removal loops of [extract_clean_text] amount to one
    pruning pass over the parsed document: a subtree goes when its root
    has an unwanted tag or attributes that a selector matches.  After
    them no element with an unwanted tag or with such attributes is
    left, and running both loops again changes nothing. *)
Theorem cleaned_single_pass doc :
  cleaned doc = decompose_where unwanted_element doc
  /\ (forall e, In e (all_elements (cleaned doc)) ->
                ~ In (node_name e) unwanted_tags
                /\ matches_unwanted (node_attrs e) = false)
  /\ cleaned (cleaned doc) = cleaned doc.
Proof.
  split; [apply cleaned_pass|]. split.
  - intros e He. rewrite cleaned_pass in He.
    apply (decompose_where_sound unwanted_element) in He.
    unfold unwanted_element in He. apply orb_false_elim in He as [Ht Hm].
    split; [|exact Hm]. intros Hin.
    assert (is_unwanted_tag (node_name e) = true); [|congruence].
    apply existsb_exists. exists (node_name e).
    split; [exact Hin|apply String.eqb_refl].
  - rewrite !cleaned_pass, decompose_where_twice.
    apply decompose_where_ext. intros. now rewrite orb_diag.
Qed.

End RemovalPasses.

(** ** Normal forms of the output entries *)

Section Normalisation.

Implicit Types (s t w cur : string) (c : ascii).

Lemma split_ws_go_word w cur s :
  Py.all_chars (fun c => negb (Py.is_space c)) w = true ->
  Py.split_ws_go (Some cur) (w ++ s) = Py.split_ws_go (Some (cur ++ w)) s.
Proof.
  revert cur. induction w as [|a w IH]; intros cur H.
  - now rewrite sapp_nil_l, sapp_nil_r.
  - simpl in H. apply andb_prop in H as [Ha H]. apply negb_true_iff in Ha.
    rewrite sapp_cons. cbn [Py.split_ws_go]. rewrite Ha, (IH _ H).
    now rewrite sapp_assoc.
Qed.

Lemma split_ws_go_first_word w s :
  is_word_string w = true ->
  Py.split_ws_go None (w ++ s) = Py.split_ws_go (Some w) s.
Proof.
  unfold is_word_string. destruct w as [|a w]; [discriminate|].
  cbn [Py.all_chars negb]. intros H. apply andb_prop in H as [_ H].
  cbn [Py.all_chars] in H. apply andb_prop in H as [Ha H].
  apply negb_true_iff in Ha.
  change (String a w ++ s) with (String a (w ++ s)).
  cbn [Py.split_ws_go]. rewrite Ha, (split_ws_go_word _ _ _ H).
  reflexivity.
Qed.

(** Splitting a join of words gives the words back. *)
Lemma split_ws_join ws :
  Forall (fun w => is_word_string w = true) ws ->
  Py.split_ws (Py.join " " ws) = ws.
Proof.
  unfold Py.split_ws. induction 1 as [|w ws Hw F IH]; [reflexivity|].
  rewrite join_cons. destruct ws as [|v ws].
  - rewrite <- (sapp_nil_r w) at 1. now rewrite split_ws_go_first_word.
  - rewrite split_ws_go_first_word by exact Hw.
    rewrite sapp_cons. cbn [Py.split_ws_go]. simpl Py.is_space. cbv iota.
    rewrite sapp_nil_l. f_equal. exact IH.
Qed.

Lemma clean_text_idempotent t :
  clean_text_of (clean_text_of t) = clean_text_of t.
Proof.
  unfold clean_text_of. now rewrite split_ws_join by apply split_ws_words.
Qed.

Lemma unique_loop_fixed seen (l : list string) :
  Forall (fun x => clean_text_of x = x /\ long_enough x = true) l ->
  NoDup l -> (forall x, x ∈ l -> x ∉ seen) ->
  unique_loop seen l = l.
Proof.
  revert seen. induction l as [|x l IH]; intros seen F N Hs; [reflexivity|].
  inversion F as [|? ? [Hx Hl] F']; subst.
  apply NoDup_cons in N as [Hnin N].
  cbn [unique_loop]. rewrite Hx. fold (long_enough x). rewrite Hl.
  rewrite bool_decide_eq_true_2 by (apply Hs; left).
  cbn [andb]. f_equal. apply IH; auto.
  intros y Hy Hin. apply elem_of_union in Hin as [Hin|Hin].
  - apply elem_of_singleton in Hin. subst. contradiction.
  - apply (Hs y); [now right|exact Hin].
Qed.

(** X2. Every entry that survives the de-duplication loop is in normal
    form: normalising it again gives the same text, it has no leading or
    trailing white space, it has more than two characters and it contains
    no line break. *)
Theorem unique_content_normalised (text_content : list string) (x : string) :
  x ∈ unique_content text_content ->
  clean_text_of x = x
  /\ Py.strip x = x
  /\ 2 < Py.len x
  /\ Py.all_chars (differs_from "010"%char) x = true.
Proof.
  intros Hx. unfold unique_content in Hx.
  apply unique_loop_elem in Hx as (_ & Hin & Hl).
  apply list_elem_of_In, in_map_iff in Hin as (t & <- & _).
  split; [apply clean_text_idempotent|].
  split; [apply clean_text_stripped|].
  split; [now apply long_enough_length|apply clean_text_no_newline].
Qed.

(** X3. De-duplication is idempotent: run on its own result, the loop
    returns that result unchanged. *)
Theorem unique_content_idempotent (text_content : list string) :
  unique_content (unique_content text_content) = unique_content text_content.
Proof.
  unfold unique_content at 1. apply unique_loop_fixed.
  - apply List.Forall_forall. intros x Hx. apply list_elem_of_In in Hx.
    pose proof Hx as Hx'. unfold unique_content in Hx'.
    apply unique_loop_elem in Hx' as (_ & Hin & Hl). split; [|exact Hl].
    apply list_elem_of_In, in_map_iff in Hin as (t & <- & _).
    apply clean_text_idempotent.
  - apply unique_loop_nodup.
  - intros x _. apply not_elem_of_empty.
Qed.

End Normalisation.

(** ** Headings, table cells and other content *)

Section Tagging.

Lemma acceptable_has_word text :
  acceptable text = true -> Py.split_ws text <> [].
Proof.
  unfold acceptable. intros H E.
  apply split_ws_nil_spaces in E.
  assert (Hp : only_space_or_punct text = true).
  { revert E. apply all_chars_impl. intros c ->. reflexivity. }
  rewrite Hp in H. simpl in H.
  now rewrite !andb_false_r in H.
Qed.

Lemma clean_text_tagged (tag text : string) :
  Py.split_ws (tag ++ " " ++ text) = tag :: Py.split_ws text ->
  Py.split_ws text <> [] ->
  clean_text_of (tag ++ " " ++ text) = tag ++ " " ++ clean_text_of text.
Proof.
  intros E Hne. unfold clean_text_of. rewrite E, join_cons.
  now destruct (Py.split_ws text).
Qed.

Lemma main_block_kept (d : soup) e b :
  In e (find_all content_tags d) -> main_block e = Some b ->
  clean_text_of b ∈ unique_content (text_content_of d).
Proof.
  intros Hin Hb.
  assert (Hmem : In b (omap main_block (find_all content_tags d))).
  { revert Hin. generalize (find_all content_tags d).
    induction l as [|x l IH]; [contradiction|].
    intros [->|Hin]; simpl.
    - rewrite Hb. now left.
    - destruct (main_block x); [right|]; auto. }
  unfold unique_content. apply unique_loop_elem.
  split; [apply not_elem_of_empty|].
  split; [|now apply (main_block_long e)].
  apply list_elem_of_In, in_map. unfold text_content_of.
  destruct (omap main_block (find_all content_tags d)); [contradiction|exact Hmem].
Qed.

(** X4. An element found by the main pass whose text passes the filter
    always reaches the output when it is a heading or a table cell,
    whatever its number of words, as the tag, a space and the normalised
    text; any other content element reaches it when its text has at
    least two words. *)
Theorem tagged_blocks_kept (doc : soup) (element : node) :
  let text := get_text " " element in
  let entries := unique_content (text_content_of (cleaned doc)) in
  In element (find_all content_tags (cleaned doc)) ->
  acceptable text = true ->
  (name_in heading_tags element = true ->
   ("[HEADING] " ++ clean_text_of text) ∈ entries)
  /\ (name_in heading_tags element = false ->
      name_in cell_tags element = true ->
      ("[TABLE] " ++ clean_text_of text) ∈ entries)
  /\ (name_in heading_tags element = false ->
      name_in cell_tags element = false ->
      2 <= length (Py.split_ws text) -> clean_text_of text ∈ entries).
Proof.
  cbv zeta. generalize (cleaned doc). intros d Hin Hacc.
  pose proof (acceptable_has_word _ Hacc) as Hw.
  split; [|split].
  - intros Hh.
    replace ("[HEADING] " ++ clean_text_of (get_text " " element))
      with (clean_text_of ("[HEADING] " ++ get_text " " element))
      by exact (clean_text_tagged "[HEADING]" _ (heading_words _) Hw).
    apply (main_block_kept d element); [exact Hin|].
    unfold main_block. now rewrite Hacc, Hh.
  - intros Hh Hc.
    replace ("[TABLE] " ++ clean_text_of (get_text " " element))
      with (clean_text_of ("[TABLE] " ++ get_text " " element))
      by exact (clean_text_tagged "[TABLE]" _ (table_words _) Hw).
    apply (main_block_kept d element); [exact Hin|].
    unfold main_block. rewrite Hacc, Hh, Hc.
    destruct (Py.split_ws (get_text " " element)); [contradiction|reflexivity].
  - intros Hh Hc Hl.
    apply (main_block_kept d element); [exact Hin|].
    unfold main_block. rewrite Hacc, Hh, Hc.
    apply Nat.leb_le in Hl. now rewrite Hl.
Qed.

End Tagging.

(** A page whose only content is the one-word heading "Scope". *)
Lemma tagged_blocks_kept_witness :
  ("[HEADING] " ++ clean_text_of (get_text " " scope_heading))
  ∈ unique_content (text_content_of (cleaned [scope_heading])).
Proof.
  apply (proj1 (tagged_blocks_kept [scope_heading] scope_heading
                  ltac:(vm_compute; left; reflexivity)
                  ltac:(vm_compute; reflexivity))).
  vm_compute. reflexivity.
Defined.

(** ** The catalog: insert, lookup, update *)

Section Catalog.

Variables (env : Env) (cfg : Config) (mods : Modules).

Lemma has_id_refl i d : id d = i -> has_id i d = true.
Proof. intros <-. unfold has_id. apply String.eqb_refl. Qed.

Lemma has_id_key i d : has_id i d = true <-> uuid_key (id d) = uuid_key i.
Proof. unfold has_id. apply String.eqb_eq. Qed.

Lemma find_app_fresh {X : Type} (f : X -> bool) l x :
  existsb f l = false -> f x = true -> List.find f (l ++ [x])%list = Some x.
Proof.
  induction l as [|y l IH]; simpl; intros H Hx; [now rewrite Hx|].
  apply orb_false_elim in H as [Hy H]. rewrite Hy. now apply IH.
Qed.

(** What a returned identifier tells about the call. *)
Lemma insert_returns_id pid fn fp src st dc w doc_id w1 :
  insert_document_record env cfg mods pid fn fp src st dc w
  = (Ok (Some doc_id), w1) ->
  psycopg2 mods = true /\ Py.truthy (DATABASE_URL cfg) = true
  /\ existsb (has_id doc_id) (documents w) = false
  /\ documents w1 = (documents w ++ [insert_row doc_id pid fn fp src st dc])%list
  /\ pending w1 = None.
Proof.
  unfold insert_document_record.
  destruct (psycopg2 mods); simpl; [|discriminate].
  destruct (Py.truthy (DATABASE_URL cfg)); simpl; [|discriminate].
  unfold_db. repeat oracle_step; intros H; try discriminate H;
    injection H as <- <-; simpl; first [congruence | auto].
Qed.

(** A lookup on a database that answers. *)
Lemma get_document_answered document_id w :
  psycopg2 mods = true -> Py.truthy (DATABASE_URL cfg) = true ->
  (forall o t, raises env o t = None) ->
  fst (get_document_by_id env cfg mods document_id w)
  = Ok (List.find (has_id document_id) (documents w)).
Proof.
  intros Hp Hd Hr. unfold get_document_by_id. rewrite Hp, Hd. simpl.
  unfold_db. repeat (rewrite Hr; simpl). reflexivity.
Qed.

End Catalog.

Section CatalogRoundTrip.

Variables (env env' : Env) (cfg : Config) (mods : Modules).

(** X5. A row whose identifier [insert_document_record] returned is
    the row a later [get_document_by_id] for that identifier finds, column
    by column, when the database answers; the identifier was not in the
    table before. *)
Theorem insert_then_lookup
  (pid : option string) (fn fp src st : string) (dc : option string)
  (w w1 : World) (doc_id : string) :
  insert_document_record env cfg mods pid fn fp src st dc w
  = (Ok (Some doc_id), w1) ->
  (forall o t, raises env' o t = None) ->
  fst (get_document_by_id env' cfg mods doc_id w1)
  = Ok (Some (insert_row doc_id pid fn fp src st dc))
  /\ ~ In doc_id (List.map id (documents w)).
Proof.
  intros Hins Hr.
  apply insert_returns_id in Hins as (Hp & Hd & Hfresh & Hdocs & _).
  split.
  - rewrite (get_document_answered env' cfg mods doc_id w1 Hp Hd Hr), Hdocs.
    f_equal. apply find_app_fresh; [exact Hfresh|].
    now apply has_id_refl.
  - intros Hin. apply in_map_iff in Hin as (d & Hid & Hin).
    assert (existsb (has_id doc_id) (documents w) = true); [|congruence].
    apply existsb_exists. exists d. split; [exact Hin|now apply has_id_refl].
Qed.

End CatalogRoundTrip.

Section CatalogFunctions.

Variables (env : Env) (cfg : Config) (mods : Modules).

(** X6. [get_document_by_id] never raises and never changes the table;
    a row it returns is the first row of the table whose identifier is
    the requested one, read as the database reads it: the same digits,
    whatever their case and with or without hyphens and braces. *)
Theorem get_document_by_id_sound (document_id : string) (w : World) :
  let r := get_document_by_id env cfg mods document_id w in
  documents (snd r) = documents w
  /\ exists row,
       fst r = Ok row
       /\ forall d, row = Some d ->
                    List.find (has_id document_id) (documents w) = Some d
                    /\ In d (documents w)
                    /\ uuid_key (id d) = uuid_key document_id.
Proof.
  cbv zeta. unfold get_document_by_id.
  destruct (psycopg2 mods && _); simpl.
  2:{ split; [reflexivity|]. exists None. split; [reflexivity|]. discriminate. }
  unfold_db.
  repeat oracle_step; (split; [reflexivity|]); eexists;
    (split; [reflexivity|]); intros d Hd; try discriminate Hd.
  all: split; [exact Hd|]; apply find_some in Hd as [H1 H2];
    split; [exact H1|now apply has_id_key].
Qed.

(** A request that spells the identifier of the stored row in upper
    case and in braces finds the row; the row carries the identifier as
    stored. *)
Example lookup_by_another_spelling :
  let cfg := store_cfg "https://store.example" in
  let w := pending_world (Some "https://store.example/a.pdf") in
  List.map (fun document_id =>
              match fst (get_document_by_id (site_env "Example Domain") cfg
                                            all_modules document_id w) with
              | Ok (Some d) => Some (id d)
              | _ => None
              end)
           ["doc-1"; "DOC-1"; "{DOC1}"; "doc-2"]
  = [Some "doc-1"; Some "doc-1"; Some "doc-1"; None].
Proof. vm_compute. reflexivity. Qed.

Lemma updated_rows i (docs : list Document) :
  (0 <? length (List.filter (has_id i) docs))%nat = true ->
  exists d, In d docs /\ has_id i d = true.
Proof.
  intros H. apply Nat.ltb_lt in H.
  destruct (List.filter (has_id i) docs) as [|d l] eqn:E; [simpl in H; lia|].
  assert (Hin : In d (List.filter (has_id i) docs)) by (rewrite E; now left).
  apply filter_In in Hin as [Hin Hid]. exists d. now split.
Qed.

(** The table after the call, and what [True] tells. *)
Lemma update_outcome i c w :
  let r := update_document_content env cfg mods i c w in
  exists b,
    fst r = Ok b
    /\ (documents (snd r) = documents w
        \/ documents (snd r) = processed i c (documents w))
    /\ (b = true ->
        psycopg2 mods && Py.truthy (DATABASE_URL cfg) = true
        /\ documents (snd r) = processed i c (documents w)
        /\ exists d, In d (documents w) /\ has_id i d = true).
Proof.
  cbv zeta. unfold update_document_content.
  destruct (psycopg2 mods && _); simpl.
  2:{ exists false. split; [reflexivity|]. split; [now left|discriminate]. }
  unfold_db.
  repeat oracle_step; eexists; (split; [reflexivity|]);
    (split; [first [now left | now right]|]); try discriminate.
  intros H. split; [reflexivity|]. split; [reflexivity|].
  now apply updated_rows.
Qed.

Lemma processed_rows i c docs :
  Forall2 (same_but_content i) docs (processed i c docs).
Proof.
  unfold processed, apply_pending.
  induction docs as [|d docs IH]; simpl; constructor; [|exact IH].
  unfold same_but_content.
  destruct (has_id i d) eqn:E; simpl.
  - repeat split; try reflexivity. discriminate.
  - repeat split; reflexivity.
Qed.

Lemma unchanged_rows i docs : Forall2 (same_but_content i) docs docs.
Proof.
  induction docs as [|d docs IH]; constructor; [|exact IH].
  unfold same_but_content. repeat split; reflexivity.
Qed.

Lemma processed_row i c docs d :
  In d (processed i c docs) -> has_id i d = true ->
  status d = Some "processed" /\ document_content d = Some c.
Proof.
  unfold processed, apply_pending. intros Hin Hid.
  apply in_map_iff in Hin as (d0 & <- & _).
  destruct (has_id i d0) eqn:E; simpl in *; [now split|congruence].
Qed.

(** X7. [update_document_content] never raises.  Row by row, the table
    afterwards has the identifiers, project ids, file names, paths and
    sources it had, and a row whose identifier is not the requested one
    (as the database compares identifiers) is untouched.  When the call
    returns [True] a row with the requested identifier existed and every
    such row now has the status "processed" and the given content. *)
Theorem update_document_content_effect (document_id content : string)
  (w : World) :
  let r := update_document_content env cfg mods document_id content w in
  exists b,
    fst r = Ok b
    /\ Forall2 (same_but_content document_id) (documents w) (documents (snd r))
    /\ (b = true ->
        (exists d, In d (documents w)
                   /\ uuid_key (id d) = uuid_key document_id)
        /\ forall d, In d (documents (snd r)) ->
                     uuid_key (id d) = uuid_key document_id ->
                     status d = Some "processed"
                     /\ document_content d = Some content).
Proof.
  cbv zeta.
  destruct (update_outcome document_id content w) as (b & Hb & Hd & Ht).
  exists b. split; [exact Hb|]. split.
  - destruct Hd as [-> | ->]; [apply unchanged_rows|apply processed_rows].
  - intros E. destruct (Ht E) as (_ & -> & d & Hin & Hid). split.
    + exists d. split; [exact Hin|now apply has_id_key].
    + intros d' Hin' Hid'. apply (processed_row _ _ _ _ Hin').
      now apply has_id_key.
Qed.

(** X8. With the database driver and a connection string, none of the
    three catalog functions leaves a connection open, on any path, as
    long as closing a connection does not itself fail. *)
Theorem catalog_connection_closed
  (pid : option string) (fn fp src st : string) (dc : option string)
  (document_id content : string) (w : World) :
  psycopg2 mods = true -> Py.truthy (DATABASE_URL cfg) = true ->
  (forall t, raises env ConnClose t = None) ->
  pending (snd (insert_document_record env cfg mods pid fn fp src st dc w))
  = None
  /\ pending (snd (update_document_content env cfg mods document_id content w))
     = None
  /\ pending (snd (get_document_by_id env cfg mods document_id w)) = None.
Proof.
  intros Hp Hd Hc.
  unfold insert_document_record, update_document_content, get_document_by_id.
  rewrite Hp, Hd. simpl. unfold_db.
  split; [|split]; repeat first [rewrite Hc; simpl | oracle_step]; reflexivity.
Qed.

End CatalogFunctions.

Section Reprocessed.

Variables (env env' : Env) (cfg : Config) (mods : Modules).

Lemma find_processed i c docs :
  List.find (has_id i) (processed i c docs)
  = match List.find (has_id i) docs with
    | Some d => Some {| id := id d; project_id := project_id d;
                        filename := filename d; file_path := file_path d;
                        source := source d; status := Some "processed";
                        document_content := Some c |}
    | None => None
    end.
Proof.
  unfold processed, apply_pending.
  induction docs as [|d docs IH]; [reflexivity|]. simpl.
  destruct (has_id i d) eqn:E.
  - assert (E' : has_id i {| id := id d; project_id := project_id d;
                             filename := filename d; file_path := file_path d;
                             source := source d; status := Some "processed";
                             document_content := Some c |} = true)
      by exact E.
    now rewrite E'.
  - rewrite E. exact IH.
Qed.

(** X9. After an [update_document_content] that returned [True], a
    lookup of the identifier on a database that answers returns the row
    that was stored under it, with the new content and the status
    "processed" and every other column as before. *)
Theorem update_then_lookup (document_id content : string) (w w1 : World) :
  update_document_content env cfg mods document_id content w = (Ok true, w1) ->
  (forall o t, raises env' o t = None) ->
  exists d,
    List.find (has_id document_id) (documents w) = Some d
    /\ fst (get_document_by_id env' cfg mods document_id w1)
       = Ok (Some {| id := id d; project_id := project_id d;
                     filename := filename d; file_path := file_path d;
                     source := source d; status := Some "processed";
                     document_content := Some content |}).
Proof.
  intros Hu Hr.
  destruct (update_outcome env cfg mods document_id content w)
    as (b & Hb & _ & Ht).
  rewrite Hu in Hb, Ht. simpl in Hb, Ht. injection Hb as <-.
  destruct (Ht eq_refl) as (Hcfg & Hdocs & d0 & Hin & Hid).
  apply andb_prop in Hcfg as [Hp Hd].
  rewrite (get_document_answered env' cfg mods document_id w1 Hp Hd Hr).
  rewrite Hdocs, find_processed.
  destruct (List.find (has_id document_id) (documents w)) as [d|] eqn:E.
  - exists d. split; reflexivity.
  - exfalso. apply (find_none _ _ E) in Hin. congruence.
Qed.

End Reprocessed.

(** ** Download and text extraction *)

Section Staging.

Variables (env : Env) (mods : Modules).

(** X10. [download_pdf_from_url] never raises and leaves the table
    alone.  It returns a path only when the request was answered with a
    status outside 400..599, and then it has sent that one request,
    created one temporary file and written the body to it; when the
    request fails or is answered with an error status it returns [None]
    and has created no file. *)
Theorem download_pdf_from_url_result (url : string) (w : World) :
  let get := RequestsGet url 60 in
  let resp := http_answer env get (clock w) in
  let r := download_pdf_from_url env url w in
  documents (snd r) = documents w
  /\ exists res,
       fst r = Ok res
       /\ (forall tmp, res = Some tmp ->
             raises env get (clock w) = None /\ error_status resp = false
             /\ ops_of (download_pdf_from_url env url) w
                = [get; NamedTemporaryFile ".pdf"; FileWrite tmp (text resp)])
       /\ (raises env get (clock w) <> None \/ error_status resp = true ->
           res = None /\ ops_of (download_pdf_from_url env url) w = [get]).
Proof.
  cbv zeta. unfold error_status.
  unfold download_pdf_from_url, raise_for_status, try_except, ask_http, ask,
    perform, mbind, M_bind, mret, M_ret, raise.
  destruct (raises env (RequestsGet url 60) (clock w)) eqn:Hget; simpl.
  { split; [reflexivity|]. exists None. split; [reflexivity|].
    split; [discriminate|]. intros _. split; [reflexivity|].
    apply ops_of_app. simpl. now rewrite Hget. }
  destruct (_ && _) eqn:Hst; simpl.
  { split; [reflexivity|]. exists None. split; [reflexivity|].
    split; [discriminate|]. intros _. split; [reflexivity|].
    apply ops_of_app. simpl. now rewrite Hget, Hst. }
  destruct (raises env (NamedTemporaryFile ".pdf") (S (clock w))) eqn:Htmp; simpl.
  { split; [reflexivity|]. exists None. split; [reflexivity|].
    split; [discriminate|]. intros [H|H]; [contradiction|discriminate]. }
  destruct (raises env (FileWrite _ _) _) eqn:Hwr; simpl.
  { split; [reflexivity|]. exists None. split; [reflexivity|].
    split; [discriminate|]. intros [H|H]; [contradiction|discriminate]. }
  split; [reflexivity|]. eexists. split; [reflexivity|]. split.
  - intros tmp [= <-]. split; [reflexivity|]. split; [reflexivity|].
    apply ops_of_app. simpl. rewrite Hget, Hst. simpl. rewrite Htmp. simpl.
    rewrite Hwr. simpl. now rewrite <- !app_assoc.
  - intros [H|H]; [contradiction|discriminate].
Qed.

Lemma join_empty sep (l : list string) :
  Forall (fun p => non_empty p = true) l ->
  Py.join sep l = EmptyString -> l = [].
Proof.
  intros F E. destruct l as [|p l]; [reflexivity|].
  exfalso. apply (join_not_empty sep p l); [|exact E].
  inversion F; subst. now destruct p.
Qed.

(** X11. [extract_text_from_pdf] never raises and leaves the table
    alone; its result is a non-empty text exactly when the PDF reader is
    installed, the file could be opened and some page has text.  A PDF
    whose pages have no text is indistinguishable from a failure. *)
Theorem extract_text_from_pdf_truthy (pdf_path : string) (w : World) :
  let open := PdfReaderOpen pdf_path in
  let r := extract_text_from_pdf env mods pdf_path w in
  documents (snd r) = documents w
  /\ exists res,
       fst r = Ok res
       /\ (Py.truthy res = true
           <-> PdfReader mods = true /\ raises env open (clock w) = None
               /\ Exists (fun page => page <> EmptyString)
                         (pages_answer env open (clock w))).
Proof.
  cbv zeta. unfold extract_text_from_pdf.
  destruct (PdfReader mods); simpl.
  2:{ split; [reflexivity|]. exists None. split; [reflexivity|].
      split; [discriminate|]. now intros [H _]. }
  unfold try_except, ask_pages, mbind, M_bind, mret, M_ret.
  destruct (raises env (PdfReaderOpen pdf_path) (clock w)) eqn:Hopen; simpl.
  { split; [reflexivity|]. exists None. split; [reflexivity|].
    split; [discriminate|]. now intros (_ & H & _). }
  split; [reflexivity|]. eexists. split; [reflexivity|].
  generalize (pages_answer env (PdfReaderOpen pdf_path) (clock w)).
  intros pages. split.
  - intros H. split; [reflexivity|]. split; [reflexivity|].
    apply List.Exists_exists.
    destruct (List.filter non_empty pages) as [|p l] eqn:E; [discriminate H|].
    assert (Hin : In p (List.filter non_empty pages)) by (rewrite E; now left).
    apply filter_In in Hin as [Hin Hp]. exists p. split; [exact Hin|].
    now destruct p.
  - intros (_ & _ & H). apply List.Exists_exists in H as (p & Hin & Hp).
    assert (Hf : In p (List.filter non_empty pages)).
    { apply filter_In. split; [exact Hin|]. now destruct p. }
    destruct (Py.join (Py.nl ++ Py.nl) (List.filter non_empty pages)) eqn:E;
      [|reflexivity].
    apply join_empty in E; [now rewrite E in Hf|].
    apply List.Forall_forall. intros x Hx. now apply filter_In in Hx.
Qed.

End Staging.

(** ** The outcomes of process_document *)

Section ProcessDocument.

Variables (env : Env) (cfg : Config) (mods : Modules).

Lemma get_document_keeps_table i w :
  documents (snd (get_document_by_id env cfg mods i w)) = documents w.
Proof.
  unfold get_document_by_id.
  destruct (psycopg2 mods && _); simpl; [|reflexivity].
  unfold_db. repeat oracle_step; reflexivity.
Qed.

Lemma download_keeps u : keeps_db (download_pdf_from_url env u).
Proof. unfold download_pdf_from_url, raise_for_status. effects. Qed.

Lemma extract_keeps f : keeps_db (extract_text_from_pdf env mods f).
Proof. unfold extract_text_from_pdf. effects. Qed.

Lemma cleanup_run f w :
  exists w', ignore_errors (perform env (Remove f)) w = (Ok tt, w')
             /\ documents w' = documents w
             /\ log w' = (log w ++ [Remove f])%list.
Proof.
  unfold ignore_errors, try_except, perform.
  destruct (raises env (Remove f) (clock w)); eauto.
Qed.

(** Every run of [process_document] with a PDF reader: an early failure
    with the table untouched, the update failure, or success with the
    table updated. *)
Lemma process_document_cases (document_id : string) (w : World) :
  PdfReader mods = true ->
  let r := process_document env cfg mods document_id w in
  (documents (snd r) = documents w
   /\ exists c d, fst r = Raise (HTTPException c d)
                  /\ In (c, d) (early_failures document_id))
  \/ (exists text_,
        fst r = Raise update_failure
        /\ (documents (snd r) = documents w
            \/ documents (snd r) = processed document_id text_ (documents w)))
  \/ (exists text_,
        text_ <> EmptyString
        /\ fst r = Ok (processed_response document_id text_)
        /\ documents (snd r) = processed document_id text_ (documents w)
        /\ exists d, In d (documents w) /\ has_id document_id d = true).
Proof.
  intros HP. cbv zeta. unfold process_document. rewrite HP. cbn [negb].
  rewrite run_bind.
  pose proof (get_document_keeps_table document_id w) as D1.
  destruct (get_document_never_raises env cfg mods document_id w)
    as [row R1].
  destruct (get_document_by_id env cfg mods document_id w) as [r1 w1].
  simpl in D1, R1. subst r1.
  destruct row as [d|].
  2:{ left. split; [exact D1|]. do 2 eexists. split; [reflexivity|].
      simpl. auto. }
  destruct (Py.truthy (file_path d)); cbn [negb].
  2:{ left. split; [exact D1|]. do 2 eexists. split; [reflexivity|].
      simpl. auto. }
  rewrite run_bind.
  destruct (download_keeps (value (file_path d)) w1) as [D2 _].
  destruct (download_never_raises env (value (file_path d)) w1) as [res R2].
  destruct (download_pdf_from_url env (value (file_path d)) w1) as [r2 w2].
  simpl in D2, R2. subst r2.
  destruct res as [[|c0 tmp]|].
  1,3: left; split; [simpl; congruence|]; do 2 eexists;
    (split; [reflexivity|]); simpl; auto.
  unfold try_finally. rewrite run_bind.
  destruct (extract_keeps (String c0 tmp) w2) as [D3 _].
  destruct (extract_never_raises env mods (String c0 tmp) w2) as [ext R3].
  destruct (extract_text_from_pdf env mods (String c0 tmp) w2) as [r3 w3].
  simpl in D3, R3. subst r3.
  destruct (Py.truthy ext) eqn:Htext; cbn [negb].
  2:{ unfold raise.
      destruct (cleanup_run (String c0 tmp) w3) as (w' & -> & D4 & _).
      left. split; [simpl; congruence|]. do 2 eexists.
      split; [reflexivity|]. simpl. auto. }
  rewrite run_bind.
  destruct (update_outcome env cfg mods document_id (value ext) w3)
    as (b & R4 & D4 & T4).
  destruct (update_document_content env cfg mods document_id (value ext) w3)
    as [r4 w4].
  simpl in R4, D4, T4. subst r4.
  destruct b; cbn [negb].
  - destruct (T4 eq_refl) as (_ & D4' & Hex).
    unfold mret, M_ret.
    destruct (cleanup_run (String c0 tmp) w4) as (w' & -> & D5 & _).
    right. right. exists (value ext). split.
    { destruct ext as [[|]|]; try discriminate Htext. discriminate. }
    split; [reflexivity|]. simpl.
    rewrite D5, D4', D3, D2, D1. split; [reflexivity|].
    rewrite D3, D2, D1 in Hex. exact Hex.
  - unfold raise.
    destruct (cleanup_run (String c0 tmp) w4) as (w' & -> & D5 & _).
    right. left. exists (value ext). split; [reflexivity|]. simpl.
    rewrite D5. destruct D4 as [-> | ->]; rewrite D3, D2, D1; auto.
Qed.

(** X12. Every exception that leaves [process_document] is an
    [HTTPException] with status 400, 404 or 500; and unless it is the one
    reporting the failed update, the table is as it was. *)
Theorem process_document_errors (document_id : string) (w : World) (e : exn) :
  fst (process_document env cfg mods document_id w) = Raise e ->
  (exists detail, e = HTTPException 400 detail
                  \/ e = HTTPException 404 detail
                  \/ e = HTTPException 500 detail)
  /\ (e <> update_failure ->
      documents (snd (process_document env cfg mods document_id w))
      = documents w).
Proof.
  destruct (PdfReader mods) eqn:HP.
  2:{ unfold process_document. rewrite HP. simpl. intros [= <-].
      split; [eauto|reflexivity]. }
  destruct (process_document_cases document_id w HP)
    as [(D & c & d & R & Hin)|[(t & R & D)|(t & _ & R & _)]];
    rewrite R; intros [= <-].
  - split; [|intros _; exact D]. exists d. simpl in Hin.
    destruct Hin as [H|[H|[H|[H|[]]]]]; injection H as <- <-; auto.
  - split; [|intros H; contradiction]. eexists. right. right. reflexivity.
Qed.

(** X13. When [process_document] answers with success, the response
    carries the length of a non-empty text, a row with the requested
    identifier exists (the identifier as the database compares it: the
    same digits, whatever the spelling), every such row now holds that
    text and the status "processed", and nothing else in the table has
    changed. *)
Theorem process_document_success (document_id : string) (w w' : World)
  (resp : gmap string jvalue) :
  process_document env cfg mods document_id w = (Ok resp, w') ->
  exists text_,
    text_ <> EmptyString
    /\ resp = processed_response document_id text_
    /\ Forall2 (same_but_content document_id) (documents w) (documents w')
    /\ (exists d, In d (documents w')
                  /\ uuid_key (id d) = uuid_key document_id)
    /\ forall d, In d (documents w') ->
                 uuid_key (id d) = uuid_key document_id ->
                 status d = Some "processed"
                 /\ document_content d = Some text_.
Proof.
  intros Hrun.
  destruct (PdfReader mods) eqn:HP.
  2:{ unfold process_document in Hrun. rewrite HP in Hrun. discriminate Hrun. }
  destruct (process_document_cases document_id w HP)
    as [(_ & c & d & R & _)|[(t & R & _)|(t & Ht & R & D & d & Hin & Hid)]];
    rewrite Hrun in *; simpl in *; try discriminate R.
  injection R as ->. exists t. split; [exact Ht|]. split; [reflexivity|].
  rewrite D. split; [apply processed_rows|]. split.
  2:{ intros d' Hin' Hid'. apply (processed_row _ _ _ _ Hin').
      now apply has_id_key. }
  apply has_id_key in Hid.
  pose proof (processed_rows document_id t (documents w)) as F.
  revert F Hin. generalize (processed document_id t (documents w)).
  generalize (documents w). intros l l' F. induction F as [|x y l l' Hxy F IH].
  - intros [].
  - intros [->|Hin].
    + exists y. split; [now left|]. destruct Hxy as (E & _). congruence.
    + destruct (IH Hin) as (d' & H1 & H2). exists d'. split; [now right|exact H2].
Qed.

End ProcessDocument.

(** ** One result entry per URL *)

Section AppendsLast.

Variable Q : gmap string jvalue -> Prop.

Lemma appends_last_bind {A : Type} (m : M A) (f : A -> M unit) :
  emits no_result m -> (forall a, appends_last Q (f a)) ->
  appends_last Q (m ≫= f).
Proof.
  intros Hm Hf w. rewrite run_bind.
  destruct (Hm w) as (l1 & E1 & F1).
  destruct (m w) as [[a|e] w1]; simpl in E1.
  - destruct (Hf a w1) as (l2 & F2 & [(e & w' & R & E)|(entry & w' & R & E & U)]);
      exists (l1 ++ l2)%list; (split; [apply Forall_app; auto|]).
    + left. exists e, w'. split; [exact R|]. now rewrite E, E1, <- app_assoc.
    + right. exists entry, w'. split; [exact R|]. split; [|exact U].
      now rewrite E, E1, <- !app_assoc.
  - exists l1. split; [exact F1|]. left. eauto.
Qed.

Lemma appends_last_record entry :
  Q entry -> appends_last Q (record (ResultsAppend entry)).
Proof.
  intros U w. exists []. split; [constructor|]. right.
  exists entry, (tick (ResultsAppend entry) w). auto.
Qed.

Lemma appends_one_try_except (m : M unit) (h : exn -> M unit) :
  appends_last Q m -> (forall e, appends_one Q (h e)) ->
  appends_one Q (try_except m h).
Proof.
  intros Hm Hh w. rewrite run_try_except.
  destruct (Hm w) as (l1 & F1 & [(e & w1 & R & E)|(entry & w1 & R & E & U)]);
    rewrite R.
  - destruct (Hh e w1) as (l2 & entry & w' & R' & E' & F2 & U).
    exists (l1 ++ l2)%list, entry, w'. split; [exact R'|].
    split; [now rewrite E', E, <- !app_assoc|].
    split; [apply Forall_app; auto|exact U].
  - exists l1, entry, w1. auto.
Qed.

End AppendsLast.

Section OneEntry.

Variables (env : Env) (cfg : Config) (mods : Modules).
Variables (pid url : string).

Lemma quiet_no_result (m : M string) : emits quiet m -> emits no_result m.
Proof. apply emits_weaken. now intros o [[_ H] _]. Qed.

Lemma fetched_entry_shape created_file method clean_text document_id :
  method = "selenium" \/ method = "requests_fallback" ->
  entry_shape url
    (fetched_entry url created_file method clean_text document_id).
Proof.
  intros Hm. split; [reflexivity|]. left.
  exists created_file, (Py.len clean_text).
  split; [destruct Hm as [-> | ->]; [now left|now right]|].
  split; [reflexivity|]. split; [reflexivity|].
  split; [|reflexivity].
  destruct document_id as [i|]; [right; now exists i|now left].
Qed.

Lemma store_page_appends pdf_name html method :
  method = "selenium" \/ method = "requests_fallback" ->
  appends_last (entry_shape url)
               (store_page env cfg mods pid url pdf_name html method).
Proof.
  intros Hm. unfold store_page. cbv zeta.
  apply appends_last_bind; [apply quiet_no_result, create_pdf_emits|].
  intros created_file. apply appends_last_bind.
  - eapply emits_weaken; [|apply record_if_uploaded_emits]. now intros o [_ H].
  - intros document_id. apply appends_last_record.
    now apply fetched_entry_shape.
Qed.

Lemma navigate_no_result : emits no_result (navigate env url).
Proof.
  unfold navigate, max_retries. simpl retry_loop.
  unfold attempt_body, load_page. effects; reflexivity.
Qed.

Lemma rendered_fetch_appends pdf_name :
  appends_last (entry_shape url)
               (rendered_fetch env cfg mods pid url pdf_name).
Proof.
  unfold rendered_fetch.
  apply appends_last_bind; [apply navigate_no_result|]. intros _.
  apply appends_last_bind; [effects; reflexivity|]. intros html.
  apply store_page_appends. now left.
Qed.

Lemma static_fetch_appends pdf_name :
  appends_last (entry_shape url)
               (static_fetch env cfg mods pid url pdf_name).
Proof.
  unfold static_fetch.
  apply appends_last_bind; [effects; reflexivity|]. intros resp.
  apply appends_last_bind; [unfold raise_for_status; effects|]. intros _.
  apply store_page_appends. now right.
Qed.

Lemma error_artifact_appends pdf_name e fe :
  appends_one (entry_shape url)
              (error_artifact env cfg mods pid url pdf_name e fe).
Proof.
  unfold error_artifact. apply appends_one_try_except.
  - apply appends_last_bind; [apply quiet_no_result, create_pdf_emits|].
    intros error_pdf. apply appends_last_record.
    split; [reflexivity|]. right. left. exists error_pdf.
    repeat split; reflexivity.
  - intros _ w. exists []. eexists. eexists.
    split; [reflexivity|]. split; [reflexivity|]. split; [constructor|].
    split; [reflexivity|]. right. right. eexists.
    repeat split; reflexivity.
Qed.

Lemma fetch_url_appends pdf_name :
  appends_one (entry_shape url) (fetch_url env cfg mods pid url pdf_name).
Proof.
  unfold fetch_url.
  apply appends_one_try_except; [apply rendered_fetch_appends|].
  intros e. apply appends_one_try_except; [apply static_fetch_appends|].
  intros fe. apply error_artifact_appends.
Qed.

(** X14. The body of the loop over the URLs, for a URL whose file name
    can be derived (it can be parsed and encoded), never raises, whatever
    the browser, the network, the object store and the database do, and
    it appends exactly one entry to [results], as its last operation; the
    entry carries the URL.  For a URL that cannot be parsed or encoded the
    body raises that error before any operation and appends nothing: the
    error is raised outside the handlers of the URL. *)
Theorem scrape_url_one_entry (w : World) :
  (url_error env url = None ->
   exists l entry w',
     scrape_url env cfg mods pid url w = (Ok tt, w')
     /\ log w' = (log w ++ l ++ [ResultsAppend entry])%list
     /\ appended l = []
     /\ entry !! "url" = Some (JStr url))
  /\ (forall e,
        url_error env url = Some e ->
        scrape_url env cfg mods pid url w = (Raise e, w)).
Proof.
  split.
  - intros Hname. rewrite (scrape_url_run env cfg mods pid url w Hname).
    destruct (fetch_url_appends (pdf_name_of env pid url) w)
      as (l & entry & w' & R & E & F & U & _).
    exists l, entry, w'. split; [exact R|]. split; [exact E|].
    split; [now apply appended_none|exact U].
  - intros e. apply scrape_url_unparsable.
Qed.

End OneEntry.

(** ** The batch and the life of the browser *)

Section Batch.

Variables (env : Env) (cfg : Config) (mods : Modules) (pid : string).

(** The loop over the URLs: one entry per URL, or the error of the first
    URL that cannot be parsed. *)
Lemma for_each_entries (urls : list string) (w : World) :
  exists l w',
    log w' = (log w ++ l)%list
    /\ ((for_each (scrape_url env cfg mods pid) urls w = (Ok tt, w')
         /\ Forall2 entry_shape urls (appended l)
         /\ Forall (fun u => url_error env u = None) urls)
        \/ (exists e u,
              for_each (scrape_url env cfg mods pid) urls w = (Raise e, w')
              /\ In u urls /\ url_error env u = Some e)).
Proof.
  revert w. induction urls as [|u urls IH]; intros w.
  - exists [], w. split; [now rewrite app_nil_r|]. left.
    split; [reflexivity|]. split; constructor.
  - cbn [for_each]. rewrite run_bind.
    destruct (url_error env u) as [e|] eqn:Hu.
    { rewrite (scrape_url_unparsable env cfg mods pid u e w Hu).
      exists [], w. split; [now rewrite app_nil_r|]. right.
      exists e, u. split; [reflexivity|]. split; [now left|exact Hu]. }
    rewrite (scrape_url_run env cfg mods pid u w Hu).
    destruct (fetch_url_appends env cfg mods pid u (pdf_name_of env pid u) w)
      as (l1 & entry & w1 & R & E & F & U).
    rewrite R.
    destruct (IH w1) as (l2 & w' & E' & [(R' & U' & N')|(e & v & R' & Hin & Hv)]);
      exists ((l1 ++ [ResultsAppend entry]) ++ l2)%list, w';
      (split; [now rewrite E', E, <- !app_assoc|]).
    + left. split; [exact R'|]. split; [|now constructor].
      rewrite !appended_app, (appended_none l1) by exact F.
      simpl. now constructor.
    + right. exists e, v. split; [exact R'|]. split; [now right|exact Hv].
Qed.

Lemma shapes_urls urls results :
  Forall2 entry_shape urls results ->
  urls_of results = List.map (fun u => Some (JStr u)) urls.
Proof.
  induction 1 as [|u entry urls results [U _] _ IH]; [reflexivity|].
  unfold urls_of in *. simpl. now rewrite U, IH.
Qed.

Lemma appended_drop (l k : list op) :
  drop (length (appended l)) (appended (l ++ k)) = appended k.
Proof. rewrite appended_app. apply drop_app_length. Qed.

(** The run of [scrape] once the module is there, by the answers of the
    browser. *)
Lemma scrape_run (urls : list string) (w : World) :
  webdriver mods = true ->
  let r := scrape env cfg mods urls pid w in
  match raises env Chrome (clock w) with
  | Some e =>
      r = (Raise (HTTPException 500
                    ("Driver initialization failed: " ++ str_of_exn e)),
           tick Chrome w)
  | None =>
      exists l wq,
        log (snd r) = (log w ++ Chrome :: l ++ [DriverQuit])%list
        /\ snd r = tick DriverQuit wq
        /\ (raises env (SetPageLoadTimeout 30) (S (clock w)) = None ->
            raises env (ExecuteScript hide_automation) (S (S (clock w))) = None ->
            Forall (fun u => url_error env u = None) urls ->
            raises env DriverQuit (clock wq) = None ->
            exists results, fst r = Ok results)
        /\ match fst r with
           | Ok results =>
               appended l = results
               /\ Forall2 entry_shape urls results
               /\ Forall (fun u => url_error env u = None) urls
               /\ raises env DriverQuit (clock wq) = None
           | Raise e =>
               raises env DriverQuit (clock wq) = Some e
               \/ (raises env DriverQuit (clock wq) = None
                   /\ exists e', e = HTTPException 500
                        ("Driver initialization failed: " ++ str_of_exn e'))
           end
  end.
Proof.
  intros HW. cbv zeta. unfold scrape. rewrite HW. cbn [negb].
  unfold try_finally, try_except, perform, get_world, raise, mbind, M_bind,
    mret, M_ret. cbv beta iota.
  destruct (raises env Chrome (clock w)) as [e|] eqn:HC; [reflexivity|].
  cbv beta iota. set (w1 := tick Chrome w).
  destruct (raises env (SetPageLoadTimeout 30) (clock w1)) as [e1|] eqn:H1.
  { cbv beta iota.
    exists [SetPageLoadTimeout 30], (tick (SetPageLoadTimeout 30) w1).
    destruct (raises env DriverQuit _) as [e2|] eqn:HQ; simpl;
      rewrite <- ?app_assoc; simpl; (split; [reflexivity|]);
      (split; [reflexivity|]);
      (split; [intros Ha; unfold w1 in H1; simpl in H1; congruence|]); eauto. }
  cbv beta iota. set (w2 := tick (SetPageLoadTimeout 30) w1).
  match goal with |- context [raises env (ExecuteScript ?s) (clock w2)] =>
    set (script := s) end.
  destruct (raises env (ExecuteScript script) (clock w2)) as [e1|] eqn:H2.
  { cbv beta iota.
    exists [SetPageLoadTimeout 30; ExecuteScript script],
           (tick (ExecuteScript script) w2).
    destruct (raises env DriverQuit _) as [e2|] eqn:HQ; simpl;
      rewrite <- ?app_assoc; simpl; (split; [reflexivity|]);
      (split; [reflexivity|]);
      (split; [intros _ Ha; unfold w2, w1 in H2; simpl in H2;
               unfold script in H2; unfold hide_automation in Ha; congruence|]);
      eauto. }
  cbv beta iota. set (w3 := tick (ExecuteScript script) w2).
  destruct (for_each_entries urls w3)
    as (l & w4 & E & [(R & U & N)|(e & u & R & Hin & Hu)]);
    rewrite R; cbv beta iota;
    exists (SetPageLoadTimeout 30 :: ExecuteScript script :: l), w4;
    assert (E4 : log w4 = (log w ++ Chrome :: SetPageLoadTimeout 30
                             :: ExecuteScript script :: l)%list)
      by (rewrite E; subst w3 w2 w1; simpl; now rewrite <- !app_assoc).
  - destruct (raises env DriverQuit (clock w4)) as [e2|] eqn:HQ; simpl.
    + rewrite E4, <- !app_assoc. simpl.
      split; [reflexivity|]. split; [reflexivity|].
      split; [intros; congruence|auto].
    + rewrite E4, <- !app_assoc. simpl.
      split; [reflexivity|]. split; [reflexivity|]. split; [eauto|].
      change (Chrome :: SetPageLoadTimeout 30 :: ExecuteScript script
                :: (l ++ [DriverQuit]))%list
        with ([Chrome; SetPageLoadTimeout 30; ExecuteScript script]
                ++ (l ++ [DriverQuit]))%list.
      rewrite appended_drop, !appended_app. simpl. rewrite app_nil_r. auto.
  - assert (Hbad : ~ Forall (fun v => url_error env v = None) urls).
    { intros N. rewrite List.Forall_forall in N.
      specialize (N u Hin). congruence. }
    destruct (raises env DriverQuit (clock w4)) as [e2|] eqn:HQ; simpl;
      rewrite E4, <- !app_assoc; simpl;
      (split; [reflexivity|]); (split; [reflexivity|]);
      (split; [intros _ _ N; contradiction|]); eauto.
Qed.

(** X15. A response of [scrape] has one entry per requested URL, in
    the order of the request, each carrying its URL; and a response is
    given only if every URL could be parsed and encoded.  [scrape] does
    respond when the browser starts, accepts the time-out and the
    start-up script, every URL can be parsed and encoded, and the browser
    quits without error. *)
Theorem scrape_results_per_url (urls : list string) (w : World) :
  (forall results w',
     scrape env cfg mods urls pid w = (Ok results, w') ->
     urls_of results = List.map (fun u => Some (JStr u)) urls
     /\ length results = length urls
     /\ Forall (fun u => url_error env u = None) urls)
  /\ (webdriver mods = true ->
      (forall t, raises env Chrome t = None) ->
      (forall t, raises env (SetPageLoadTimeout 30) t = None) ->
      (forall t, raises env (ExecuteScript hide_automation) t = None) ->
      (forall t, raises env DriverQuit t = None) ->
      Forall (fun u => url_error env u = None) urls ->
      exists results, fst (scrape env cfg mods urls pid w) = Ok results).
Proof.
  split.
  - intros results w' Hrun.
    destruct (webdriver mods) eqn:HW.
    2:{ unfold scrape in Hrun. rewrite HW in Hrun. discriminate Hrun. }
    pose proof (scrape_run urls w HW) as H. cbv zeta in H.
    rewrite Hrun in H.
    destruct (raises env Chrome (clock w)); [discriminate H|].
    destruct H as (l & wq & _ & _ & _ & _ & U & N & _). simpl in U.
    split; [now apply shapes_urls|]. split; [|exact N].
    symmetry. exact (Forall2_length _ _ _ U).
  - intros HW HC HT HS HQ HN.
    pose proof (scrape_run urls w HW) as H. cbv zeta in H. rewrite HC in H.
    destruct H as (l & wq & _ & _ & Htotal & _). apply Htotal; auto.
Qed.

(** A batch whose second URL cannot be parsed: the first URL is fetched
    and its entry appended, but the request is answered with status 500
    and no results; the browser is quit last, the third URL is never
    visited. *)
Example unparsable_url_aborts_batch :
  let env := with_unparsable_url (site_env "Example Domain") in
  let run := scrape env (store_cfg "https://store.example") all_modules
                    [page_url; unparsable_url; policy_url] "proj"
                    empty_world in
  fst run = Raise (HTTPException 500
                     "Driver initialization failed: Invalid IPv6 URL")
  /\ length (appended (log (snd run))) = 1
  /\ List.filter is_driver_get (log (snd run)) = [DriverGet page_url]
  /\ last (log (snd run)) = Some DriverQuit.
Proof. vm_compute. repeat split; reflexivity. Qed.

(** X25. Every entry of a response of [scrape] has one of three
    shapes, and the entry at each position is for the URL at that
    position: a fetched page, with the method "selenium" or
    "requests_fallback", a file, a content length and a document id that
    may be null, and no error; an error artifact, with the method
    "error_pdf", a file and the fixed error text, and neither content
    length nor document id; or a bare error, with an error text and
    nothing else besides the URL. *)
Theorem scrape_result_shapes (urls : list string) (w w' : World)
  (results : list (gmap string jvalue)) :
  scrape env cfg mods urls pid w = (Ok results, w') ->
  Forall2 entry_shape urls results.
Proof.
  intros Hrun.
  destruct (webdriver mods) eqn:HW.
  2:{ unfold scrape in Hrun. rewrite HW in Hrun. discriminate Hrun. }
  pose proof (scrape_run urls w HW) as H. cbv zeta in H.
  rewrite Hrun in H.
  destruct (raises env Chrome (clock w)); [discriminate H|].
  destruct H as (l & wq & _ & _ & _ & _ & U & _). exact U.
Qed.

(** X16. Without the browser module [scrape] fails at once and does
    nothing.  When the browser cannot be started it fails with status 500
    and the text of the error, having done nothing else; in particular it
    does not call [quit].  Once the browser is started, [driver.quit()]
    is the last operation of every run, and an exception that leaves
    [scrape] is either the one raised by that call or an [HTTPException]
    with status 500 reporting the initialization. *)
Theorem scrape_driver_quit (urls : list string) (w : World) :
  let r := scrape env cfg mods urls pid w in
  (webdriver mods = false ->
   r = (Raise (HTTPException 500
          "Selenium not available. Install selenium and ensure ChromeDriver is available."),
        w))
  /\ (webdriver mods = true ->
      forall e, raises env Chrome (clock w) = Some e ->
      r = (Raise (HTTPException 500
                    ("Driver initialization failed: " ++ str_of_exn e)),
           tick Chrome w))
  /\ (webdriver mods = true ->
      raises env Chrome (clock w) = None ->
      last (log (snd r)) = Some DriverQuit
      /\ forall e, fst r = Raise e ->
           raises env DriverQuit (Nat.pred (clock (snd r))) = Some e
           \/ exists e', e = HTTPException 500
                 ("Driver initialization failed: " ++ str_of_exn e')).
Proof.
  cbv zeta. split; [|split].
  - intros HW. unfold scrape. now rewrite HW.
  - intros HW e HC. pose proof (scrape_run urls w HW) as H. cbv zeta in H.
    now rewrite HC in H.
  - intros HW HC. pose proof (scrape_run urls w HW) as H. cbv zeta in H.
    rewrite HC in H. destruct H as (l & wq & E & S & _ & R). split.
    + rewrite E, app_comm_cons, app_assoc. apply last_snoc.
    + intros e He. rewrite He in R. rewrite S. simpl.
      destruct R as [R|[_ R]]; auto.
Qed.

End Batch.

(** ** Bounds of the retry loop *)

Section Navigation.

Variables (env : Env) (url : string).

Lemma load_page_trace w :
  exists l, log (snd (load_page env url w)) = (log w ++ DriverGet url :: l)%list
            /\ Forall settles l.
Proof.
  unfold load_page. rewrite run_bind. unfold perform at 1.
  destruct (raises env (DriverGet url) (clock w)).
  - exists []. split; [reflexivity|constructor].
  - match goal with |- context [?m (tick ?o w)] =>
      assert (H : emits settles m) end.
    { effects; split; reflexivity. }
    destruct (H (tick (DriverGet url) w)) as (l & E & F).
    exists l. split; [|exact F]. rewrite E. simpl. now rewrite <- app_assoc.
Qed.

Lemma settles_filter l :
  Forall settles l ->
  List.filter is_driver_get l = [] /\ List.filter is_backoff l = [].
Proof.
  induction 1 as [|o l [H1 H2] _ [IH1 IH2]]; [now split|].
  simpl. now rewrite H1, H2.
Qed.

(** X17. The retry loop navigates to the page at least once and at
    most three times; its pauses of five units are one fewer than its
    navigations; and it raises only after the third navigation. *)
Theorem navigate_bounds (w : World) :
  let ops := ops_of (navigate env url) w in
  let gets := length (List.filter is_driver_get ops) in
  1 <= gets <= 3
  /\ length (List.filter is_backoff ops) = gets - 1
  /\ (forall e, fst (navigate env url w) = Raise e -> gets = 3).
Proof.
  cbv zeta. pose proof (navigate_run env url w) as N.
  destruct (load_page_trace w) as (l0 & E0 & F0).
  destruct (load_page env url w) as [r0 w0]. simpl in E0. cbv beta iota zeta in N.
  destruct (settles_filter l0 F0) as [G0 B0].
  destruct (retry_trigger r0).
  2:{ rewrite (ops_of_app (navigate env url) w (DriverGet url :: l0))
        by (rewrite N; exact E0).
      rewrite N. simpl. rewrite G0, B0. simpl.
      split; [lia|]. split; [reflexivity|discriminate]. }
  destruct (load_page_trace (tick (Sleep 5) w0)) as (l1 & E1 & F1).
  destruct (load_page env url (tick (Sleep 5) w0)) as [r1 w1].
  simpl in E1. cbv beta iota zeta in N.
  destruct (settles_filter l1 F1) as [G1 B1].
  destruct (retry_trigger r1).
  2:{ rewrite (ops_of_app (navigate env url) w
                 (DriverGet url :: l0 ++ Sleep 5 :: DriverGet url :: l1))
        by (rewrite N; simpl; rewrite E1, E0; now rewrite <- !app_assoc).
      rewrite N. simpl. rewrite !List.filter_app. simpl.
      rewrite G0, B0, G1, B1. simpl.
      split; [lia|]. split; [reflexivity|discriminate]. }
  destruct (load_page_trace (tick (Sleep 5) w1)) as (l2 & E2 & F2).
  destruct (load_page env url (tick (Sleep 5) w1)) as [r2 w2].
  simpl in E2. cbv beta iota zeta in N.
  destruct (settles_filter l2 F2) as [G2 B2].
  rewrite (ops_of_app (navigate env url) w
             (DriverGet url :: l0 ++ Sleep 5 :: DriverGet url :: l1
                ++ Sleep 5 :: DriverGet url :: l2))
    by (rewrite N; destruct r2; simpl; rewrite E2, E1, E0;
        now rewrite <- !app_assoc).
  simpl. rewrite !List.filter_app. simpl. rewrite !List.filter_app. simpl.
  rewrite G0, B0, G1, B1, G2, B2. simpl.
  split; [lia|]. split; [reflexivity|reflexivity].
Qed.

End Navigation.

(** ** Saving without an object store *)

Section LocalSave.

Variables (env : Env) (cfg : Config) (mods : Modules).

Lemma dirname_bare p :
  Py.all_chars (differs_from "/"%char) p = true ->
  OsPath.dirname p = EmptyString /\ OsPath.basename p = p.
Proof.
  intros H. unfold OsPath.dirname, OsPath.basename, Py.split.
  rewrite (split_absent _ _ _ _ H), sapp_nil_l. now split.
Qed.

(** X18. Without an object store, a PDF whose target path has no
    directory part is never moved to that path: [os.path.dirname] gives
    the empty string, on which [os.makedirs] fails, and the handler
    returns the path of the temporary file instead.  The call succeeds
    whenever the temporary file, the time stamp and the build do. *)
Theorem local_save_keeps_staged_file
  (text_content pdf_path url pid : string) (w : World) :
  SimpleDocTemplate mods = true ->
  supabase_configured cfg (SUPABASE_BUCKET cfg) = false ->
  Py.all_chars (differs_from "/"%char) pdf_path = true ->
  let run := create_pdf_from_text env cfg mods text_content pdf_path url pid in
  let staged := answer env (NamedTemporaryFile ".pdf") (clock w) in
  let now := answer env Strftime (S (clock w)) in
  let build := DocBuild staged (story_of text_content url pid now) in
  (forall created, fst (run w) = Ok created -> created = staged)
  /\ Forall (fun o => is_replace o = false) (ops_of run w)
  /\ (raises env (NamedTemporaryFile ".pdf") (clock w) = None ->
      raises env Strftime (S (clock w)) = None ->
      raises env build (S (S (clock w))) = None ->
      fst (run w) = Ok staged).
Proof.
  intros HS HC Hp. cbv zeta. destruct (dirname_bare pdf_path Hp) as [Hd _].
  unfold ops_of, create_pdf_from_text, makedirs. rewrite HS, HC, Hd.
  cbn [negb non_empty].
  unfold try_except, perform, ask, raise, mbind, M_bind, mret, M_ret.
  destruct (raises env (NamedTemporaryFile ".pdf") (clock w)) eqn:H1; simpl.
  { split; [discriminate|]. split; [|discriminate].
    rewrite drop_app_length. now repeat constructor. }
  destruct (raises env Strftime (S (clock w))) eqn:H2; simpl.
  { split; [discriminate|]. split; [|discriminate].
    rewrite <- !app_assoc, drop_app_length. now repeat constructor. }
  destruct (raises env (DocBuild _ _) (S (S (clock w)))) eqn:H3; simpl.
  { split; [discriminate|]. split; [|discriminate].
    rewrite <- !app_assoc, drop_app_length. now repeat constructor. }
  destruct (raises env (Makedirs EmptyString) (S (S (S (clock w))))) eqn:H4; simpl;
    (split; [now intros created [= <-]|]);
    (split; [|reflexivity]);
    rewrite <- !app_assoc, drop_app_length; now repeat constructor.
Qed.

End LocalSave.

(** ** The name of the stored artifact *)

Section StoredName.

Variable env : Env.







End StoredName.

(** ** The upload result and the catalog test *)

Section UploadedAddress.

Variables (env : Env) (cfg : Config).

Lemma rstrip_cons p c s :
  p c = false -> exists r, Py.rstrip_by p (String c s) = String c r.
Proof.
  intros H. cbn [Py.rstrip_by]. rewrite H.
  destruct (Py.rstrip_by p s); eauto.
Qed.

Lemma non_empty_app s c t : non_empty (s ++ String c t) = true.
Proof. destruct s; reflexivity. Qed.

(** X20. What [upload_to_supabase] returns and the test [scrape]
    applies to it: the public address of a successful upload always
    passes the test, so the insert into the catalog is attempted; the
    diagnostic text of a refused upload fails it whenever the endpoint
    starts with "http". *)
Theorem upload_result_and_catalog_test
  (file : string) (bucket : option string) (dest_path : string)
  (w w' : World) (res : string) :
  upload_to_supabase env cfg file bucket dest_path w = (Ok res, w') ->
  (res = public_object_url cfg (value bucket) (Py.lstrip_slash dest_path)
   /\ looks_uploaded cfg res = true)
  \/ (exists resp,
        upload_succeeded resp = false
        /\ res = "upload_failed: " ++ Py.str_of_nat (status_code resp)
                 ++ " " ++ text resp
        /\ (Py.startswith (value (SUPABASE_URL cfg)) "http" = true ->
            looks_uploaded cfg res = false)).
Proof.
  unfold upload_to_supabase.
  destruct (supabase_configured cfg bucket) eqn:HC; [|discriminate].
  cbn [negb]. cbv zeta.
  unfold ask, ask_http, mbind, M_bind, mret, M_ret.
  destruct (raises env (FileRead file) (clock w)); [discriminate|].
  cbv beta iota.
  match goal with |- context [http_answer env ?o ?t] =>
    destruct (raises env o t); [discriminate|];
    generalize (http_answer env o t)
  end.
  intros resp. cbv beta iota.
  unfold supabase_configured in HC.
  apply andb_prop in HC as [HC _]. apply andb_prop in HC as [HU _].
  destruct (upload_succeeded resp) eqn:Hs; intros [= <- <-].
  - left. split; [reflexivity|]. unfold looks_uploaded, public_object_url.
    rewrite HU. cbn [andb]. unfold Py.startswith.
    rewrite prefix_app_self, andb_true_r.
    change "/storage/v1/object/public/"
      with (String "/"%char "storage/v1/object/public/").
    rewrite sapp_cons. apply non_empty_app.
  - right. exists resp. split; [exact Hs|]. split; [reflexivity|].
    intros Hh. unfold looks_uploaded.
    unfold Py.startswith in Hh.
    destruct (value (SUPABASE_URL cfg)) as [|c endpoint];
      [discriminate Hh|].
    cbn [String.prefix] in Hh.
    destruct (ascii_dec "h"%char c) as [<-|]; [|discriminate Hh].
    destruct (rstrip_cons Py.is_slash "h"%char endpoint eq_refl) as [r Hr].
    unfold Py.rstrip_slash. rewrite Hr. unfold Py.startswith.
    rewrite sapp_cons. cbn [String.prefix].
    destruct (ascii_dec "h"%char "u"%char) as [E|_]; [discriminate E|].
    apply andb_false_r.
Qed.

End UploadedAddress.

(** ** The shape of the rendered body *)

Section ParagraphShape.

Lemma strip_idempotent s : Py.strip (Py.strip s) = Py.strip s.
Proof.
  destruct (non_empty (Py.strip s)) eqn:E.
  - destruct (strip_shape s E) as [H1 H2]. now apply strip_id.
  - destruct (Py.strip s); [reflexivity|discriminate].
Qed.

(** X21. The body of the rendered document consists of paragraphs,
    each followed by a spacer of 12 units; every paragraph has more than
    10 characters and neither leading nor trailing white space, and there
    are at most as many as there are segments of the text. *)
Theorem paragraph_blocks_shape (text_content : string) :
  exists paras,
    paragraph_blocks text_content = flat_map paragraph_block paras
    /\ Forall (fun para => 10 < Py.len para /\ Py.strip para = para) paras
    /\ length paras <= length (Py.split paragraph_separator text_content).
Proof.
  unfold paragraph_blocks.
  generalize (Py.split paragraph_separator text_content).
  induction l as [|p l (paras & E & F & L)].
  - exists []. split; [reflexivity|]. split; [constructor|]. simpl. lia.
  - cbn [flat_map]. rewrite E.
    destruct (non_empty (Py.strip p)).
    2:{ exists paras. split; [reflexivity|]. split; [exact F|]. simpl. lia. }
    destruct (10 <? Py.len _)%nat eqn:Hl.
    2:{ exists paras. split; [reflexivity|]. split; [exact F|]. simpl. lia. }
    exists (Py.strip (Py.replace escaped_newline " " p) :: paras).
    split; [reflexivity|]. split; [|simpl; lia].
    constructor; [|exact F]. split; [now apply Nat.ltb_lt|].
    apply strip_idempotent.
Qed.

End ParagraphShape.

(** ** Rendering leaves the catalog alone *)

Section Isolation.

Variables (env : Env) (cfg : Config) (mods : Modules).

(** X22. Rendering and storing an artifact never navigates the
    browser, never appends to [results], sends no statement to the
    database and leaves the table and the connection as they are. *)
Theorem rendering_leaves_catalog_alone
  (text_content pdf_path url pid : string) (w : World) :
  let r := create_pdf_from_text env cfg mods text_content pdf_path url pid w in
  documents (snd r) = documents w
  /\ pending (snd r) = pending w
  /\ exists l,
       log (snd r) = (log w ++ l)%list
       /\ Forall (fun o => is_driver_get o = false
                           /\ is_results_append o = false
                           /\ is_db_op o = false) l.
Proof.
  cbv zeta.
  destruct (create_pdf_keeps env cfg mods text_content pdf_path url pid w)
    as [D Q].
  destruct (create_pdf_emits env cfg mods text_content pdf_path url pid w)
    as (l & E & F).
  split; [exact D|]. split; [exact Q|]. exists l. split; [exact E|].
  eapply Forall_impl; [exact F|]. now intros o [[H1 H2] H3].
Qed.

End Isolation.

(** ** The temporary file of process_document *)

Section Cleanup.

Variables (env : Env) (cfg : Config) (mods : Modules).

Lemma log_grows {A : Type} (m : M A) :
  emits (fun _ => True) m ->
  forall w, exists l, log (snd (m w)) = (log w ++ l)%list.
Proof. intros H w. destruct (H w) as (l & E & _). eauto. Qed.

(** X23. The temporary file of [process_document]: when the download
    fails nothing follows it, so nothing is removed; when it succeeds,
    the removal of the downloaded file is the last operation of the run,
    whether extraction and update succeed or not. *)
Theorem staged_file_removed (document_id : string) (w w1 : World)
  (d : Document) :
  PdfReader mods = true ->
  get_document_by_id env cfg mods document_id w = (Ok (Some d), w1) ->
  Py.truthy (file_path d) = true ->
  (forall w2,
     download_pdf_from_url env (value (file_path d)) w1 = (Ok None, w2) ->
     snd (process_document env cfg mods document_id w) = w2)
  /\ (forall staged w2,
        download_pdf_from_url env (value (file_path d)) w1
        = (Ok (Some staged), w2) ->
        staged <> EmptyString ->
        exists l,
          log (snd (process_document env cfg mods document_id w))
          = (log w2 ++ l ++ [Remove staged])%list).
Proof.
  intros HP Hget Ht. unfold process_document. rewrite HP. cbn [negb].
  rewrite run_bind, Hget. cbv beta iota. rewrite Ht. cbn [negb].
  rewrite run_bind. split.
  - intros w2 ->. reflexivity.
  - intros staged w2 -> Hs. destruct staged as [|c0 staged]; [contradiction|].
    cbv beta iota. unfold try_finally.
    match goal with |- context [(let (r, w') := ?body w2 in _)] =>
      assert (H : emits (fun _ => True) body)
    end.
    { unfold extract_text_from_pdf, update_document_content, ignore_errors,
        db_connect, db_commit, db_close, db_stage.
      effects. }
    match goal with |- context [(let (r, w') := ?body w2 in _)] =>
      destruct (log_grows body H w2) as (l & E);
      destruct (body w2) as [r3 w3]
    end.
    simpl in E.
    destruct (cleanup_run env (String c0 staged) w3) as (w' & -> & _ & E').
    exists l. simpl. now rewrite E', E, <- app_assoc.
Qed.

End Cleanup.

(** ** Where the output entries come from *)

Section Provenance.

Lemma omap_source {X Y : Type} (f : X -> option Y) (l : list X) (y : Y) :
  In y (omap f l) -> exists x, In x l /\ f x = Some y.
Proof.
  induction l as [|x l IH]; [intros []|]. simpl.
  destruct (f x) as [y'|] eqn:E.
  - intros [<-|H]; [exists x; auto|].
    destruct (IH H) as (x' & H1 & H2). exists x'. auto.
  - intros H. destruct (IH H) as (x' & H1 & H2). exists x'. auto.
Qed.

Lemma main_block_acceptable e b :
  main_block e = Some b -> acceptable (get_text " " e) = true.
Proof.
  unfold main_block. now destruct (acceptable (get_text " " e)).
Qed.

Lemma acceptable_no_cookie text :
  acceptable text = true ->
  Py.contains "cookie" (Py.lower text) = false
  /\ Py.contains "subscribe" (Py.take 30 (Py.lower text)) = false.
Proof.
  unfold acceptable. intros H.
  apply andb_prop in H as [H Hs]. apply andb_prop in H as [_ Hc].
  apply negb_true_iff in Hs, Hc. now split.
Qed.

(** X24. Every entry of the output comes from an element of the
    cleaned document: either from a content element whose text passed the
    filter of the main pass, so that the text does not contain "cookie"
    and its first 30 characters do not contain "subscribe", whatever
    the case of the letters; or, when the main pass found nothing at all, from an inline
    element below the body whose text has more than 5 characters. *)
Theorem entries_provenance (doc : soup) (x : string) :
  x ∈ unique_content (text_content_of (cleaned doc)) ->
  (exists element block,
     In element (find_all content_tags (cleaned doc))
     /\ main_block element = Some block
     /\ x = clean_text_of block
     /\ Py.contains "cookie" (Py.lower (get_text " " element)) = false
     /\ Py.contains "subscribe"
          (Py.take 30 (Py.lower (get_text " " element))) = false)
  \/ (omap main_block (find_all content_tags (cleaned doc)) = []
      /\ exists element,
           In element (find_all inline_tags (body_contents (cleaned doc)))
           /\ x = clean_text_of (get_text EmptyString element)
           /\ 5 < Py.len (get_text EmptyString element)).
Proof.
  generalize (cleaned doc). intros d Hx.
  unfold unique_content in Hx. apply unique_loop_elem in Hx as (_ & Hx & _).
  apply list_elem_of_In, in_map_iff in Hx as (b & <- & Hb).
  unfold text_content_of in Hb.
  destruct (omap main_block (find_all content_tags d)) as [|b0 l] eqn:E.
  - right. split; [reflexivity|].
    apply omap_source in Hb as (e & He & Hf). exists e. split; [exact He|].
    unfold fallback_block in Hf.
    destruct (non_empty _ && (5 <? _)%nat && _) eqn:C; [|discriminate Hf].
    injection Hf as <-. split; [reflexivity|].
    apply andb_prop in C as [C _]. apply andb_prop in C as [_ C].
    now apply Nat.ltb_lt.
  - left. rewrite <- E in Hb.
    apply omap_source in Hb as (e & He & Hf). exists e, b.
    split; [exact He|]. split; [exact Hf|]. split; [reflexivity|].
    apply acceptable_no_cookie. now apply (main_block_acceptable e b).
Qed.

End Provenance.

(** ** The temporary file of create_pdf_from_text *)

Section StagedArtifact.

Variables (env : Env) (cfg : Config) (mods : Modules).

(** X26. With an object store, the temporary file of
    [create_pdf_from_text] (a PDF, or a text file without the PDF
    library) is removed as the last operation of every call that returns,
    whether the store accepted the upload or not; when the call raises,
    the file was never removed. *)
Theorem staged_artifact_removed_after_upload
  (text_content pdf_path url pid : string) (w : World) :
  supabase_configured cfg (SUPABASE_BUCKET cfg) = true ->
  let run := create_pdf_from_text env cfg mods text_content pdf_path url pid in
  let suffix := if SimpleDocTemplate mods then ".pdf" else ".txt" in
  let staged := answer env (NamedTemporaryFile suffix) (clock w) in
  (forall created, fst (run w) = Ok created ->
                   last (ops_of run w) = Some (Remove staged))
  /\ (forall e, fst (run w) = Raise e ->
                Forall (fun o => is_remove o = false) (ops_of run w)).
Proof.
  intros HC. cbv zeta.
  unfold ops_of, create_pdf_from_text, upload_to_supabase. rewrite HC.
  destruct (SimpleDocTemplate mods); cbn [negb];
    unfold ignore_errors, try_except, perform, ask, ask_http, raise, mbind,
      M_bind, mret, M_ret; simpl;
    repeat oracle_step; try destruct (upload_succeeded _); simpl;
    repeat oracle_step;
    (split; [intros created Hc; try discriminate Hc
            |intros e0 He; try discriminate He]);
    rewrite <- ?app_assoc; rewrite drop_app_length; simpl;
    first [reflexivity | now repeat constructor].
Qed.

End StagedArtifact.

(** ** The properties with hypotheses on concrete runs *)

(** A block with irregular white space. *)
Lemma unique_content_normalised_witness :
  clean_text_of "The policy applies" = "The policy applies"
  /\ Py.strip "The policy applies" = "The policy applies"
  /\ 2 < Py.len "The policy applies"
  /\ Py.all_chars (differs_from "010"%char) "The policy applies" = true.
Proof.
  apply (unique_content_normalised ["  The   policy applies "]).
  vm_compute. constructor.
Defined.

(** The first insert into an empty catalog, then the lookup. *)
Lemma insert_then_lookup_witness :
  let env := site_env "Example Domain" in
  let cfg := store_cfg "https://store.example" in
  let inserted :=
    insert_document_record env cfg all_modules (Some "proj")
      "proj_example_com.pdf" stored_pdf "scrape" "pending" None empty_world in
  fst (get_document_by_id env cfg all_modules "uuid-2" (snd inserted))
  = Ok (Some (insert_row "uuid-2" (Some "proj") "proj_example_com.pdf"
                         stored_pdf "scrape" "pending" None))
  /\ ~ In "uuid-2" (List.map id (documents empty_world)).
Proof.
  cbv zeta.
  apply (insert_then_lookup (site_env "Example Domain")
           (site_env "Example Domain") (store_cfg "https://store.example")
           all_modules (Some "proj") "proj_example_com.pdf" stored_pdf
           "scrape" "pending" None empty_world).
  - vm_compute. reflexivity.
  - intros o t. reflexivity.
Defined.

(** The three functions on a catalog with one row. *)
Lemma catalog_connection_closed_witness :
  let env := site_env "Example Domain" in
  let cfg := store_cfg "https://store.example" in
  let w := pending_world (Some stored_pdf) in
  pending (snd (insert_document_record env cfg all_modules (Some "proj")
                  "proj_example_com.pdf" stored_pdf "scrape" "pending" None w))
  = None
  /\ pending (snd (update_document_content env cfg all_modules "doc-1"
                     "Page one text" w)) = None
  /\ pending (snd (get_document_by_id env cfg all_modules "doc-1" w)) = None.
Proof.
  cbv zeta.
  apply (catalog_connection_closed (site_env "Example Domain")
           (store_cfg "https://store.example") all_modules);
    [reflexivity|reflexivity|intros t; reflexivity].
Defined.

(** The pending row of the catalog is updated, then looked up. *)
Lemma update_then_lookup_witness :
  let cfg := store_cfg "https://store.example" in
  let w := pending_world (Some stored_pdf) in
  let updated :=
    update_document_content two_page_env cfg all_modules "doc-1"
                            "Page one text" w in
  exists d,
    List.find (has_id "doc-1") (documents w) = Some d
    /\ fst (get_document_by_id two_page_env cfg all_modules "doc-1"
                               (snd updated))
       = Ok (Some {| id := id d; project_id := project_id d;
                     filename := filename d; file_path := file_path d;
                     source := source d; status := Some "processed";
                     document_content := Some "Page one text" |}).
Proof.
  cbv zeta.
  apply (update_then_lookup two_page_env two_page_env
           (store_cfg "https://store.example") all_modules "doc-1"
           "Page one text" (pending_world (Some stored_pdf))).
  - vm_compute. reflexivity.
  - intros o t. reflexivity.
Defined.

(** A row without a file path: status 400, the table as it was. *)
Lemma process_document_errors_witness :
  let cfg := store_cfg "https://store.example" in
  let e := HTTPException 400 "Document has no file_path" in
  (exists detail, e = HTTPException 400 detail
                  \/ e = HTTPException 404 detail
                  \/ e = HTTPException 500 detail)
  /\ (e <> update_failure ->
      documents (snd (process_document two_page_env cfg all_modules "doc-1"
                                       (pending_world None)))
      = documents (pending_world None)).
Proof.
  cbv zeta.
  apply (process_document_errors two_page_env
           (store_cfg "https://store.example") all_modules "doc-1"
           (pending_world None)).
  vm_compute. reflexivity.
Defined.

(** The stored PDF has two pages with text, and the request spells the
    identifier of the row in upper case: the row holds the join of the
    pages. *)
Lemma process_document_success_witness :
  let cfg := store_cfg "https://store.example" in
  let w := pending_world (Some stored_pdf) in
  let w' := snd (process_document two_page_env cfg all_modules "DOC-1" w) in
  exists text_,
    text_ <> EmptyString
    /\ processed_response "DOC-1"
         ("Page one text" ++ Py.nl ++ Py.nl ++ "Page two")
       = processed_response "DOC-1" text_
    /\ Forall2 (same_but_content "DOC-1") (documents w) (documents w')
    /\ (exists d, In d (documents w')
                  /\ uuid_key (id d) = uuid_key "DOC-1")
    /\ forall d, In d (documents w') ->
                 uuid_key (id d) = uuid_key "DOC-1" ->
                 status d = Some "processed"
                 /\ document_content d = Some text_.
Proof.
  cbv zeta.
  apply (process_document_success two_page_env
           (store_cfg "https://store.example") all_modules "DOC-1"
           (pending_world (Some stored_pdf))).
  vm_compute. reflexivity.
Defined.

(** A page rendered on an installation without object store. *)
Lemma local_save_keeps_staged_file_witness :
  let env := site_env "Example Domain" in
  let run := create_pdf_from_text env local_cfg all_modules
               "Policy text of the page" "proj_example_com.pdf" page_url
               "proj" in
  (forall created, fst (run empty_world) = Ok created ->
                   created = "/tmp/tmpfile.pdf")
  /\ Forall (fun o => is_replace o = false) (ops_of run empty_world)
  /\ (raises env (NamedTemporaryFile ".pdf") 0 = None ->
      raises env Strftime 1 = None ->
      raises env (DocBuild "/tmp/tmpfile.pdf"
                    (story_of "Policy text of the page" page_url "proj"
                              "2024-01-01 00:00:00")) 2 = None ->
      fst (run empty_world) = Ok "/tmp/tmpfile.pdf").
Proof.
  exact (local_save_keeps_staged_file (site_env "Example Domain") local_cfg
           all_modules "Policy text of the page" "proj_example_com.pdf"
           page_url "proj" empty_world eq_refl eq_refl eq_refl).
Defined.


(** An accepted upload to an endpoint with a trailing slash. *)
Lemma upload_result_and_catalog_test_witness :
  let env := site_env "Example Domain" in
  let cfg := store_cfg "https://store.example/" in
  let res := "https://store.example/storage/v1/object/public/docs/a.pdf" in
  (res = public_object_url cfg (value (Some "docs")) (Py.lstrip_slash "/a.pdf")
   /\ looks_uploaded cfg res = true)
  \/ (exists resp,
        upload_succeeded resp = false
        /\ res = "upload_failed: " ++ Py.str_of_nat (status_code resp)
                 ++ " " ++ text resp
        /\ (Py.startswith (value (SUPABASE_URL cfg)) "http" = true ->
            looks_uploaded cfg res = false)).
Proof.
  cbv zeta.
  apply (upload_result_and_catalog_test (site_env "Example Domain")
           (store_cfg "https://store.example/") "/tmp/tmpfile.pdf"
           (Some "docs") "/a.pdf" empty_world
           (snd (upload_to_supabase (site_env "Example Domain")
                   (store_cfg "https://store.example/") "/tmp/tmpfile.pdf"
                   (Some "docs") "/a.pdf" empty_world))).
  vm_compute. reflexivity.
Defined.

(** The reprocessing of the stored PDF. *)
Lemma staged_file_removed_witness :
  let cfg := store_cfg "https://store.example" in
  let w := pending_world (Some stored_pdf) in
  let w1 := snd (get_document_by_id two_page_env cfg all_modules "doc-1" w) in
  let d := pending_document (Some stored_pdf) in
  (forall w2,
     download_pdf_from_url two_page_env (value (file_path d)) w1
     = (Ok None, w2) ->
     snd (process_document two_page_env cfg all_modules "doc-1" w) = w2)
  /\ (forall staged w2,
        download_pdf_from_url two_page_env (value (file_path d)) w1
        = (Ok (Some staged), w2) ->
        staged <> EmptyString ->
        exists l,
          log (snd (process_document two_page_env cfg all_modules "doc-1" w))
          = (log w2 ++ l ++ [Remove staged])%list).
Proof.
  cbv zeta.
  apply (staged_file_removed two_page_env (store_cfg "https://store.example")
           all_modules "doc-1" (pending_world (Some stored_pdf))).
  - reflexivity.
  - vm_compute. reflexivity.
  - reflexivity.
Defined.

(** The entry of the one-word heading. *)
Lemma entries_provenance_witness :
  let doc := [scope_heading] in
  let x := "[HEADING] Scope" in
  (exists element block,
     In element (find_all content_tags (cleaned doc))
     /\ main_block element = Some block
     /\ x = clean_text_of block
     /\ Py.contains "cookie" (Py.lower (get_text " " element)) = false
     /\ Py.contains "subscribe"
          (Py.take 30 (Py.lower (get_text " " element))) = false)
  \/ (omap main_block (find_all content_tags (cleaned doc)) = []
      /\ exists element,
           In element (find_all inline_tags (body_contents (cleaned doc)))
           /\ x = clean_text_of (get_text EmptyString element)
           /\ 5 < Py.len (get_text EmptyString element)).
Proof.
  cbv zeta. apply (entries_provenance [scope_heading]).
  vm_compute. constructor.
Defined.

(** Two URLs fetched over HTTP because the browser cannot reach them. *)
Lemma scrape_result_shapes_witness :
  let cfg := store_cfg "https://store.example" in
  let run := scrape dead_browser_env cfg all_modules [page_url; policy_url]
                    "proj" empty_world in
  Forall2 entry_shape [page_url; policy_url]
          (match fst run with Ok results => results | Raise _ => [] end).
Proof.
  cbv zeta.
  apply (scrape_result_shapes dead_browser_env
           (store_cfg "https://store.example") all_modules "proj"
           [page_url; policy_url] empty_world
           (snd (scrape dead_browser_env (store_cfg "https://store.example")
                        all_modules [page_url; policy_url] "proj"
                        empty_world))).
  vm_compute. reflexivity.
Defined.

(** A page rendered and stored on a full installation. *)
Lemma staged_artifact_removed_after_upload_witness :
  let cfg := store_cfg "https://store.example" in
  let env := site_env "Example Domain" in
  let run := create_pdf_from_text env cfg all_modules
               "Policy text of the page" "proj_example_com.pdf" page_url
               "proj" in
  (forall created, fst (run empty_world) = Ok created ->
                   last (ops_of run empty_world)
                   = Some (Remove "/tmp/tmpfile.pdf"))
  /\ (forall e, fst (run empty_world) = Raise e ->
                Forall (fun o => is_remove o = false) (ops_of run empty_world)).
Proof.
  exact (staged_artifact_removed_after_upload (site_env "Example Domain")
           (store_cfg "https://store.example") all_modules
           "Policy text of the page" "proj_example_com.pdf" page_url "proj"
           empty_world eq_refl).
Defined.

